(** * The logger of http_server: Logger.h and Logger.cpp

    A shallow embedding of the [log] namespace: severities, events ([Line]),
    [Worker], the global [manager], and the text a Worker writes.  The
    standard library pieces the code calls (std::filesystem, the streams, the
    clock, std::mutex) are modelled by a small world that the operations
    thread; what the C++ standard leaves undefined, or what never returns, is
    an explicit [Abort] outcome that keeps the state reached. *)

From Stdlib Require Import ZArith Ascii String DecimalString Lia.
From Stdlib Require HexadecimalString.
From stdpp Require Import base gmap strings list.

(** ** Text helpers: the std::string and iostream operations the code uses *)

Definition nl : ascii := "010"%char.
Definition esc : ascii := "027"%char.
Definition dquote : ascii := "034"%char.
Definition backslash : ascii := "092"%char.

(** [msg.size()]. *)
Definition size (s : string) : nat := String.length s.

(** [std::string(n, c)]. *)
Fixpoint fill (n : nat) (c : ascii) : string :=
  match n with
  | O => EmptyString
  | S n' => String c (fill n' c)
  end.

(** [os << std::setw(w) << s] on a stream whose fill character is [c] and whose
    adjustment is the default one: padding goes to the left. *)
Definition setw (w : nat) (c : ascii) (s : string) : string :=
  fill (w - size s) c +:+ s.

(** [os << n] for an integer, in decimal. *)
Definition dec (n : Z) : string := NilZero.string_of_int (Z.to_int n).

(** [msg.back()]: the last character; undefined on the empty string. *)
Fixpoint back (s : string) : option ascii :=
  match s with
  | EmptyString => None
  | String c EmptyString => Some c
  | String _ s' => back s'
  end.

(** [msg.pop_back()]. *)
Fixpoint pop_back (s : string) : string :=
  match s with
  | EmptyString => EmptyString
  | String _ EmptyString => EmptyString
  | String c s' => String c (pop_back s')
  end.

(** [msg.find(c, start)]: the first index at or after [start] that holds [c];
    [None] is [std::string::npos]. *)
Fixpoint find (c : ascii) (s : string) (start : nat) : option nat :=
  match s with
  | EmptyString => None
  | String a s' =>
      match start with
      | O => if Ascii.eqb a c then Some O else S <$> find c s' O
      | S start' => S <$> find c s' start'
      end
  end.

(** [msg.substr(pos, n)], for [pos <= msg.size()]: at most [n] characters. *)
Definition substr (s : string) (pos n : nat) : string := substring pos n s.

(** [os << std::quoted(s)], which is how a std::filesystem::path is written to
    a stream: the text between double quotes, a backslash before each double
    quote and each backslash. *)
Fixpoint quoted_body (s : string) : string :=
  match s with
  | EmptyString => EmptyString
  | String c s' =>
      if Ascii.eqb c dquote || Ascii.eqb c backslash
      then String backslash (String c (quoted_body s'))
      else String c (quoted_body s')
  end.

Definition quoted (s : string) : string :=
  String dquote (quoted_body s +:+ String dquote EmptyString).

(** ** Severity (Logger.h, enum Level : std::uint8_t) *)

Inductive Level := CRITICAL | ERROR | WARNING | INFO | DEBUG | TRACE.

(** The enumerator's value. *)
Definition ord (l : Level) : Z :=
  match l with
  | CRITICAL => 0
  | ERROR => 1
  | WARNING => 2
  | INFO => 3
  | DEBUG => 4
  | TRACE => 5
  end.

Definition LEVEL_FMT_WIDTH : nat := 8.
Definition TIME_FMT_WIDTH : nat := 25.
Definition FULL_LOG_WIDTH : nat := 100.

Definition colorStr (level : Level) : string :=
  match level with
  | CRITICAL => String esc "[31;1m"
  | ERROR => String esc "[31m"
  | WARNING => String esc "[33m"
  | INFO => EmptyString
  | DEBUG => String esc "[2m"
  | TRACE => String esc "[2;3m"
  end.

Definition levelStr (level : Level) : string :=
  match level with
  | CRITICAL => "CRITICAL"
  | ERROR => "ERROR"
  | WARNING => "WARNING"
  | INFO => "INFO"
  | DEBUG => "DEBUG"
  | TRACE => "TRACE"
  end.

Definition resetColor : string := String esc "[0m".

(** ** std::filesystem::path

    A path is kept in the shape [operator==] compares: whether it has a root
    directory, and its filenames in order.  The empty path (no root, no
    filename) is the console's identity. *)

Abbreviation path := (bool * list string)%type.

Definition path_empty (p : path) : bool :=
  negb (fst p) && bool_decide (snd p = []).

(** [p.parent_path()]: the path without its last filename; a path with no
    filename is its own parent. *)
Definition parent_path (p : path) : path :=
  match snd p with
  | [] => p
  | _ :: _ => (fst p, removelast (snd p))
  end.

Definition has_parent_path (p : path) : bool := negb (path_empty (parent_path p)).

(** [p.filename().string()]. *)
Definition filename (p : path) : string := List.last (snd p) EmptyString.

Fixpoint join_filenames (fs : list string) : string :=
  match fs with
  | [] => EmptyString
  | [f] => f
  | f :: fs' => f +:+ "/" +:+ join_filenames fs'
  end.

(** [p.string()]. *)
Definition path_string (p : path) : string :=
  (if fst p then "/" else EmptyString) +:+ join_filenames (snd p).

(** The path that the literal "console" converts to in
    [(path.empty() ? "console" : path)], whose type is path. *)
Definition console_path : path := (false, ["console"]).

(** ** The world outside the logger *)

(** One reading of the clock: [put_time(&tm, "%F %T")] of the local time, and
    [tv_usec]. *)
Record timeval := { tm_text : string; tv_usec : Z }.

Record World := {
  cout_good : bool;            (* std::cout.good() *)
  cout : string;               (* what std::cout has received *)
  dirs : gset path;            (* the directories that exist *)
  files : gmap path string;    (* the regular files and their contents *)
  denied : gset path;          (* what may not be created or opened for writing *)
  clock : nat -> timeval;      (* the successive readings of the clock *)
  ticks : nat                  (* how many readings have been taken *)
}.

Definition with_cout (w : World) (c : string) : World :=
  {| cout_good := cout_good w; cout := c; dirs := dirs w; files := files w;
     denied := denied w; clock := clock w; ticks := ticks w |}.

Definition with_dirs (w : World) (d : gset path) : World :=
  {| cout_good := cout_good w; cout := cout w; dirs := d; files := files w;
     denied := denied w; clock := clock w; ticks := ticks w |}.

Definition with_files (w : World) (f : gmap path string) : World :=
  {| cout_good := cout_good w; cout := cout w; dirs := dirs w; files := f;
     denied := denied w; clock := clock w; ticks := ticks w |}.

Definition with_ticks (w : World) (n : nat) : World :=
  {| cout_good := cout_good w; cout := cout w; dirs := dirs w; files := files w;
     denied := denied w; clock := clock w; ticks := n |}.

(** The root directory always exists. *)
Definition is_directory (w : World) (p : path) : bool :=
  bool_decide (p ∈ dirs w) || (fst p && bool_decide (snd p = [])).

Definition is_regular_file (w : World) (p : path) : bool :=
  bool_decide (is_Some (files w !! p)).

(** [std::filesystem::exists(p)]. *)
Definition fs_exists (w : World) (p : path) : bool :=
  is_directory w p || is_regular_file w p.

(** The text of the file at [p]; a file that is not there has none. *)
Definition file_text (w : World) (p : path) : string :=
  default EmptyString (files w !! p).

(** [std::filesystem::create_directories(p)]: every directory on the way to
    [p], outermost first.  [None] is the filesystem_error it throws when a
    regular file is in the way or the directory may not be created. *)
Fixpoint create_dirs (r : bool) (pre rest : list string) (w : World) : option World :=
  match rest with
  | [] => Some w
  | f :: rest' =>
      let d := (r, (pre ++ [f])) in
      if is_directory w d then create_dirs r (pre ++ [f]) rest' w
      else if is_regular_file w d || bool_decide (d ∈ denied w) then None
      else create_dirs r (pre ++ [f]) rest' (with_dirs w ({[ d ]} ∪ dirs w))
  end.

Definition create_directories (p : path) (w : World) : option World :=
  create_dirs (fst p) [] (snd p) w.

(** [std::ofstream(p, std::ios::app)]: whether the stream is good after the
    open, and the world after it (a file that was not there is created
    empty; one that was there keeps its text). *)
Definition open_append (p : path) (w : World) : bool * World :=
  if path_empty p || is_directory w p || bool_decide (p ∈ denied w) then (false, w)
  else match files w !! p with
       | Some _ => (true, w)
       | None =>
           if has_parent_path p && negb (is_directory w (parent_path p)) then (false, w)
           else (true, with_files w (<[p := EmptyString]> (files w)))
       end.

(** ** Events, Workers and the manager *)

Record Line := {
  line_level : Level;
  line_file : string;
  line_line : Z;
  line_func : string;
  line_msg : string
}.

(** [std::unique_ptr<std::ofstream>]'s pointee: the stream's state bit. *)
Record ofstream := { of_good : bool }.

Record Worker := {
  m_path : path;
  m_level : Level;
  m_stream : option ofstream   (* None is nullptr *)
}.

(** The global [manager] (its mutex and its vector) and the world. *)
Record State := {
  world : World;
  m_mutex : bool;               (* true while a lock_guard holds it *)
  m_workers : list Worker
}.

Definition with_world (s : State) (w : World) : State :=
  {| world := w; m_mutex := m_mutex s; m_workers := m_workers s |}.

Definition with_mutex (s : State) (b : bool) : State :=
  {| world := world s; m_mutex := b; m_workers := m_workers s |}.

Definition with_workers (s : State) (ws : list Worker) : State :=
  {| world := world s; m_mutex := m_mutex s; m_workers := ws |}.

(** ** Outcomes *)

Inductive Fault :=
| FilesystemError   (* std::filesystem::filesystem_error leaves the call *)
| Relock            (* lock() on the std::mutex the thread holds: it never returns *)
| BackOfEmpty       (* back() on an empty string: a read out of bounds *)
| NullStream        (* *m_stream with m_stream == nullptr *)
| OutOfFuel.        (* a loop of the model ran out of steps *)

Inductive Outcome (A : Type) :=
| Ret (a : A) (s : State)
| Abort (f : Fault) (s : State).

Arguments Ret {A} a s.
Arguments Abort {A} f s.

Definition state_of {A} (o : Outcome A) : State :=
  match o with
  | Ret _ s => s
  | Abort _ s => s
  end.

Definition M (A : Type) : Type := State -> Outcome A.

Definition ret {A} (a : A) : M A := fun s => Ret a s.

Definition bind {A B} (c : M A) (k : A -> M B) : M B :=
  fun s =>
    match c s with
    | Ret a s' => k a s'
    | Abort f s' => Abort f s'
    end.

Definition abort {A} (f : Fault) : M A := fun s => Abort f s.

Notation "'let*' x ':=' c 'in' k" := (bind c (fun x => k))
  (at level 10, x name, c at level 100, k at level 200, only parsing).
Notation "c >> k" := (bind c (fun _ => k))
  (at level 90, right associativity, only parsing).

Definition get : M State := fun s => Ret s s.
Definition when (b : bool) (c : M unit) : M unit := if b then c else ret tt.

(** ** The clock *)

(** [timeStr()]: the local time to the second, a dot, and the milliseconds
    ([tv_usec / std::milli::den]) on three digits. *)
Definition timeStr : M string := fun s =>
  let w := world s in
  let time_value := clock w (ticks w) in
  Ret (tm_text time_value +:+ "." +:+ setw 3 "0" (dec (Z.quot (tv_usec time_value) 1000)))
      (with_world s (with_ticks w (S (ticks w)))).

(** ** Worker *)

Definition console (wk : Worker) : bool := path_empty (m_path wk).

Definition good (wk : Worker) (w : World) : bool :=
  (path_empty (m_path wk) && cout_good w)
  || match m_stream wk with
     | Some f => of_good f
     | None => false
     end.

Definition setLevel (wk : Worker) (level : Level) : Worker :=
  {| m_path := m_path wk; m_level := level; m_stream := m_stream wk |}.

(** [stream() << text]: std::cout for the console, [*m_stream] otherwise.  A
    stream that is not good ignores what is written to it. *)
Definition put (wk : Worker) (text : string) : M unit := fun s =>
  let w := world s in
  if path_empty (m_path wk) then
    if cout_good w then Ret tt (with_world s (with_cout w (cout w +:+ text)))
    else Ret tt s
  else
    match m_stream wk with
    | None => Abort NullStream s
    | Some f =>
        if of_good f then
          Ret tt (with_world s (with_files w
                    (<[m_path wk := file_text w (m_path wk) +:+ text]> (files w))))
        else Ret tt s
    end.

(** [while (msg.back() == '\n') { msg.pop_back(); }] *)
Fixpoint strip_newlines (fuel : nat) (msg : string) : M string :=
  match back msg with
  | None => abort BackOfEmpty
  | Some c =>
      if Ascii.eqb c nl then
        match fuel with
        | O => abort OutOfFuel
        | S fuel' => strip_newlines fuel' (pop_back msg)
        end
      else ret msg
  end.

(** The loop of Worker::log over the lines of [msg], from index [start]. *)
Fixpoint write_lines (fuel : nat) (wk : Worker) (msg : string) (start : nat) : M unit :=
  if start <? size msg then
    match fuel with
    | O => abort OutOfFuel
    | S fuel' =>
        let end_ := default (size msg) (find nl msg start) in
        when (0 <? start)
          (put wk (fill (TIME_FMT_WIDTH + LEVEL_FMT_WIDTH + 3) " ") >> put wk " -> ") >>
        put wk (substr msg start (end_ - start + 1)) >>
        write_lines fuel' wk msg (end_ + 1)
    end
  else ret tt.

(** [Worker::log], on a stream whose formatting state is the one a stream is
    constructed with: no width pending, the space as fill character, padding
    before the text, integers in decimal.  The call on a stream in any other
    state is [Worker_log_fmt] below. *)
Definition Worker_log (wk : Worker) (line : Line) : M unit :=
  let* s := get in
  if negb (good wk (world s)) || (ord (line_level line) >? ord (m_level wk))%Z
  then ret tt
  else
    when (console wk) (put wk (colorStr (line_level line))) >>
    (let* t := timeStr in put wk t) >>
    put wk " | [" >>
    put wk (setw LEVEL_FMT_WIDTH " " (levelStr (line_level line))) >>
    put wk "] " >>
    put wk (line_file line) >> put wk ":" >> put wk (dec (line_line line)) >>
    put wk " in " >> put wk (line_func line) >> put wk "(): " >>
    let* msg := strip_newlines (size (line_msg line)) (line_msg line) in
    write_lines (size msg) wk msg 0 >>
    when (console wk) (put wk resetColor) >>
    put wk (String nl EmptyString).

(** ** Manager::log and the LOG macro *)

Definition lock : M unit := fun s =>
  if m_mutex s then Abort Relock s else Ret tt (with_mutex s true).

Definition unlock (s : State) : State := with_mutex s false.

(** [const std::lock_guard<std::mutex> lock(m_mutex);] and the rest of its
    scope: the mutex is released when the scope is left, by its end, by a
    return or by an exception. *)
Definition lock_guard {A} (body : M A) : M A := fun s =>
  match lock s with
  | Abort f s' => Abort f s'
  | Ret _ s1 =>
      match body s1 with
      | Ret a s2 => Ret a (unlock s2)
      | Abort FilesystemError s2 => Abort FilesystemError (unlock s2)
      | Abort f s2 => Abort f s2
      end
  end.

Fixpoint for_each (ws : list Worker) (f : Worker -> M unit) : M unit :=
  match ws with
  | [] => ret tt
  | wk :: ws' => f wk >> for_each ws' f
  end.

(** [Manager::log] *)
Definition Manager_log (line : Line) : M unit :=
  lock_guard (let* s := get in for_each (m_workers s) (fun wk => Worker_log wk line)).

(** [Line::Line] and [Line::operator<<]. *)
Definition Line_ctor (level : Level) (file : path) (line : Z) (func : string) : Line :=
  {| line_level := level; line_file := filename file; line_line := line;
     line_func := func; line_msg := EmptyString |}.

Definition Line_shl (l : Line) (text : string) : Line :=
  {| line_level := line_level l; line_file := line_file l; line_line := line_line l;
     line_func := line_func l; line_msg := line_msg l +:+ text |}.

(** [LOG(level) << t1 << ... << tn;]: the temporary Line is destroyed at the
    end of the statement, and [Line::~Line] hands it to [manager.log]. *)
Definition LOG (level : Level) (file : path) (line : Z) (func : string)
    (texts : list string) : M unit :=
  Manager_log (fold_left Line_shl texts (Line_ctor level file line func)).

(** [__FILE__] in Logger.cpp; whatever directory the build names, [filename()]
    drops it. *)
Definition Logger_cpp : path := (false, ["src"; "Logger.cpp"]).

(** [os << p] for a path. *)
Definition show_path (p : path) : string := quoted (path_string p).

(** ** Worker::Worker *)

Definition fs_create_directories (p : path) : M unit := fun s =>
  match create_directories p (world s) with
  | Some w => Ret tt (with_world s w)
  | None => Abort FilesystemError s
  end.

Definition make_ofstream (p : path) : M ofstream := fun s =>
  Ret {| of_good := fst (open_append p (world s)) |}
      (with_world s (snd (open_append p (world s)))).

Definition Worker_ctor (p : path) (level : Level) : M Worker :=
  let this0 := {| m_path := p; m_level := level; m_stream := None |} in
  if path_empty p then ret this0
  else
    let* s := get in
    when (negb (fs_exists (world s) p) && has_parent_path p)
      (fs_create_directories (parent_path p)) >>
    let* f := make_ofstream p in
    let this := {| m_path := p; m_level := level; m_stream := Some f |} in
    let* s1 := get in
    if negb (good this (world s1)) then
      LOG WARNING Logger_cpp 79 "Worker"
        ["Failed to open log at ";
         show_path (if console this then console_path else p)] >>
      ret this
    else
      put this (String nl EmptyString) >>
      put this (fill TIME_FMT_WIDTH "-") >>
      put this (String nl EmptyString) >>
      (let* t := timeStr in put this t) >>
      put this " | " >>
      put this (fill (FULL_LOG_WIDTH - TIME_FMT_WIDTH - 1) "-") >>
      put this (String nl EmptyString) >>
      ret this.

(** ** Manager::addWorker and Manager::removeWorker *)

Definition set_workers (ws : list Worker) : M unit := fun s => Ret tt (with_workers s ws).

(** The loop of addWorker: the first Worker at [p] gets the level, and the
    function returns ([Some]); [None] when the loop ends without a match. *)
Fixpoint addWorker_update (ws : list Worker) (p : path) (level : Level)
    : option (list Worker) :=
  match ws with
  | [] => None
  | wk :: ws' =>
      if bool_decide (m_path wk = p) then Some (setLevel wk level :: ws')
      else (wk ::.) <$> addWorker_update ws' p level
  end.

(** The boolean tells whether the locked block returned from the function. *)
Definition Manager_addWorker (p : path) (level : Level) : M unit :=
  let* returned :=
    lock_guard
      (let* s := get in
       match addWorker_update (m_workers s) p level with
       | Some ws' => set_workers ws' >> ret true
       | None =>
           let* new_worker := Worker_ctor p level in
           (let* s1 := get in set_workers (m_workers s1 ++ [new_worker])) >>
           let* s2 := get in
           when (negb (good new_worker (world s2)))
             (set_workers (removelast (m_workers s2))) >>
           ret false
       end) in
  if returned then ret tt
  else
    LOG DEBUG Logger_cpp 108 "addWorker"
      ["Added log worker at "; show_path (if path_empty p then console_path else p);
       " (level: "; levelStr level; ")"].

(** The loop of removeWorker: erase the first Worker at [p] and stop. *)
Fixpoint erase_first (ws : list Worker) (p : path) : list Worker :=
  match ws with
  | [] => []
  | wk :: ws' => if bool_decide (m_path wk = p) then ws' else wk :: erase_first ws' p
  end.

Definition Manager_removeWorker (p : path) : M unit :=
  LOG DEBUG Logger_cpp 113 "removeWorker"
    ["Removing log worker at "; show_path (if path_empty p then console_path else p)] >>
  lock_guard (let* s := get in set_workers (erase_first (m_workers s) p)).

(** The free functions of the namespace. *)
Definition addConsole (level : Level) : M unit := Manager_addWorker (false, []) level.
Definition removeConsole : M unit := Manager_removeWorker (false, []).
Definition addFile (p : path) (level : Level) : M unit := Manager_addWorker p level.
Definition removeFile (p : path) : M unit := Manager_removeWorker p.

(** ** Calls from outside, one after the other *)

Inductive Call :=
| AddWorker (p : path) (level : Level)
| RemoveWorker (p : path)
| Log (line : Line).

Definition call (c : Call) : M unit :=
  match c with
  | AddWorker p level => Manager_addWorker p level
  | RemoveWorker p => Manager_removeWorker p
  | Log line => Manager_log line
  end.

(** A caller that catches the filesystem_error goes on with its next call;
    after a relock or an undefined read there is no next call. *)
Fixpoint run (cs : list Call) (s : State) : Outcome unit :=
  match cs with
  | [] => Ret tt s
  | c :: cs' =>
      match call c s with
      | Ret _ s' => run cs' s'
      | Abort FilesystemError s' => run cs' s'
      | Abort f s' => Abort f s'
      end
  end.

(** [Manager()]: no Worker, the mutex free. *)
Definition Manager_ctor (w : World) : State :=
  {| world := w; m_mutex := false; m_workers := [] |}.

(** ** What the operations write, as text

    The same loops as above, on the text alone: each returns what is written
    and the fault that ends the writing, if any. *)

Fixpoint strip_text (fuel : nat) (msg : string) : Fault + string :=
  match back msg with
  | None => inl BackOfEmpty
  | Some c =>
      if Ascii.eqb c nl then
        match fuel with
        | O => inl OutOfFuel
        | S fuel' => strip_text fuel' (pop_back msg)
        end
      else inr msg
  end.

(** The indentation and the arrow before every line but the first. *)
Definition continuation : string :=
  fill (TIME_FMT_WIDTH + LEVEL_FMT_WIDTH + 3) " " +:+ " -> ".

Fixpoint lines_text (fuel : nat) (msg : string) (start : nat) : string * option Fault :=
  if start <? size msg then
    match fuel with
    | O => (EmptyString, Some OutOfFuel)
    | S fuel' =>
        let end_ := default (size msg) (find nl msg start) in
        let rest := lines_text fuel' msg (end_ + 1) in
        ((if 0 <? start then continuation else EmptyString)
           +:+ substr msg start (end_ - start + 1) +:+ fst rest,
         snd rest)
    end
  else (EmptyString, None).

(** Everything before the message. *)
Definition header (is_console : bool) (ts : string) (line : Line) : string :=
  (if is_console then colorStr (line_level line) else EmptyString)
  +:+ ts +:+ " | [" +:+ setw LEVEL_FMT_WIDTH " " (levelStr (line_level line)) +:+ "] "
  +:+ line_file line +:+ ":" +:+ dec (line_line line) +:+ " in "
  +:+ line_func line +:+ "(): ".

(** Everything after it. *)
Definition trailer (is_console : bool) : string :=
  (if is_console then resetColor else EmptyString) +:+ String nl EmptyString.

Definition log_text (is_console : bool) (ts : string) (line : Line)
    : string * option Fault :=
  match strip_text (size (line_msg line)) (line_msg line) with
  | inl f => (header is_console ts line, Some f)
  | inr msg =>
      let body := lines_text (size msg) msg 0 in
      match snd body with
      | Some f => (header is_console ts line +:+ fst body, Some f)
      | None => (header is_console ts line +:+ fst body +:+ trailer is_console, None)
      end
  end.

(** The message, line by line: the first line bare, each later one on a line
    of its own behind [continuation]. *)
Fixpoint join_lines (lines : list string) : string :=
  match lines with
  | [] => EmptyString
  | [l] => l
  | l :: ls => l +:+ String nl (join_lines ls)
  end.

Fixpoint layout (lines : list string) : string :=
  match lines with
  | [] => EmptyString
  | [l] => l
  | l :: ls => l +:+ String nl (continuation +:+ layout ls)
  end.

(** No newline in [l]. *)
Definition one_line (l : string) : Prop := find nl l 0 = None.

(** The session separator a file Worker writes when it opens its file. *)
Definition separator (ts : string) : string :=
  String nl EmptyString +:+ fill TIME_FMT_WIDTH "-" +:+ String nl EmptyString
  +:+ ts +:+ " | " +:+ fill (FULL_LOG_WIDTH - TIME_FMT_WIDTH - 1) "-"
  +:+ String nl EmptyString.

(** ** Sinks as the world shows them *)

(** A reading of the clock as [timeStr()] prints it. *)
Definition stamp (time_value : timeval) : string :=
  tm_text time_value +:+ "." +:+ setw 3 "0" (dec (Z.quot (tv_usec time_value) 1000)).

(** The reading [timeStr()] would return in [s]. *)
Definition now (s : State) : string := stamp (clock (world s) (ticks (world s))).

Definition tick (s : State) : State :=
  with_world s (with_ticks (world s) (S (ticks (world s)))).

(** What the Worker's destination holds. *)
Definition sink_text (wk : Worker) (s : State) : string :=
  if console wk then cout (world s) else file_text (world s) (m_path wk).

(** The Worker's destination takes what is written to it. *)
Definition writable (wk : Worker) (s : State) : bool :=
  if console wk then cout_good (world s)
  else match m_stream wk with
       | Some f => of_good f
       | None => false
       end.

(** [text] appended to the Worker's destination; a destination that is not
    writable drops it. *)
Definition emit (wk : Worker) (text : string) (s : State) : State :=
  if writable wk s then
    if console wk then with_world s (with_cout (world s) (cout (world s) +:+ text))
    else with_world s (with_files (world s)
           (<[m_path wk := file_text (world s) (m_path wk) +:+ text]> (files (world s))))
  else s.

(** What the constructor guarantees: the console Worker has no stream of its
    own. *)
Definition wf_worker (wk : Worker) : Prop :=
  console wk = true -> m_stream wk = None.

Definition finish (f : option Fault) (s : State) : Outcome unit :=
  match f with
  | None => Ret tt s
  | Some f => Abort f s
  end.

Definition paths (s : State) : list path := m_path <$> m_workers s.

(** ** Dispatch, when no Worker meets a fault *)

Definition admits (wk : Worker) (line : Line) : bool :=
  (ord (line_level line) <=? ord (m_level wk))%Z.

(** What [wk.log(line)] leaves behind when it returns. *)
Definition log_step (line : Line) (s : State) (wk : Worker) : State :=
  if good wk (world s) && admits wk line
  then emit wk (fst (log_text (console wk) (now s) line)) (tick s)
  else s.

(** What [manager.log(line)] leaves behind when it returns. *)
Definition dispatch (line : Line) (s : State) : State :=
  unlock (fold_left (log_step line) (m_workers s) (with_mutex s true)).

(** A message whose trailing newlines can be stripped: some other character
    is in it. *)
Definition strips (msg : string) : Prop :=
  exists body, strip_text (size msg) msg = inr body.

(** The three lines Logger.cpp logs about itself. *)
Definition identity_text (p : path) : string :=
  show_path (if path_empty p then console_path else p).

Definition added_line (p : path) (level : Level) : Line :=
  fold_left Line_shl
    ["Added log worker at "; identity_text p; " (level: "; levelStr level; ")"]
    (Line_ctor DEBUG Logger_cpp 108 "addWorker").

Definition removing_line (p : path) : Line :=
  fold_left Line_shl ["Removing log worker at "; identity_text p]
    (Line_ctor DEBUG Logger_cpp 113 "removeWorker").

Definition failed_line (p : path) : Line :=
  fold_left Line_shl ["Failed to open log at "; identity_text p]
    (Line_ctor WARNING Logger_cpp 79 "Worker").

(** What a log step leaves as it was. *)
Definition same_frame (s s' : State) : Prop :=
  m_workers s' = m_workers s /\ m_mutex s' = m_mutex s /\
  (forall wk, writable wk s' = writable wk s) /\
  clock (world s') = clock (world s).

(** The directories Worker::Worker asks for before it opens the file. *)
Definition prepare_dirs (p : path) (w : World) : option World :=
  if negb (fs_exists w p) && has_parent_path p
  then create_directories (parent_path p) w
  else Some w.

(** An operation that leaves the manager's vector as it was, however it
    ends. *)
Definition frame {A} (c : M A) : Prop :=
  forall s, m_workers (state_of (c s)) = m_workers s.

(** What addWorker does to a Worker when the identity is registered. *)
Definition retarget (p : path) (level : Level) (wk : Worker) : Worker :=
  if bool_decide (m_path wk = p) then setLevel wk level else wk.

(** The state in which addWorker dispatches its announcement: the mutex
    released, and the new Worker in the vector when it is good. *)
Definition after_block (wk : Worker) (s1 : State) : State :=
  unlock (with_workers s1
            (if good wk (world s1) then m_workers s1 ++ [wk] else m_workers s1)).

(** The call ends by handing the line that announces the addition to
    [manager.log]. *)
Definition announces (p : path) (level : Level) (s : State) : Prop :=
  exists s2, Manager_addWorker p level s = Manager_log (added_line p level) s2.

(** ** The filesystem as a tree *)

(** The directories above [p], outermost first. *)
Definition ancestors (p : path) : list path :=
  (fun n => (fst p, take n (snd p))) <$> seq 1 (length (snd p) - 1).

(** Whatever exists sits in directories. *)
Definition fs_tree (w : World) : Prop :=
  forall q, fs_exists w q = true ->
    Forall (fun d => is_directory w d = true) (ancestors q).

(** The lines of a text: what stands between its newlines. *)
Fixpoint split_lines (s : string) : list string :=
  match s with
  | EmptyString => [EmptyString]
  | String c s' =>
      if Ascii.eqb c nl then EmptyString :: split_lines s'
      else match split_lines s' with
           | l :: ls => String c l :: ls
           | [] => [String c EmptyString]
           end
  end.

(** ** A small world to run the operations in *)

Definition sample_clock (n : nat) : timeval :=
  {| tm_text := "2024-01-02 03:04:05"; tv_usec := 7000 + Z.of_nat n |}.

Definition var_log : path := (true, ["var"; "log"]).
Definition app_log : path := (true, ["var"; "log"; "app.log"]).

Definition sample_world : World :=
  {| cout_good := true; cout := EmptyString; dirs := {[ (true, ["var"]) ]};
     files := ∅; denied := ∅; clock := sample_clock; ticks := 0 |}.

Definition console_worker (level : Level) : Worker :=
  {| m_path := (false, []); m_level := level; m_stream := None |}.

Definition file_worker (p : path) (level : Level) : Worker :=
  {| m_path := p; m_level := level; m_stream := Some {| of_good := true |} |}.

Definition sample_state : State :=
  {| world := sample_world; m_mutex := false; m_workers := [console_worker TRACE] |}.

Definition sample_line (level : Level) (msg : string) : Line :=
  {| line_level := level; line_file := "main.cpp"; line_line := 42;
     line_func := "main"; line_msg := msg |}.

(** Another state: a file Worker, other texts, a later reading of the clock
    within the same millisecond. *)
Definition other_state : State :=
  {| world :=
       {| cout_good := false; cout := "earlier output";
          dirs := {[ (true, ["var"]); var_log ]};
          files := {[ app_log := "earlier lines" ]}; denied := ∅;
          clock := sample_clock; ticks := 5 |};
     m_mutex := false;
     m_workers := [file_worker app_log DEBUG] |}.

(** ** Further helpers for statements *)

(** What [line << t1 << ... << tn] has accumulated. *)
Fixpoint sconcat (texts : list string) : string :=
  match texts with
  | [] => EmptyString
  | t :: ts => t +:+ sconcat ts
  end.

(** The milliseconds field of [timeStr()] for [n] milliseconds: three
    characters that read back as [n]. *)
Definition ms_ok (n : nat) : bool :=
  (size (setw 3 "0" (dec (Z.of_nat n))) =? 3)
  && bool_decide (Z.of_int <$> NilZero.int_of_string (setw 3 "0" (dec (Z.of_nat n)))
                  = Some (Z.of_nat n)).

(** Whether [wk.log(line)] goes past its first test. *)
Definition forwards (wk : Worker) (line : Line) (s : State) : bool :=
  good wk (world s) && admits wk line.

(** A world in which a regular file stands where a directory is asked for. *)
Definition blocked_state : State :=
  {| world :=
       {| cout_good := true; cout := EmptyString; dirs := {[ (true, ["var"]) ]};
          files := {[ var_log := "not a directory" ]}; denied := ∅;
          clock := sample_clock; ticks := 0 |};
     m_mutex := false;
     m_workers := [console_worker TRACE] |}.

(** ** The formatting state of a stream

    Worker::log sets one thing on the stream it writes to, the width of the
    level field (std::setw), and restores nothing: the fill character, the
    adjustment, the way an integer is written and a width that is still
    pending are those [stream()] has when the call starts.  For the console
    that stream is std::cout, which the whole process shares.  [Worker_log]
    above is the call on a stream in the state a stream is constructed with;
    [Worker_log_fmt] is the call on a stream in any state. *)

Record Format := {
  (** [os.width()]: the width the next formatted output takes, which sets it
      back to 0. *)
  fmt_width : nat;
  (** [os.fill()]. *)
  fmt_fill : ascii;
  (** Whether the adjustment ([os.flags() & std::ios::adjustfield]) is
      [std::ios::left]. *)
  fmt_left : bool;
  (** [os << n] for an [int] at width 0: what the base, [showbase],
      [showpos], [uppercase] and the locale of the stream make of [n]. *)
  fmt_int : Z -> string
}.

(** The state of a stream nothing has been set on, in the classic locale. *)
Definition default_format : Format :=
  {| fmt_width := 0; fmt_fill := " "%char; fmt_left := false; fmt_int := dec |}.

(** [os << s] for a text when [os.width()] is [w]: the text, filled up to [w]
    characters with the fill character, behind the text when the adjustment
    is left and before it otherwise. *)
Definition insert_text (fmt : Format) (w : nat) (s : string) : string :=
  if fmt_left fmt then s +:+ fill (w - size s) (fmt_fill fmt)
  else setw w (fmt_fill fmt) s.

(** [Worker::log] when [stream()] is in the state [fmt].  The first text
    written takes the pending width; [std::setw(LEVEL_FMT_WIDTH)] sets the
    width the level takes; every other text is written at width 0, as it
    is. *)
Definition Worker_log_fmt (fmt : Format) (wk : Worker) (line : Line) : M unit :=
  let* s := get in
  if negb (good wk (world s)) || (ord (line_level line) >? ord (m_level wk))%Z
  then ret tt
  else
    when (console wk)
      (put wk (insert_text fmt (fmt_width fmt) (colorStr (line_level line)))) >>
    (let* t := timeStr in
     put wk (insert_text fmt (if console wk then 0 else fmt_width fmt) t)) >>
    put wk " | [" >>
    put wk (insert_text fmt LEVEL_FMT_WIDTH (levelStr (line_level line))) >>
    put wk "] " >>
    put wk (line_file line) >> put wk ":" >> put wk (fmt_int fmt (line_line line)) >>
    put wk " in " >> put wk (line_func line) >> put wk "(): " >>
    let* msg := strip_newlines (size (line_msg line)) (line_msg line) in
    write_lines (size msg) wk msg 0 >>
    when (console wk) (put wk resetColor) >>
    put wk (String nl EmptyString).

(** Everything before the message, on a stream in the state [fmt]. *)
Definition header_fmt (fmt : Format) (is_console : bool) (ts : string) (line : Line)
    : string :=
  (if is_console then insert_text fmt (fmt_width fmt) (colorStr (line_level line))
   else EmptyString)
  +:+ insert_text fmt (if is_console then 0 else fmt_width fmt) ts
  +:+ " | [" +:+ insert_text fmt LEVEL_FMT_WIDTH (levelStr (line_level line)) +:+ "] "
  +:+ line_file line +:+ ":" +:+ fmt_int fmt (line_line line) +:+ " in "
  +:+ line_func line +:+ "(): ".

Definition log_text_fmt (fmt : Format) (is_console : bool) (ts : string) (line : Line)
    : string * option Fault :=
  match strip_text (size (line_msg line)) (line_msg line) with
  | inl f => (header_fmt fmt is_console ts line, Some f)
  | inr msg =>
      let body := lines_text (size msg) msg 0 in
      match snd body with
      | Some f => (header_fmt fmt is_console ts line +:+ fst body, Some f)
      | None =>
          (header_fmt fmt is_console ts line +:+ fst body +:+ trailer is_console, None)
      end
  end.

(** [os << std::hex << n] for an [int]: the digits of its 32-bit two's
    complement pattern. *)
Definition hex (n : Z) : string :=
  HexadecimalString.NilZero.string_of_uint (N.to_hex_uint (Z.to_N (n mod 2 ^ 32))).

(** std::cout after
    [std::cout << std::setfill('*') << std::left << std::hex]. *)
Definition starred_format : Format :=
  {| fmt_width := 0; fmt_fill := "*"%char; fmt_left := true; fmt_int := hex |}.

(** Two states agree on how they write the texts and the line number of an
    event at [n]. *)
Definition same_format (fmt1 fmt2 : Format) (n : Z) : Prop :=
  fmt_width fmt1 = fmt_width fmt2 /\ fmt_fill fmt1 = fmt_fill fmt2 /\
  fmt_left fmt1 = fmt_left fmt2 /\ fmt_int fmt1 n = fmt_int fmt2 n.

(** Formatting that the Worker kind, the timestamp and the event determine,
    whatever the states of the streams: two forwarding Workers of the same
    kind, at the same timestamp, given events with the same fields, append
    the same bytes. *)
Definition kind_time_event_determine : Prop :=
  forall (fmt1 fmt2 : Format) (wk1 wk2 : Worker) (l1 l2 : Line) (s1 s2 : State),
    wf_worker wk1 -> wf_worker wk2 ->
    console wk1 = console wk2 ->
    now s1 = now s2 ->
    line_level l1 = line_level l2 -> line_file l1 = line_file l2 ->
    line_line l1 = line_line l2 -> line_func l1 = line_func l2 ->
    line_msg l1 = line_msg l2 ->
    good wk1 (world s1) = true -> (ord (line_level l1) <= ord (m_level wk1))%Z ->
    good wk2 (world s2) = true -> (ord (line_level l2) <= ord (m_level wk2))%Z ->
    exists text : string,
      sink_text wk1 (state_of (Worker_log_fmt fmt1 wk1 l1 s1)) = sink_text wk1 s1 +:+ text /\
      sink_text wk2 (state_of (Worker_log_fmt fmt2 wk2 l2 s2)) = sink_text wk2 s2 +:+ text.

(* ================================================================== *)
(** * Lemmas *)

Section Text.

Lemma sapp_cons (x : ascii) (a b : string) : String x a +:+ b = String x (a +:+ b).
Proof. reflexivity. Qed.

Lemma sapp_nil_l (a : string) : EmptyString +:+ a = a.
Proof. reflexivity. Qed.

Lemma sapp_assoc (a b c : string) : (a +:+ b) +:+ c = a +:+ (b +:+ c).
Proof.
  induction a as [|x a IH]; [reflexivity |].
  now rewrite !sapp_cons, IH.
Qed.

Lemma sapp_nil_r (a : string) : a +:+ EmptyString = a.
Proof.
  induction a as [|x a IH]; [reflexivity |].
  now rewrite sapp_cons, IH.
Qed.

Lemma size_app (a b : string) : size (a +:+ b) = size a + size b.
Proof.
  unfold size. induction a as [|x a IH]; [reflexivity |].
  rewrite sapp_cons. simpl. now rewrite IH.
Qed.

Lemma sapp_eq_self (a b : string) : a +:+ b = a -> b = EmptyString.
Proof.
  intros H. apply (f_equal size) in H. rewrite size_app in H.
  destruct b; [reflexivity | unfold size in H; simpl in H; lia].
Qed.

Lemma snoc_not_empty (s : string) (c : ascii) : s +:+ String c EmptyString <> EmptyString.
Proof. destruct s; discriminate. Qed.

Lemma fill_snoc (k : nat) (c : ascii) : fill (S k) c = fill k c +:+ String c EmptyString.
Proof.
  induction k as [|k IH]; [reflexivity |].
  change (fill (S (S k)) c) with (String c (fill (S k) c)).
  rewrite IH at 1. reflexivity.
Qed.

Lemma size_fill (k : nat) (c : ascii) : size (fill k c) = k.
Proof. unfold size. induction k as [|k IH]; simpl; [reflexivity | now rewrite IH]. Qed.

Lemma back_cons (x : ascii) (s : string) :
  s <> EmptyString -> back (String x s) = back s.
Proof. destruct s; [contradiction | reflexivity]. Qed.

Lemma pop_back_cons (x : ascii) (s : string) :
  s <> EmptyString -> pop_back (String x s) = String x (pop_back s).
Proof. destruct s; [contradiction | reflexivity]. Qed.

Lemma back_snoc (s : string) (c : ascii) : back (s +:+ String c EmptyString) = Some c.
Proof.
  induction s as [|x s IH]; [reflexivity |].
  rewrite sapp_cons, back_cons; [exact IH | apply snoc_not_empty].
Qed.

Lemma pop_back_snoc (s : string) (c : ascii) : pop_back (s +:+ String c EmptyString) = s.
Proof.
  induction s as [|x s IH]; [reflexivity |].
  rewrite sapp_cons, pop_back_cons; [now rewrite IH | apply snoc_not_empty].
Qed.

Lemma back_app (a b : string) : b <> EmptyString -> back (a +:+ b) = back b.
Proof.
  intros Hb. induction a as [|x a IH]; [reflexivity |].
  rewrite sapp_cons, back_cons; [exact IH |].
  destruct a; [exact Hb | discriminate].
Qed.

Lemma back_None (s : string) : back s = None -> s = EmptyString.
Proof.
  induction s as [|x s IH]; [reflexivity |].
  destruct s as [|y s]; [discriminate |].
  intros H. rewrite back_cons in H by discriminate. specialize (IH H). discriminate.
Qed.

(** Every string is its [pop_back] and its [back]. *)
Lemma back_pop_back (s : string) (c : ascii) :
  back s = Some c -> s = pop_back s +:+ String c EmptyString.
Proof.
  induction s as [|x s IH]; [discriminate |].
  destruct s as [|y s].
  - simpl. intros [= ->]. reflexivity.
  - intros H. rewrite back_cons in H by discriminate.
    rewrite pop_back_cons by discriminate. rewrite sapp_cons, <- IH; auto.
Qed.

End Text.

(** ** The stripping loop *)

Section Strip.

Lemma strip_newlines_text (fuel : nat) (msg : string) (s : State) :
  strip_newlines fuel msg s =
  match strip_text fuel msg with
  | inl f => Abort f s
  | inr m => Ret m s
  end.
Proof.
  revert msg. induction fuel as [|fuel IH]; intros msg; simpl;
    destruct (back msg) as [c|]; try reflexivity;
    destruct (Ascii.eqb c nl); try reflexivity.
  apply IH.
Qed.

(** Newlines after a text that ends in another character are all removed. *)
Lemma strip_text_body (body : string) (c : ascii) (k fuel : nat) :
  back body = Some c -> c <> nl -> k <= fuel ->
  strip_text fuel (body +:+ fill k nl) = inr body.
Proof.
  intros Hb Hc. revert fuel. induction k as [|k IH]; intros fuel Hk.
  - change (fill 0 nl) with EmptyString. rewrite sapp_nil_r.
    destruct fuel; simpl; rewrite Hb;
      (destruct (Ascii.eqb_spec c nl); [contradiction | reflexivity]).
  - destruct fuel as [|fuel]; [lia |].
    rewrite fill_snoc, <- sapp_assoc. simpl.
    rewrite back_snoc, Ascii.eqb_refl, pop_back_snoc. apply IH. lia.
Qed.

(** A message of newlines alone is stripped down to nothing, and then
    [back()] is called on the empty string. *)
Lemma strip_text_newlines (k fuel : nat) :
  k <= fuel -> strip_text fuel (fill k nl) = inl BackOfEmpty.
Proof.
  revert fuel. induction k as [|k IH]; intros fuel Hk.
  - destruct fuel; reflexivity.
  - destruct fuel as [|fuel]; [lia |].
    rewrite fill_snoc. simpl.
    rewrite back_snoc, Ascii.eqb_refl, pop_back_snoc. apply IH. lia.
Qed.

(** With the fuel the code's loop is given, the model never runs out. *)
Lemma strip_text_fuel (fuel : nat) (msg : string) :
  size msg <= fuel -> strip_text fuel msg <> inl OutOfFuel.
Proof.
  revert msg. induction fuel as [|fuel IH]; intros msg Hsz; simpl.
  - destruct (back msg) as [c|] eqn:Hb; [|discriminate].
    apply back_pop_back in Hb. rewrite Hb, size_app in Hsz.
    unfold size in Hsz. simpl in Hsz. lia.
  - destruct (back msg) as [c|] eqn:Hb; [|discriminate].
    destruct (Ascii.eqb c nl); [|discriminate].
    apply IH. apply back_pop_back in Hb. rewrite Hb, size_app in Hsz.
    unfold size in *. simpl in Hsz. lia.
Qed.

End Strip.

(** ** Writing to a sink *)

Section Sinks.

Lemma writable_good (wk : Worker) (s : State) :
  writable wk s = true -> good wk (world s) = true.
Proof.
  unfold writable, good, console. destruct (path_empty (m_path wk)); simpl.
  - intros ->. reflexivity.
  - auto.
Qed.

Lemma good_writable (wk : Worker) (s : State) :
  wf_worker wk -> good wk (world s) = true -> writable wk s = true.
Proof.
  unfold wf_worker, writable, good, console. destruct (path_empty (m_path wk)); simpl.
  - intros Hwf. rewrite Hwf by reflexivity. now rewrite orb_false_r.
  - auto.
Qed.

Lemma put_emit (wk : Worker) (text : string) (s : State) :
  good wk (world s) = true -> put wk text s = Ret tt (emit wk text s).
Proof.
  unfold good, put, emit, writable, console. destruct (path_empty (m_path wk)); simpl.
  - intros _. destruct (cout_good (world s)); reflexivity.
  - destruct (m_stream wk) as [f|]; [|discriminate]. intros ->. reflexivity.
Qed.

Lemma writable_emit (wk wk' : Worker) (a : string) (s : State) :
  writable wk (emit wk' a s) = writable wk s.
Proof.
  unfold emit. destruct (writable wk' s); [|reflexivity].
  unfold writable. destruct (console wk), (console wk'); reflexivity.
Qed.

Lemma writable_tick (wk : Worker) (s : State) : writable wk (tick s) = writable wk s.
Proof. reflexivity. Qed.

Lemma good_emit (wk wk' : Worker) (a : string) (s : State) :
  good wk (world (emit wk' a s)) = good wk (world s).
Proof.
  unfold emit. destruct (writable wk' s); [|reflexivity].
  unfold good. destruct (console wk'); reflexivity.
Qed.

Lemma good_tick (wk : Worker) (s : State) : good wk (world (tick s)) = good wk (world s).
Proof. reflexivity. Qed.

Lemma bind_put {B} (wk : Worker) (text : string) (k : unit -> M B) (s : State) :
  good wk (world s) = true -> bind (put wk text) k s = k tt (emit wk text s).
Proof. intros H. unfold bind. now rewrite put_emit. Qed.

Lemma bind_timeStr {B} (k : string -> M B) (s : State) :
  bind timeStr k s = k (now s) (tick s).
Proof. reflexivity. Qed.

Lemma emit_emit (wk : Worker) (a b : string) (s : State) :
  emit wk b (emit wk a s) = emit wk (a +:+ b) s.
Proof.
  unfold emit at 1. rewrite writable_emit. unfold emit.
  destruct (writable wk s); [|reflexivity].
  destruct (console wk); destruct s as [w m ws]; destruct w; simpl;
    unfold with_world, with_cout, with_files, file_text; simpl.
  - now rewrite sapp_assoc.
  - rewrite lookup_insert_eq. simpl. rewrite insert_insert_eq, sapp_assoc. reflexivity.
Qed.

Lemma emit_tick (wk : Worker) (a : string) (s : State) :
  tick (emit wk a s) = emit wk a (tick s).
Proof.
  unfold emit. rewrite writable_tick. destruct (writable wk s); [|reflexivity].
  unfold tick. destruct (console wk); reflexivity.
Qed.

Lemma now_emit (wk : Worker) (a : string) (s : State) : now (emit wk a s) = now s.
Proof. unfold emit. destruct (writable wk s), (console wk); reflexivity. Qed.

Lemma sink_text_emit (wk : Worker) (a : string) (s : State) :
  writable wk s = true -> sink_text wk (emit wk a s) = sink_text wk s +:+ a.
Proof.
  intros Hw. unfold sink_text, emit. rewrite Hw.
  destruct (console wk); simpl; [reflexivity |].
  unfold file_text at 1. simpl. now rewrite lookup_insert_eq.
Qed.

Lemma sink_text_tick (wk : Worker) (s : State) : sink_text wk (tick s) = sink_text wk s.
Proof. reflexivity. Qed.

Lemma path_empty_eq (p q : path) : path_empty p = true -> path_empty q = true -> p = q.
Proof.
  unfold path_empty. destruct p as [r fs], q as [r' fs']. simpl.
  intros [E1 E2]%andb_true_iff [E1' E2']%andb_true_iff.
  apply bool_decide_eq_true in E2, E2'. subst.
  destruct r, r'; simpl in *; congruence.
Qed.

(** Another Worker's destination is another file, or the console. *)
Lemma sink_text_emit_other (wk wk' : Worker) (a : string) (s : State) :
  m_path wk <> m_path wk' -> sink_text wk (emit wk' a s) = sink_text wk s.
Proof.
  intros Hne. unfold emit. destruct (writable wk' s); [|reflexivity].
  unfold sink_text, console.
  destruct (path_empty (m_path wk)) eqn:E, (path_empty (m_path wk')) eqn:E'; simpl;
    try reflexivity.
  - exfalso. apply Hne. now apply path_empty_eq.
  - unfold file_text. simpl. now rewrite lookup_insert_ne by congruence.
Qed.

Lemma workers_emit (wk : Worker) (a : string) (s : State) :
  m_workers (emit wk a s) = m_workers s.
Proof. unfold emit. destruct (writable wk s), (console wk); reflexivity. Qed.

Lemma mutex_emit (wk : Worker) (a : string) (s : State) :
  m_mutex (emit wk a s) = m_mutex s.
Proof. unfold emit. destruct (writable wk s), (console wk); reflexivity. Qed.

End Sinks.

(** ** Worker::log writes [log_text] *)

Section WorkerLog.

Lemma bind_ret {A B} (a : A) (k : A -> M B) (s : State) : bind (ret a) k s = k a s.
Proof. reflexivity. Qed.

Lemma bind_bind {A B C} (c : M A) (k : A -> M B) (h : B -> M C) (s : State) :
  bind (bind c k) h s = bind c (fun a => bind (k a) h) s.
Proof. unfold bind. destruct (c s); reflexivity. Qed.

Lemma write_lines_text (fuel : nat) (wk : Worker) (msg : string) (start : nat)
    (acc : string) (s : State) :
  good wk (world s) = true ->
  write_lines fuel wk msg start (emit wk acc s) =
  finish (snd (lines_text fuel msg start))
         (emit wk (acc +:+ fst (lines_text fuel msg start)) s).
Proof.
  intros Hw. revert start acc.
  induction fuel as [|fuel IH]; intros start acc; cbn [write_lines lines_text];
    destruct (start <? size msg) eqn:E; cbn [fst snd finish];
    try (rewrite sapp_nil_r; reflexivity).
  set (e := default (size msg) (find nl msg start)).
  destruct (0 <? start); unfold when.
  - rewrite !bind_bind, bind_put by (now rewrite good_emit).
    rewrite bind_put by (now rewrite !good_emit).
    rewrite bind_put by (now rewrite !good_emit).
    rewrite !emit_emit, IH. unfold continuation.
    now rewrite !sapp_assoc.
  - rewrite bind_ret, bind_put by (now rewrite good_emit).
    rewrite emit_emit, IH. now rewrite !sapp_assoc.
Qed.

(** What Worker::log does when it does not return at once. *)
Lemma Worker_log_text (wk : Worker) (line : Line) (s : State) :
  good wk (world s) = true ->
  (ord (line_level line) <= ord (m_level wk))%Z ->
  Worker_log wk line s =
  finish (snd (log_text (console wk) (now s) line))
         (emit wk (fst (log_text (console wk) (now s) line)) (tick s)).
Proof.
  intros Hw Hle. unfold Worker_log.
  unfold bind at 1, get. rewrite Hw.
  replace (ord (line_level line) >? ord (m_level wk))%Z with false
    by (rewrite Z.gtb_ltb; symmetry; apply Z.ltb_ge; lia).
  cbn [negb orb].
  assert (Hpre : forall k : unit -> M unit,
    bind (when (console wk) (put wk (colorStr (line_level line))))
      (fun _ => bind (bind timeStr (fun t => put wk t)) k) s =
    k tt (emit wk ((if console wk then colorStr (line_level line) else EmptyString)
                   +:+ now s) (tick s))).
  { intros k. unfold when. destruct (console wk) eqn:Ec.
    - rewrite bind_put by exact Hw. rewrite bind_bind, bind_timeStr.
      rewrite bind_put by (now rewrite good_tick, good_emit).
      now rewrite now_emit, emit_tick, emit_emit.
    - rewrite bind_ret, bind_bind, bind_timeStr.
      rewrite bind_put by (now rewrite good_tick). reflexivity. }
  rewrite Hpre.
  assert (Hwt : good wk (world (tick s)) = true) by (now rewrite good_tick).
  repeat (rewrite bind_put by (now rewrite ?good_emit); rewrite emit_emit).
  unfold bind at 1. rewrite strip_newlines_text. unfold log_text.
  destruct (strip_text (size (line_msg line)) (line_msg line)) as [f|msg];
    cbn [fst snd finish].
  - unfold header. now rewrite !sapp_assoc.
  - unfold bind at 1. rewrite write_lines_text by exact Hwt.
    destruct (lines_text (size msg) msg 0) as [body [f|]]; cbn [fst snd finish].
    + unfold header. now rewrite !sapp_assoc.
    + unfold when, trailer. destruct (console wk).
      * rewrite bind_put by (now rewrite ?good_emit). rewrite emit_emit.
        rewrite put_emit by (now rewrite ?good_emit). rewrite emit_emit.
        unfold header. now rewrite !sapp_assoc.
      * rewrite bind_ret. rewrite put_emit by (now rewrite ?good_emit).
        rewrite emit_emit. unfold header. now rewrite !sapp_assoc.
Qed.

(** What it does otherwise: nothing. *)
Lemma Worker_log_skip (wk : Worker) (line : Line) (s : State) :
  good wk (world s) = false \/ (ord (m_level wk) < ord (line_level line))%Z ->
  Worker_log wk line s = Ret tt s.
Proof.
  intros H. unfold Worker_log, bind, get.
  destruct H as [-> | H]; [reflexivity |].
  replace (ord (line_level line) >? ord (m_level wk))%Z with true
    by (rewrite Z.gtb_ltb; symmetry; apply Z.ltb_lt; lia).
  now rewrite orb_true_r.
Qed.

(** *** On a stream in any formatting state *)

Lemma insert_text_0 (fmt : Format) (s : string) : insert_text fmt 0 s = s.
Proof.
  unfold insert_text, setw. cbn [Nat.sub fill].
  destruct (fmt_left fmt); [apply sapp_nil_r | apply sapp_nil_l].
Qed.

(** On a stream in its initial state the call is [Worker_log]. *)
Lemma Worker_log_fmt_default (wk : Worker) (line : Line) :
  Worker_log_fmt default_format wk line = Worker_log wk line.
Proof. unfold Worker_log_fmt, Worker_log. destruct (console wk); reflexivity. Qed.

Lemma header_fmt_default (c : bool) (ts : string) (line : Line) :
  header_fmt default_format c ts line = header c ts line.
Proof. destruct c; reflexivity. Qed.

Lemma log_text_fmt_default (c : bool) (ts : string) (line : Line) :
  log_text_fmt default_format c ts line = log_text c ts line.
Proof. unfold log_text_fmt, log_text. now rewrite header_fmt_default. Qed.

(** The header depends on the state of the stream through the pending width,
    the fill character, the adjustment and the line number as written. *)
Lemma header_fmt_ext (fmt1 fmt2 : Format) (c : bool) (ts : string) (line : Line) :
  same_format fmt1 fmt2 (line_line line) ->
  header_fmt fmt1 c ts line = header_fmt fmt2 c ts line.
Proof.
  intros (Hw & Hf & Hl & Hi). unfold header_fmt, insert_text.
  now rewrite Hw, Hf, Hl, Hi.
Qed.

Lemma log_text_fmt_ext (fmt1 fmt2 : Format) (c : bool) (ts : string) (line : Line) :
  same_format fmt1 fmt2 (line_line line) ->
  log_text_fmt fmt1 c ts line = log_text_fmt fmt2 c ts line.
Proof. intros H. unfold log_text_fmt. now rewrite (header_fmt_ext fmt1 fmt2). Qed.

(** What Worker::log does when it does not return at once. *)
Lemma Worker_log_fmt_text (fmt : Format) (wk : Worker) (line : Line) (s : State) :
  good wk (world s) = true ->
  (ord (line_level line) <= ord (m_level wk))%Z ->
  Worker_log_fmt fmt wk line s =
  finish (snd (log_text_fmt fmt (console wk) (now s) line))
         (emit wk (fst (log_text_fmt fmt (console wk) (now s) line)) (tick s)).
Proof.
  intros Hw Hle. unfold Worker_log_fmt.
  unfold bind at 1, get. rewrite Hw.
  replace (ord (line_level line) >? ord (m_level wk))%Z with false
    by (rewrite Z.gtb_ltb; symmetry; apply Z.ltb_ge; lia).
  cbn [negb orb].
  assert (Hpre : forall k : unit -> M unit,
    bind (when (console wk)
            (put wk (insert_text fmt (fmt_width fmt) (colorStr (line_level line)))))
      (fun _ => bind (bind timeStr (fun t =>
                  put wk (insert_text fmt (if console wk then 0 else fmt_width fmt) t))) k) s =
    k tt (emit wk ((if console wk
                    then insert_text fmt (fmt_width fmt) (colorStr (line_level line))
                    else EmptyString)
                   +:+ insert_text fmt (if console wk then 0 else fmt_width fmt) (now s))
            (tick s))).
  { intros k. unfold when. destruct (console wk) eqn:Ec.
    - rewrite bind_put by exact Hw. rewrite bind_bind, bind_timeStr.
      rewrite bind_put by (now rewrite good_tick, good_emit).
      now rewrite now_emit, emit_tick, emit_emit.
    - rewrite bind_ret, bind_bind, bind_timeStr.
      rewrite bind_put by (now rewrite good_tick). reflexivity. }
  rewrite Hpre.
  assert (Hwt : good wk (world (tick s)) = true) by (now rewrite good_tick).
  repeat (rewrite bind_put by (now rewrite ?good_emit); rewrite emit_emit).
  unfold bind at 1. rewrite strip_newlines_text. unfold log_text_fmt.
  destruct (strip_text (size (line_msg line)) (line_msg line)) as [f|msg];
    cbn [fst snd finish].
  - unfold header_fmt. now rewrite !sapp_assoc.
  - unfold bind at 1. rewrite write_lines_text by exact Hwt.
    destruct (lines_text (size msg) msg 0) as [body [f|]]; cbn [fst snd finish].
    + unfold header_fmt. now rewrite !sapp_assoc.
    + unfold when, trailer. destruct (console wk).
      * rewrite bind_put by (now rewrite ?good_emit). rewrite emit_emit.
        rewrite put_emit by (now rewrite ?good_emit). rewrite emit_emit.
        unfold header_fmt. now rewrite !sapp_assoc.
      * rewrite bind_ret. rewrite put_emit by (now rewrite ?good_emit).
        rewrite emit_emit. unfold header_fmt. now rewrite !sapp_assoc.
Qed.

(** What it does otherwise: nothing, whatever the state of the stream. *)
Lemma Worker_log_fmt_skip (fmt : Format) (wk : Worker) (line : Line) (s : State) :
  good wk (world s) = false \/ (ord (m_level wk) < ord (line_level line))%Z ->
  Worker_log_fmt fmt wk line s = Ret tt s.
Proof.
  intros H. unfold Worker_log_fmt, bind, get.
  destruct H as [-> | H]; [reflexivity |].
  replace (ord (line_level line) >? ord (m_level wk))%Z with true
    by (rewrite Z.gtb_ltb; symmetry; apply Z.ltb_lt; lia).
  now rewrite orb_true_r.
Qed.

End WorkerLog.

(** ** The loop over the lines writes [layout] *)

Section Layout.

Lemma find_app (c : ascii) (pre s : string) :
  find c (pre +:+ s) (size pre) = (fun i => size pre + i) <$> find c s 0.
Proof.
  induction pre as [|x pre IH].
  - rewrite sapp_nil_l. simpl. now destruct (find c s 0).
  - rewrite sapp_cons. change (size (String x pre)) with (S (size pre)).
    cbn [find]. rewrite IH. now destruct (find c s 0).
Qed.

Lemma one_line_cons (a : ascii) (l : string) :
  one_line (String a l) -> a <> nl /\ one_line l.
Proof.
  unfold one_line. cbn [find]. destruct (Ascii.eqb_spec a nl); [discriminate |].
  destruct (find nl l 0); [discriminate | auto].
Qed.

Lemma find_line_end (l rest : string) :
  one_line l -> find nl (l +:+ String nl rest) 0 = Some (size l).
Proof.
  induction l as [|a l IH]; intros Hl.
  - rewrite sapp_nil_l. cbn [find]. now rewrite Ascii.eqb_refl.
  - apply one_line_cons in Hl as [Ha Hl]. rewrite sapp_cons. cbn [find].
    destruct (Ascii.eqb_spec a nl); [contradiction |].
    now rewrite (IH Hl).
Qed.

Lemma substr_app (pre s : string) (n : nat) :
  substr (pre +:+ s) (size pre) n = substr s 0 n.
Proof.
  unfold substr. induction pre as [|x pre IH]; [reflexivity |].
  rewrite sapp_cons. change (size (String x pre)) with (S (size pre)).
  cbn [substring]. exact IH.
Qed.

Lemma substr_prefix (l t : string) (k : nat) :
  substr (l +:+ t) 0 (size l + k) = l +:+ substr t 0 k.
Proof.
  unfold substr. induction l as [|a l IH]; [reflexivity |].
  rewrite !sapp_cons. change (size (String a l) + k) with (S (size l + k)).
  cbn [substring]. now rewrite IH.
Qed.

Lemma substr_whole (l : string) (k : nat) : substr l 0 (size l + k) = l.
Proof.
  pose proof (substr_prefix l EmptyString k) as H. rewrite sapp_nil_r in H.
  rewrite H. replace (substr EmptyString 0 k) with EmptyString by (now destruct k).
  apply sapp_nil_r.
Qed.

Lemma substr_first (c : ascii) (t : string) :
  substr (String c t) 0 1 = String c EmptyString.
Proof. unfold substr. cbn [substring]. now destruct t. Qed.

Lemma find_snoc_nl (p : string) : find nl (p +:+ String nl EmptyString) 0 <> None.
Proof.
  induction p as [|a p IH].
  - rewrite sapp_nil_l. cbn [find]. now rewrite Ascii.eqb_refl.
  - rewrite sapp_cons. cbn [find]. destruct (Ascii.eqb a nl); [discriminate |].
    destruct (find nl (p +:+ String nl EmptyString) 0); [discriminate | contradiction].
Qed.

Lemma lines_text_past (fuel : nat) (msg : string) (start : nat) :
  size msg <= start -> lines_text fuel msg start = (EmptyString, None).
Proof.
  intros H. destruct fuel; cbn [lines_text];
    (destruct (Nat.ltb_spec start (size msg)); [lia | reflexivity]).
Qed.

Lemma size_join_cons (l l' : string) (ls : list string) :
  size (join_lines (l :: l' :: ls)) = size l + 1 + size (join_lines (l' :: ls)).
Proof.
  change (join_lines (l :: l' :: ls)) with (l +:+ String nl (join_lines (l' :: ls))).
  rewrite size_app. change (size (String nl ?x)) with (S (size x)). lia.
Qed.

(** From the start of a line on, the loop writes that line and the ones after
    it, each later one behind the continuation marker. *)
Lemma lines_text_layout (lines : list string) (pre : string) (fuel : nat) :
  Forall one_line lines ->
  List.last lines EmptyString <> EmptyString ->
  size (join_lines lines) <= fuel ->
  lines_text fuel (pre +:+ join_lines lines) (size pre) =
  ((if 0 <? size pre then continuation else EmptyString) +:+ layout lines, None).
Proof.
  revert pre fuel. induction lines as [|l ls IH]; intros pre fuel Hone Hlast Hfuel.
  - contradiction.
  - apply Forall_cons in Hone as [Hl Hls]. destruct ls as [|l' ls].
    + cbn [join_lines layout List.last] in *.
      assert (0 < size l) by (destruct l; [contradiction | unfold size; simpl; lia]).
      destruct fuel as [|fuel]; [lia |]. cbn [lines_text].
      destruct (Nat.ltb_spec (size pre) (size (pre +:+ l)));
        [| rewrite size_app in *; lia].
      rewrite find_app. unfold one_line in Hl. rewrite Hl. cbn [fmap option_fmap option_map default].
      rewrite lines_text_past by lia. cbn [fst snd].
      rewrite substr_app.
      replace (size (pre +:+ l) - size pre + 1) with (size l + 1)
        by (rewrite size_app; lia).
      now rewrite substr_whole, !sapp_nil_r.
    + rewrite size_join_cons in Hfuel.
      destruct fuel as [|fuel]; [lia |]. cbn [lines_text].
      change (join_lines (l :: l' :: ls)) with (l +:+ String nl (join_lines (l' :: ls))).
      destruct (Nat.ltb_spec (size pre)
                  (size (pre +:+ l +:+ String nl (join_lines (l' :: ls)))));
        [| rewrite !size_app in *; change (size (String nl ?x)) with (S (size x)) in *; lia].
      rewrite find_app, (find_line_end _ _ Hl).
      cbn [fmap option_fmap option_map default from_option]. unfold id.
      rewrite substr_app.
      replace (size pre + size l - size pre + 1) with (size l + 1) by lia.
      rewrite substr_prefix.
      rewrite substr_first.
      replace (pre +:+ l +:+ String nl (join_lines (l' :: ls)))
        with ((pre +:+ l +:+ String nl EmptyString) +:+ join_lines (l' :: ls))
        by (now rewrite !sapp_assoc).
      replace (size pre + size l + 1) with (size (pre +:+ l +:+ String nl EmptyString))
        by (rewrite !size_app; unfold size; simpl; lia).
      rewrite IH; [| exact Hls | exact Hlast | lia].
      cbn [fst snd].
      replace (0 <? size (pre +:+ l +:+ String nl EmptyString)) with true
        by (symmetry; apply Nat.ltb_lt; rewrite !size_app; unfold size; simpl; lia).
      change (layout (l :: l' :: ls))
        with (l +:+ String nl (continuation +:+ layout (l' :: ls))).
      f_equal. rewrite !sapp_assoc. reflexivity.
Qed.

(** The last character of a message whose last line is not empty. *)
Lemma back_join_lines (lines : list string) :
  Forall one_line lines ->
  List.last lines EmptyString <> EmptyString ->
  exists c, back (join_lines lines) = Some c /\ c <> nl.
Proof.
  induction lines as [|l ls IH]; intros Hone Hlast; [contradiction |].
  apply Forall_cons in Hone as [Hl Hls]. destruct ls as [|l' ls].
  - cbn [join_lines List.last] in *. destruct (back l) as [c|] eqn:Hb.
    + exists c. split; [reflexivity |]. intros ->.
      apply back_pop_back in Hb. unfold one_line in Hl. rewrite Hb in Hl.
      exact (find_snoc_nl _ Hl).
    + apply back_None in Hb. contradiction.
  - destruct (IH Hls Hlast) as [c [Hc Hne]]. exists c. split; [| exact Hne].
    change (join_lines (l :: l' :: ls)) with (l +:+ String nl (join_lines (l' :: ls))).
    rewrite back_app by discriminate.
    rewrite back_cons; [exact Hc |]. intros E. rewrite E in Hc. discriminate.
Qed.

End Layout.

(** ** The entry of one event *)

Section Entry.

Lemma find_ge (c : ascii) (s : string) (start e : nat) :
  find c s start = Some e -> start <= e.
Proof.
  revert start e. induction s as [|a s IH]; intros start e; cbn [find]; [discriminate |].
  destruct start as [|start]; [lia |].
  destruct (find c s start) as [i|] eqn:E; [|discriminate].
  intros [= <-]. apply IH in E. lia.
Qed.

(** The loop over the lines never runs out of the steps it is given. *)
Lemma lines_text_fuel (fuel : nat) (msg : string) (start : nat) :
  size msg <= fuel + start -> snd (lines_text fuel msg start) = None.
Proof.
  revert start. induction fuel as [|fuel IH]; intros start H; cbn [lines_text];
    destruct (Nat.ltb_spec start (size msg)); try reflexivity; [lia |].
  cbn [snd]. apply IH.
  destruct (find nl msg start) as [e|] eqn:E; cbn [default from_option]; unfold id.
  - apply find_ge in E. lia.
  - lia.
Qed.

Lemma log_text_strips (c : bool) (ts : string) (line : Line) :
  strips (line_msg line) -> snd (log_text c ts line) = None.
Proof.
  intros [body Hb]. unfold log_text. rewrite Hb.
  now rewrite lines_text_fuel by lia.
Qed.

Lemma log_text_fault (c : bool) (ts : string) (line : Line) (k : nat) :
  line_msg line = fill k nl ->
  log_text c ts line = (header c ts line, Some BackOfEmpty).
Proof.
  intros H. unfold log_text. rewrite H.
  now rewrite strip_text_newlines by (rewrite size_fill; lia).
Qed.

Lemma back_strips (msg : string) (c : ascii) :
  back msg = Some c -> c <> nl -> strips msg.
Proof.
  intros Hb Hc. exists msg.
  rewrite <- (sapp_nil_r msg) at 2. change EmptyString with (fill 0 nl) at 1.
  apply (strip_text_body msg c 0); auto. lia.
Qed.

Lemma log_text_layout (c : bool) (ts : string) (line : Line)
    (lines : list string) (k : nat) :
  Forall one_line lines ->
  List.last lines EmptyString <> EmptyString ->
  line_msg line = join_lines lines +:+ fill k nl ->
  log_text c ts line = (header c ts line +:+ layout lines +:+ trailer c, None).
Proof.
  intros Hone Hlast Hmsg. unfold log_text. rewrite Hmsg.
  destruct (back_join_lines lines Hone Hlast) as [x [Hx Hne]].
  rewrite (strip_text_body _ x k) by (auto; rewrite size_app, size_fill; lia).
  pose proof (lines_text_layout lines EmptyString (size (join_lines lines))
                Hone Hlast (Nat.le_refl _)) as H.
  rewrite sapp_nil_l in H. change (size EmptyString) with 0 in H.
  rewrite H. cbn [fst snd]. now rewrite sapp_nil_l.
Qed.

Lemma size_header (c : bool) (ts : string) (line : Line) : 0 < size (header c ts line).
Proof.
  unfold header. rewrite !size_app.
  change (size " | [") with 4. lia.
Qed.

Lemma log_text_nonempty (c : bool) (ts : string) (line : Line) :
  fst (log_text c ts line) <> EmptyString.
Proof.
  assert (H : 0 < size (fst (log_text c ts line))).
  { pose proof (size_header c ts line). unfold log_text.
    destruct (strip_text _ _); cbn [fst]; [lia |].
    destruct (snd (lines_text _ _ _)); cbn [fst]; rewrite !size_app; lia. }
  intros E. rewrite E in H. unfold size in H. simpl in H. lia.
Qed.

Lemma state_of_finish (f : option Fault) (s : State) : state_of (finish f s) = s.
Proof. now destruct f. Qed.

Lemma back_layout (lines : list string) :
  Forall one_line lines ->
  List.last lines EmptyString <> EmptyString ->
  exists c, back (layout lines) = Some c /\ c <> nl.
Proof.
  induction lines as [|l ls IH]; intros Hone Hlast; [contradiction |].
  apply Forall_cons in Hone as [Hl Hls]. destruct ls as [|l' ls].
  - exact (back_join_lines [l] (Forall_cons_2 _ _ _ Hl Hls) Hlast).
  - destruct (IH Hls Hlast) as [c [Hc Hne]]. exists c. split; [| exact Hne].
    change (layout (l :: l' :: ls))
      with (l +:+ String nl (continuation +:+ layout (l' :: ls))).
    assert (Hn : layout (l' :: ls) <> EmptyString)
      by (intros E; rewrite E in Hc; discriminate).
    rewrite back_app by discriminate.
    rewrite back_cons by (unfold continuation; discriminate).
    now rewrite back_app.
Qed.

End Entry.

(** ** Every message is lines and trailing newlines *)

Section Lines.

Lemma split_lines_cons (s : string) : exists l ls, split_lines s = l :: ls.
Proof.
  induction s as [|c s [l [ls IH]]]; cbn [split_lines]; [eauto |].
  destruct (Ascii.eqb c nl); [eauto |]. rewrite IH. eauto.
Qed.

Lemma join_split_lines (s : string) : join_lines (split_lines s) = s.
Proof.
  induction s as [|c s IH]; [reflexivity |]. cbn [split_lines].
  destruct (split_lines_cons s) as [l [ls E]]. rewrite E in *.
  destruct (Ascii.eqb_spec c nl) as [-> | Hc].
  - change (join_lines (EmptyString :: l :: ls))
      with (EmptyString +:+ String nl (join_lines (l :: ls))).
    now rewrite IH.
  - destruct ls as [|l' ls]; cbn [join_lines] in *; rewrite <- IH; reflexivity.
Qed.

Lemma one_line_split_lines (s : string) : Forall one_line (split_lines s).
Proof.
  induction s as [|c s IH]; cbn [split_lines].
  - repeat constructor.
  - destruct (split_lines_cons s) as [l [ls E]]. rewrite E in *.
    apply Forall_cons in IH as [Hl Hls].
    destruct (Ascii.eqb_spec c nl) as [-> | Hc].
    + repeat constructor; assumption.
    + constructor; [| exact Hls]. unfold one_line in *. cbn [find].
      destruct (Ascii.eqb_spec c nl); [contradiction |]. now rewrite Hl.
Qed.

Lemma last_split_lines (s : string) (c : ascii) :
  back s = Some c -> c <> nl -> List.last (split_lines s) EmptyString <> EmptyString.
Proof.
  induction s as [|a s IH]; [discriminate |]. intros Hb Hc. cbn [split_lines].
  destruct (split_lines_cons s) as [l [ls E]].
  destruct s as [|b s].
  - simpl in Hb. injection Hb as ->. cbn.
    destruct (Ascii.eqb_spec c nl); [contradiction | discriminate].
  - rewrite back_cons in Hb by discriminate. specialize (IH Hb Hc).
    rewrite E in *. destruct (Ascii.eqb a nl).
    + exact IH.
    + destruct ls as [|l' ls]; [cbn in *; discriminate | exact IH].
Qed.

(** A text is newlines alone, or a text that ends in another character and
    newlines after it. *)
Lemma trailing_newlines (n : nat) (msg : string) :
  size msg <= n ->
  (exists k, msg = fill k nl) \/
  (exists body c k, msg = body +:+ fill k nl /\ back body = Some c /\ c <> nl).
Proof.
  revert msg. induction n as [|n IH]; intros msg Hn.
  - left. exists 0. destruct msg; [reflexivity | unfold size in Hn; simpl in Hn; lia].
  - destruct (back msg) as [c|] eqn:Hb.
    + destruct (Ascii.eqb_spec c nl) as [-> | Hc].
      * pose proof (back_pop_back _ _ Hb) as Hm.
        assert (Hsz : size (pop_back msg) <= n).
        { rewrite Hm, size_app in Hn. unfold size in *. simpl in Hn. lia. }
        destruct (IH _ Hsz) as [[k Hk] | [body [c [k [Hk [Hc Hne]]]]]].
        -- left. exists (S k). now rewrite fill_snoc, <- Hk.
        -- right. exists body, c, (S k). split; [| auto].
           now rewrite fill_snoc, <- sapp_assoc, <- Hk.
      * right. exists msg, c, 0. split; [| auto].
        change (fill 0 nl) with EmptyString. now rewrite sapp_nil_r.
    + left. exists 0. now apply back_None.
Qed.

Lemma fill_char (k : nat) (c x : ascii) (a b : string) :
  fill k c = a +:+ String x b -> x = c.
Proof.
  revert a. induction k as [|k IH]; intros a; cbn [fill].
  - destruct a; discriminate.
  - destruct a as [|y a].
    + rewrite sapp_nil_l. now intros [= -> _].
    + rewrite sapp_cons. intros [= _ H]. now apply IH in H.
Qed.

(** A message with a character that is no newline is lines, the last of them
    not empty, and newlines after them. *)
Lemma message_lines (msg a b : string) (c : ascii) :
  msg = a +:+ String c b -> c <> nl ->
  exists lines k,
    msg = join_lines lines +:+ fill k nl /\
    Forall one_line lines /\
    List.last lines EmptyString <> EmptyString.
Proof.
  intros Hm Hc.
  destruct (trailing_newlines (size msg) msg (Nat.le_refl _))
    as [[k Hk] | [body [x [k [Hk [Hx Hne]]]]]].
  - rewrite Hk in Hm. apply fill_char in Hm. contradiction.
  - exists (split_lines body), k. rewrite join_split_lines.
    split; [exact Hk |]. split; [apply one_line_split_lines |].
    exact (last_split_lines _ _ Hx Hne).
Qed.

End Lines.

(* ================================================================== *)
(** * Worker::log *)

Section WorkerLogTheorems.

(** C1. A Worker that the constructor made forwards an event, that is, its
    destination receives text, exactly when the Worker is good and the
    event's ordinal is at most the threshold's; what it then receives is the
    formatted entry. *)
Theorem Worker_log_forwards_iff (wk : Worker) (line : Line) (s : State) :
  wf_worker wk ->
  (sink_text wk (state_of (Worker_log wk line s)) <> sink_text wk s
   <-> good wk (world s) = true /\ (ord (line_level line) <= ord (m_level wk))%Z)
  /\ (good wk (world s) = true ->
      (ord (line_level line) <= ord (m_level wk))%Z ->
      sink_text wk (state_of (Worker_log wk line s))
      = sink_text wk s +:+ fst (log_text (console wk) (now s) line)).
Proof.
  intros Hwf.
  assert (Hfwd : good wk (world s) = true ->
      (ord (line_level line) <= ord (m_level wk))%Z ->
      sink_text wk (state_of (Worker_log wk line s))
      = sink_text wk s +:+ fst (log_text (console wk) (now s) line)).
  { intros Hg Hle. rewrite Worker_log_text, state_of_finish by assumption.
    rewrite sink_text_emit by (rewrite writable_tick; now apply good_writable).
    now rewrite sink_text_tick. }
  split; [| exact Hfwd]. split.
  - intros Hne. destruct (good wk (world s)) eqn:Hg.
    + split; [reflexivity |].
      destruct (Z.le_gt_cases (ord (line_level line)) (ord (m_level wk))) as [H | H];
        [exact H |].
      exfalso. apply Hne. rewrite Worker_log_skip by (right; exact H). reflexivity.
    + exfalso. apply Hne. rewrite Worker_log_skip by (left; exact Hg). reflexivity.
  - intros [Hg Hle] E. rewrite (Hfwd Hg Hle) in E.
    apply sapp_eq_self in E. exact (log_text_nonempty _ _ _ E).
Qed.

Lemma Worker_log_forwards_iff_witness :
  wf_worker (console_worker INFO) /\
  ((sink_text (console_worker INFO)
      (state_of (Worker_log (console_worker INFO) (sample_line WARNING "up") sample_state))
    <> sink_text (console_worker INFO) sample_state
    <-> good (console_worker INFO) (world sample_state) = true
        /\ (ord WARNING <= ord INFO)%Z)
   /\ (good (console_worker INFO) (world sample_state) = true ->
       (ord WARNING <= ord INFO)%Z ->
       sink_text (console_worker INFO)
         (state_of (Worker_log (console_worker INFO) (sample_line WARNING "up") sample_state))
       = sink_text (console_worker INFO) sample_state
         +:+ fst (log_text true (now sample_state) (sample_line WARNING "up")))).
Proof.
  split; [intros _; reflexivity |].
  apply (Worker_log_forwards_iff (console_worker INFO) (sample_line WARNING "up") sample_state).
  intros _. reflexivity.
Defined.

(** C4. An event whose message has a character that is no newline is written
    as one entry: the header with the timestamp, the level tag, the file,
    the line and the function, then the first line of the message, then
    every later line on a line of its own behind the indentation and the
    arrow; the newlines at the end of the message are dropped, and the entry
    ends in one newline. *)
Theorem Worker_log_multiline (wk : Worker) (line : Line) (s : State)
    (a b : string) (c : ascii) :
  wf_worker wk ->
  good wk (world s) = true ->
  (ord (line_level line) <= ord (m_level wk))%Z ->
  line_msg line = a +:+ String c b -> c <> nl ->
  exists lines k,
    line_msg line = join_lines lines +:+ fill k nl /\
    Forall one_line lines /\
    List.last lines EmptyString <> EmptyString /\
    Worker_log wk line s
    = Ret tt (emit wk (header (console wk) (now s) line +:+ layout lines
                       +:+ trailer (console wk)) (tick s)) /\
    sink_text wk (state_of (Worker_log wk line s))
    = sink_text wk s +:+ header (console wk) (now s) line +:+ layout lines
      +:+ trailer (console wk) /\
    exists e x, layout lines +:+ trailer (console wk)
                = e +:+ String x (String nl EmptyString) /\ x <> nl.
Proof.
  intros Hwf Hg Hle Hm Hc.
  destruct (message_lines _ _ _ _ Hm Hc) as [lines [k [Hk [Hone Hlast]]]].
  exists lines, k. split; [exact Hk |]. split; [exact Hone |]. split; [exact Hlast |].
  pose proof (log_text_layout (console wk) (now s) line lines k Hone Hlast Hk) as Ht.
  assert (Hrun : Worker_log wk line s
    = Ret tt (emit wk (header (console wk) (now s) line +:+ layout lines
                       +:+ trailer (console wk)) (tick s))).
  { rewrite Worker_log_text by assumption. rewrite Ht. reflexivity. }
  split; [exact Hrun |]. split.
  - rewrite Hrun. cbn [state_of].
    rewrite sink_text_emit by (rewrite writable_tick; now apply good_writable).
    now rewrite sink_text_tick.
  - unfold trailer. destruct (console wk).
    + exists (layout lines +:+ String esc "[0"), "m"%char. split; [| discriminate].
      unfold resetColor. now rewrite !sapp_assoc.
    + destruct (back_layout lines Hone Hlast) as [x [Hx Hne]].
      exists (pop_back (layout lines)), x. split; [| exact Hne].
      rewrite (back_pop_back _ _ Hx) at 1. now rewrite !sapp_assoc.
Qed.

Lemma Worker_log_multiline_witness :
  exists lines k,
    line_msg (sample_line INFO ("line1" +:+ String nl "line2" +:+ String nl EmptyString))
    = join_lines lines +:+ fill k nl /\
    Forall one_line lines /\
    List.last lines EmptyString <> EmptyString /\
    Worker_log (console_worker INFO)
      (sample_line INFO ("line1" +:+ String nl "line2" +:+ String nl EmptyString))
      sample_state
    = Ret tt (emit (console_worker INFO)
                (header true (now sample_state)
                   (sample_line INFO ("line1" +:+ String nl "line2" +:+ String nl EmptyString))
                 +:+ layout lines +:+ trailer true) (tick sample_state)) /\
    sink_text (console_worker INFO)
      (state_of (Worker_log (console_worker INFO)
         (sample_line INFO ("line1" +:+ String nl "line2" +:+ String nl EmptyString))
         sample_state))
    = sink_text (console_worker INFO) sample_state
      +:+ header true (now sample_state)
            (sample_line INFO ("line1" +:+ String nl "line2" +:+ String nl EmptyString))
      +:+ layout lines +:+ trailer true /\
    exists e x, layout lines +:+ trailer true
                = e +:+ String x (String nl EmptyString) /\ x <> nl.
Proof.
  apply (Worker_log_multiline (console_worker INFO)
           (sample_line INFO ("line1" +:+ String nl "line2" +:+ String nl EmptyString))
           sample_state EmptyString ("ine1" +:+ String nl "line2" +:+ String nl EmptyString)
           "l"%char).
  - intros _. reflexivity.
  - reflexivity.
  - vm_compute. discriminate.
  - reflexivity.
  - discriminate.
Defined.

(** What the console receives for one event when std::cout is as it was
    constructed, and when [std::setfill('*')], [std::left] and [std::hex]
    have been streamed into it before. *)
Lemma Worker_log_fmt_console_bytes :
  cout (world (state_of (Worker_log_fmt default_format (console_worker INFO)
                           (sample_line INFO "ready") sample_state)))
  = "2024-01-02 03:04:05.007 | [    INFO] main.cpp:42 in main(): ready"
    +:+ resetColor +:+ String nl EmptyString /\
  cout (world (state_of (Worker_log_fmt starred_format (console_worker INFO)
                           (sample_line INFO "ready") sample_state)))
  = "2024-01-02 03:04:05.007 | [INFO****] main.cpp:2a in main(): ready"
    +:+ resetColor +:+ String nl EmptyString.
Proof. split; vm_compute; reflexivity. Qed.

(** C8, as stated, fails: the same console Worker, at the same timestamp,
    given the same event, writes other bytes once the fill character, the
    adjustment and the base of std::cout have been changed. *)
Lemma Worker_log_fmt_state_matters : ~ kind_time_event_determine.
Proof.
  intros H.
  destruct (H default_format starred_format (console_worker INFO) (console_worker INFO)
              (sample_line INFO "ready") (sample_line INFO "ready")
              sample_state sample_state) as (text & H1 & H2);
    try reflexivity; try (intros _; reflexivity); try (vm_compute; discriminate).
  pose proof (eq_trans H1 (eq_sym H2)) as E.
  unfold sink_text in E. cbn [console console_worker m_path path_empty fst snd andb] in E.
  destruct Worker_log_fmt_console_bytes as [E1 E2].
  rewrite E1, E2 in E. vm_compute in E. discriminate E.
Qed.

(** C8. Two Workers of the same kind whose streams are in the same
    formatting state (pending width, fill character, adjustment, and the
    line number as the stream writes it), that forward events with the same
    severity, file, line, function and message at the same timestamp, write
    the same bytes, and end the same way. *)
Theorem Worker_log_fmt_deterministic (fmt1 fmt2 : Format) (wk1 wk2 : Worker)
    (l1 l2 : Line) (s1 s2 : State) :
  wf_worker wk1 -> wf_worker wk2 ->
  console wk1 = console wk2 ->
  same_format fmt1 fmt2 (line_line l1) ->
  now s1 = now s2 ->
  line_level l1 = line_level l2 -> line_file l1 = line_file l2 ->
  line_line l1 = line_line l2 -> line_func l1 = line_func l2 ->
  line_msg l1 = line_msg l2 ->
  good wk1 (world s1) = true -> (ord (line_level l1) <= ord (m_level wk1))%Z ->
  good wk2 (world s2) = true -> (ord (line_level l2) <= ord (m_level wk2))%Z ->
  exists (text : string) (f : option Fault),
    Worker_log_fmt fmt1 wk1 l1 s1 = finish f (state_of (Worker_log_fmt fmt1 wk1 l1 s1)) /\
    Worker_log_fmt fmt2 wk2 l2 s2 = finish f (state_of (Worker_log_fmt fmt2 wk2 l2 s2)) /\
    sink_text wk1 (state_of (Worker_log_fmt fmt1 wk1 l1 s1)) = sink_text wk1 s1 +:+ text /\
    sink_text wk2 (state_of (Worker_log_fmt fmt2 wk2 l2 s2)) = sink_text wk2 s2 +:+ text.
Proof.
  intros Hwf1 Hwf2 Hc Hfmt Hnow Hlv Hfi Hli Hfu Hms Hg1 Hle1 Hg2 Hle2.
  assert (l1 = l2) as <- by (destruct l1, l2; simpl in *; congruence).
  exists (fst (log_text_fmt fmt1 (console wk1) (now s1) l1)),
         (snd (log_text_fmt fmt1 (console wk1) (now s1) l1)).
  rewrite (Worker_log_fmt_text fmt1 wk1) by assumption.
  rewrite (Worker_log_fmt_text fmt2 wk2) by assumption.
  rewrite <- Hc, <- Hnow, <- (log_text_fmt_ext fmt1 fmt2 _ _ _ Hfmt), !state_of_finish.
  repeat split; try reflexivity.
  - rewrite sink_text_emit by (rewrite writable_tick; now apply good_writable).
    now rewrite sink_text_tick.
  - rewrite sink_text_emit by (rewrite writable_tick; now apply good_writable).
    now rewrite sink_text_tick.
Qed.

Lemma Worker_log_fmt_deterministic_witness :
  exists (text : string) (f : option Fault),
    Worker_log_fmt starred_format (file_worker app_log DEBUG) (sample_line INFO "ready")
      other_state
    = finish f (state_of (Worker_log_fmt starred_format (file_worker app_log DEBUG)
                            (sample_line INFO "ready") other_state)) /\
    Worker_log_fmt starred_format (file_worker var_log INFO) (sample_line INFO "ready")
      sample_state
    = finish f (state_of (Worker_log_fmt starred_format (file_worker var_log INFO)
                            (sample_line INFO "ready") sample_state)) /\
    sink_text (file_worker app_log DEBUG)
      (state_of (Worker_log_fmt starred_format (file_worker app_log DEBUG)
                   (sample_line INFO "ready") other_state))
    = sink_text (file_worker app_log DEBUG) other_state +:+ text /\
    sink_text (file_worker var_log INFO)
      (state_of (Worker_log_fmt starred_format (file_worker var_log INFO)
                   (sample_line INFO "ready") sample_state))
    = sink_text (file_worker var_log INFO) sample_state +:+ text.
Proof.
  apply (Worker_log_fmt_deterministic starred_format starred_format
           (file_worker app_log DEBUG) (file_worker var_log INFO)
           (sample_line INFO "ready") (sample_line INFO "ready") other_state sample_state);
    try reflexivity; try (intros H; discriminate H); try (repeat split; reflexivity);
    vm_compute; discriminate.
Defined.

(** C9, on the code: a forwarded event whose message is empty, or newlines
    alone, makes the stripping loop call [back()] on the empty string, after
    the header has been written. *)
Theorem Worker_log_back_of_empty (wk : Worker) (line : Line) (s : State) (k : nat) :
  good wk (world s) = true ->
  (ord (line_level line) <= ord (m_level wk))%Z ->
  line_msg line = fill k nl ->
  Worker_log wk line s
  = Abort BackOfEmpty (emit wk (header (console wk) (now s) line) (tick s)).
Proof.
  intros Hg Hle Hm. rewrite Worker_log_text by assumption.
  now rewrite (log_text_fault _ _ _ k Hm).
Qed.

Lemma Worker_log_back_of_empty_witness :
  Worker_log (console_worker INFO) (sample_line INFO EmptyString) sample_state
  = Abort BackOfEmpty
      (emit (console_worker INFO)
         (header true (now sample_state) (sample_line INFO EmptyString))
         (tick sample_state)).
Proof.
  apply (Worker_log_back_of_empty (console_worker INFO) (sample_line INFO EmptyString)
           sample_state 0).
  - reflexivity.
  - vm_compute. discriminate.
  - reflexivity.
Defined.

End WorkerLogTheorems.

(* ================================================================== *)
(** * Manager::log *)

Section Dispatch.

Lemma lock_guard_ret {A} (body : M A) (s s2 : State) (a : A) :
  m_mutex s = false -> body (with_mutex s true) = Ret a s2 ->
  lock_guard body s = Ret a (unlock s2).
Proof. intros Hm Hb. unfold lock_guard, lock. now rewrite Hm, Hb. Qed.

Lemma lock_guard_abort {A} (body : M A) (s s2 : State) (f : Fault) :
  m_mutex s = false -> body (with_mutex s true) = Abort f s2 ->
  lock_guard body s
  = Abort f (match f with FilesystemError => unlock s2 | _ => s2 end).
Proof. intros Hm Hb. unfold lock_guard, lock. rewrite Hm, Hb. now destruct f. Qed.

Lemma lock_guard_relock {A} (body : M A) (s : State) :
  m_mutex s = true -> lock_guard body s = Abort Relock s.
Proof. intros Hm. unfold lock_guard, lock. now rewrite Hm. Qed.

Lemma Worker_log_step (wk : Worker) (line : Line) (s : State) :
  strips (line_msg line) -> Worker_log wk line s = Ret tt (log_step line s wk).
Proof.
  intros Hs. unfold log_step, admits.
  destruct (good wk (world s)) eqn:Hg; cbn [andb];
    [| apply Worker_log_skip; now left].
  destruct (Z.leb_spec (ord (line_level line)) (ord (m_level wk))).
  - rewrite Worker_log_text by assumption. now rewrite log_text_strips.
  - apply Worker_log_skip. now right.
Qed.

Lemma for_each_log (ws : list Worker) (line : Line) (s : State) :
  strips (line_msg line) ->
  for_each ws (fun wk => Worker_log wk line) s = Ret tt (fold_left (log_step line) ws s).
Proof.
  intros Hs. revert s. induction ws as [|wk ws IH]; intros s; [reflexivity |].
  cbn [for_each fold_left]. unfold bind. rewrite Worker_log_step by exact Hs. apply IH.
Qed.

(** With the mutex free and a message that strips, [manager.log] returns. *)
Lemma Manager_log_dispatch (line : Line) (s : State) :
  m_mutex s = false -> strips (line_msg line) ->
  Manager_log line s = Ret tt (dispatch line s).
Proof.
  intros Hm Hs. unfold Manager_log, dispatch.
  apply lock_guard_ret; [exact Hm |].
  unfold bind at 1, get. now apply for_each_log.
Qed.

(** Called with the mutex held, it never returns. *)
Lemma Manager_log_relock (line : Line) (s : State) :
  m_mutex s = true -> Manager_log line s = Abort Relock s.
Proof. apply lock_guard_relock. Qed.

Lemma same_frame_refl (s : State) : same_frame s s.
Proof. repeat split. Qed.

Lemma same_frame_trans (s1 s2 s3 : State) :
  same_frame s1 s2 -> same_frame s2 s3 -> same_frame s1 s3.
Proof.
  intros (A1 & B1 & C1 & D1) (A2 & B2 & C2 & D2).
  repeat split; try congruence; intros wk; now rewrite C2, C1.
Qed.

Lemma same_frame_emit (wk : Worker) (a : string) (s : State) :
  same_frame s (emit wk a s).
Proof.
  repeat split.
  - apply workers_emit.
  - apply mutex_emit.
  - intros wk'. apply writable_emit.
  - unfold emit. destruct (writable wk s), (console wk); reflexivity.
Qed.

Lemma same_frame_tick (s : State) : same_frame s (tick s).
Proof. repeat split. Qed.

Lemma same_frame_log_step (line : Line) (s : State) (wk : Worker) :
  same_frame s (log_step line s wk).
Proof.
  unfold log_step. destruct (good wk (world s) && admits wk line).
  - eapply same_frame_trans; [apply same_frame_tick | apply same_frame_emit].
  - apply same_frame_refl.
Qed.

Lemma same_frame_fold (line : Line) (ws : list Worker) (s : State) :
  same_frame s (fold_left (log_step line) ws s).
Proof.
  revert s. induction ws as [|wk ws IH]; intros s; [apply same_frame_refl |].
  cbn [fold_left]. eapply same_frame_trans; [apply same_frame_log_step | apply IH].
Qed.

Lemma sink_text_log_step_other (line : Line) (s : State) (wk wk' : Worker) :
  m_path wk <> m_path wk' -> sink_text wk (log_step line s wk') = sink_text wk s.
Proof.
  intros Hne. unfold log_step. destruct (good wk' (world s) && admits wk' line);
    [| reflexivity].
  now rewrite sink_text_emit_other, sink_text_tick.
Qed.

Lemma sink_text_fold_other (line : Line) (ws : list Worker) (s : State) (wk : Worker) :
  m_path wk ∉ m_path <$> ws ->
  sink_text wk (fold_left (log_step line) ws s) = sink_text wk s.
Proof.
  revert s. induction ws as [|wk' ws IH]; intros s Hnin; [reflexivity |].
  cbn [fold_left fmap list_fmap] in *. apply not_elem_of_cons in Hnin as [Hne Hnin].
  rewrite IH by exact Hnin. now apply sink_text_log_step_other.
Qed.

(** A registered Worker that is writable and admits the line has the entry
    appended to its destination, once, with the timestamp of some reading
    of the clock. *)
Lemma sink_text_fold_self (line : Line) (ws : list Worker) (s : State) (wk : Worker) :
  wk ∈ ws -> NoDup (m_path <$> ws) ->
  writable wk s = true -> admits wk line = true ->
  exists n, sink_text wk (fold_left (log_step line) ws s)
            = sink_text wk s
              +:+ fst (log_text (console wk) (stamp (clock (world s) n)) line).
Proof.
  revert s. induction ws as [|wk' ws IH]; intros s Hin Hnd Hw Ha.
  - now apply elem_of_nil in Hin.
  - cbn [fmap list_fmap] in Hnd. apply NoDup_cons in Hnd as [Hnin Hnd].
    cbn [fold_left]. apply elem_of_cons in Hin as [<- | Hin].
    + exists (ticks (world s)).
      rewrite sink_text_fold_other by exact Hnin.
      unfold log_step. rewrite (writable_good _ _ Hw), Ha. cbn [andb].
      rewrite sink_text_emit by (now rewrite writable_tick).
      now rewrite sink_text_tick.
    + assert (Hne : m_path wk <> m_path wk').
      { intros E. apply Hnin. rewrite <- E. now apply list_elem_of_fmap_2. }
      destruct (same_frame_log_step line s wk') as (_ & _ & Hwr & Hck).
      assert (Hw' : writable wk (log_step line s wk') = true) by (now rewrite Hwr).
      destruct (IH (log_step line s wk') Hin Hnd Hw' Ha) as [n Hn].
      exists n. rewrite Hn, Hck. now rewrite sink_text_log_step_other.
Qed.

Lemma workers_dispatch (line : Line) (s : State) :
  m_workers (dispatch line s) = m_workers s /\ m_mutex (dispatch line s) = false.
Proof.
  unfold dispatch. split; [| reflexivity].
  destruct (same_frame_fold line (m_workers s) (with_mutex s true)) as (H & _).
  exact H.
Qed.

Lemma sink_text_dispatch_other (line : Line) (s : State) (wk : Worker) :
  m_path wk ∉ paths s -> sink_text wk (dispatch line s) = sink_text wk s.
Proof.
  intros H. unfold dispatch. change (sink_text wk (unlock ?x)) with (sink_text wk x).
  now rewrite sink_text_fold_other.
Qed.

Lemma sink_text_dispatch_self (line : Line) (s : State) (wk : Worker) :
  wk ∈ m_workers s -> NoDup (paths s) ->
  writable wk s = true -> admits wk line = true ->
  exists n, sink_text wk (dispatch line s)
            = sink_text wk s
              +:+ fst (log_text (console wk) (stamp (clock (world s) n)) line).
Proof.
  intros Hin Hnd Hw Ha. unfold dispatch.
  change (sink_text wk (unlock ?x)) with (sink_text wk x).
  exact (sink_text_fold_self line (m_workers s) (with_mutex s true) wk Hin Hnd Hw Ha).
Qed.

End Dispatch.

(* ================================================================== *)
(** * Worker::Worker *)

Section Constructor.

Lemma back_quoted (a q : string) : back (a +:+ quoted q) = Some dquote.
Proof.
  unfold quoted. rewrite <- sapp_cons, <- sapp_assoc. apply back_snoc.
Qed.

Lemma strips_removing (p : path) : strips (line_msg (removing_line p)).
Proof.
  apply (back_strips _ dquote); [| discriminate].
  change (line_msg (removing_line p))
    with ("Removing log worker at " +:+ identity_text p).
  apply back_quoted.
Qed.

Lemma strips_failed (p : path) : strips (line_msg (failed_line p)).
Proof.
  apply (back_strips _ dquote); [| discriminate].
  change (line_msg (failed_line p)) with ("Failed to open log at " +:+ identity_text p).
  apply back_quoted.
Qed.

Lemma strips_added (p : path) (level : Level) : strips (line_msg (added_line p level)).
Proof.
  apply (back_strips _ ")"%char); [| discriminate].
  change (line_msg (added_line p level))
    with (((("Added log worker at " +:+ identity_text p) +:+ " (level: ")
            +:+ levelStr level) +:+ ")").
  apply back_snoc.
Qed.

Lemma Worker_ctor_console (p : path) (level : Level) (s : State) :
  path_empty p = true ->
  Worker_ctor p level s = Ret {| m_path := p; m_level := level; m_stream := None |} s.
Proof. intros H. unfold Worker_ctor. now rewrite H. Qed.

(** The constructor on a file identity, step by step. *)
Lemma Worker_ctor_file (p : path) (level : Level) (s : State) :
  path_empty p = false ->
  Worker_ctor p level s =
  match prepare_dirs p (world s) with
  | None => Abort FilesystemError s
  | Some w1 =>
      let s2 := with_world s (snd (open_append p w1)) in
      let this := {| m_path := p; m_level := level;
                     m_stream := Some {| of_good := fst (open_append p w1) |} |} in
      if fst (open_append p w1)
      then Ret this (emit this (separator (now s2)) (tick s2))
      else bind (Manager_log (failed_line p)) (fun _ => ret this) s2
  end.
Proof.
  intros Hp. unfold Worker_ctor, prepare_dirs. rewrite Hp.
  unfold bind at 1, get. unfold bind at 1, when.
  assert (Hrest : forall s1 : State,
    bind (make_ofstream p) (fun f =>
      let this := {| m_path := p; m_level := level; m_stream := Some f |} in
      bind get (fun s2 =>
        if negb (good this (world s2)) then
          bind (LOG WARNING Logger_cpp 79 "Worker"
                  ["Failed to open log at ";
                   show_path (if console this then console_path else p)])
               (fun _ => ret this)
        else
          bind (put this (String nl EmptyString)) (fun _ =>
          bind (put this (fill TIME_FMT_WIDTH "-")) (fun _ =>
          bind (put this (String nl EmptyString)) (fun _ =>
          bind (bind timeStr (fun t => put this t)) (fun _ =>
          bind (put this " | ") (fun _ =>
          bind (put this (fill (FULL_LOG_WIDTH - TIME_FMT_WIDTH - 1) "-")) (fun _ =>
          bind (put this (String nl EmptyString)) (fun _ => ret this))))))))) s1
    = let s2 := with_world s1 (snd (open_append p (world s1))) in
      let this := {| m_path := p; m_level := level;
                     m_stream := Some {| of_good := fst (open_append p (world s1)) |} |} in
      if fst (open_append p (world s1))
      then Ret this (emit this (separator (now s2)) (tick s2))
      else bind (Manager_log (failed_line p)) (fun _ => ret this) s2).
  { intros s1. unfold bind at 1, make_ofstream. unfold bind at 1, get.
    cbn zeta. set (g := fst (open_append p (world s1))).
    set (s2 := with_world s1 (snd (open_append p (world s1)))).
    set (this := {| m_path := p; m_level := level; m_stream := Some {| of_good := g |} |}).
    assert (Hgood : forall st, good this (world st) = g).
    { intros st. unfold good, this. cbn [m_path m_stream of_good]. now rewrite Hp. }
    rewrite Hgood. destruct g eqn:Eg; cbn [negb].
    - assert (Hg : forall st, good this (world st) = true) by exact Hgood.
      rewrite !bind_put by apply Hg. rewrite !emit_emit.
      rewrite bind_bind, bind_timeStr.
      rewrite !bind_put by apply Hg. rewrite !emit_emit.
      rewrite now_emit, <- emit_tick, emit_emit.
      unfold ret, separator. now rewrite emit_tick, !sapp_assoc.
    - unfold LOG, failed_line, identity_text, console, this. cbn [m_path].
      now rewrite Hp. }
  destruct (negb (fs_exists (world s) p) && has_parent_path p).
  - unfold fs_create_directories.
    destruct (create_directories (parent_path p) (world s)) as [w1|]; [| reflexivity].
    rewrite Hrest. reflexivity.
  - unfold ret. rewrite Hrest. reflexivity.
Qed.

End Constructor.

(* ================================================================== *)
(** * The filesystem calls of the constructor *)

Section Filesystem.

Lemma is_directory_dirs (w w' : World) (d : path) :
  dirs w' = dirs w -> is_directory w' d = is_directory w d.
Proof. unfold is_directory. now intros ->. Qed.

Lemma create_dirs_spec (r : bool) (rest pre : list string) (w w' : World) :
  create_dirs r pre rest w = Some w' ->
  (forall n, 1 <= n <= length rest -> is_directory w' (r, pre ++ take n rest) = true) /\
  (forall d, is_directory w d = true -> is_directory w' d = true) /\
  files w' = files w /\ cout w' = cout w /\ cout_good w' = cout_good w /\
  clock w' = clock w /\ ticks w' = ticks w.
Proof.
  revert pre w. induction rest as [|f rest IH]; intros pre w H; cbn [create_dirs] in H.
  - injection H as <-. repeat split; auto. cbn [length]. lia.
  - assert (Hstep : forall w1,
      create_dirs r (pre ++ [f]) rest w1 = Some w' ->
      is_directory w1 (r, pre ++ [f]) = true ->
      forall n, 1 <= n <= length (f :: rest) ->
        is_directory w' (r, pre ++ take n (f :: rest)) = true).
    { intros w1 Hc Hd n Hn. destruct (IH _ _ Hc) as (Ha & Hb & _).
      destruct n as [|[|n]]; [lia | |].
      - cbn [take]. now apply Hb.
      - cbn [take]. cbn [length] in Hn.
        specialize (Ha (S n) ltac:(lia)). cbn [take] in Ha.
        now rewrite <- app_assoc in Ha. }
    destruct (is_directory w (r, pre ++ [f])) eqn:Ed.
    + destruct (IH _ _ H) as (Ha & Hb & Hc). split; [now apply (Hstep w) |].
      split; [exact Hb | exact Hc].
    + destruct (is_regular_file w (r, pre ++ [f]) || bool_decide ((r, pre ++ [f]) ∈ denied w));
        [discriminate |].
      set (w1 := with_dirs w ({[(r, pre ++ [f])]} ∪ dirs w)) in *.
      destruct (IH _ _ H) as (Ha & Hb & Hc).
      assert (Hmono : forall d, is_directory w d = true -> is_directory w1 d = true).
      { intros d. unfold is_directory, w1. cbn [dirs with_dirs].
        intros [Hd | Hd]%orb_true_iff; apply orb_true_iff; [left | now right].
        apply bool_decide_eq_true in Hd. apply bool_decide_eq_true.
        now apply elem_of_union_r. }
      split.
      * apply (Hstep w1 H). unfold is_directory, w1. cbn [dirs with_dirs].
        apply orb_true_iff. left. apply bool_decide_eq_true.
        now apply elem_of_union_l, elem_of_singleton.
      * split; [intros d Hd; apply Hb, Hmono, Hd | exact Hc].
Qed.

Lemma create_dirs_id (r : bool) (rest pre : list string) (w : World) :
  (forall n, 1 <= n <= length rest -> is_directory w (r, pre ++ take n rest) = true) ->
  create_dirs r pre rest w = Some w.
Proof.
  revert pre. induction rest as [|f rest IH]; intros pre H; [reflexivity |].
  cbn [create_dirs]. pose proof (H 1 ltac:(cbn [length]; lia)) as H1.
  change (take 1 (f :: rest)) with ([f] : list string) in H1. rewrite H1.
  apply IH. intros n Hn. specialize (H (S n)). cbn [take length] in H.
  rewrite <- app_assoc. apply H. lia.
Qed.

Lemma Forall_ancestors (P : path -> Prop) (p : path) :
  Forall P (ancestors p) <->
  forall n, 1 <= n < length (snd p) -> P (fst p, take n (snd p)).
Proof.
  unfold ancestors. rewrite Forall_fmap, Forall_seq. unfold compose.
  split; intros H n Hn; apply H; lia.
Qed.

Lemma take_removelast {A} (l : list A) (n : nat) :
  n <= length (removelast l) -> take n (removelast l) = take n l.
Proof.
  rewrite removelast_firstn_len. intros Hn. rewrite length_take in Hn.
  rewrite take_take. f_equal. lia.
Qed.

Lemma length_removelast_pred {A} (l : list A) :
  length (removelast l) = length l - 1.
Proof. rewrite removelast_firstn_len, length_take. lia. Qed.

(** When the parent directories can be created, they all exist afterwards. *)
Lemma create_directories_ancestors (p : path) (w w1 : World) :
  create_directories (parent_path p) w = Some w1 ->
  Forall (fun d => is_directory w1 d = true) (ancestors p).
Proof.
  intros H. apply Forall_ancestors. intros n Hn.
  unfold create_directories, parent_path in H.
  destruct p as [r fs]. cbn [fst snd] in *. destruct fs as [|f fs]; [cbn in Hn; lia |].
  cbn [fst snd] in H. apply create_dirs_spec in H as (Ha & _).
  specialize (Ha n). rewrite app_nil_l, take_removelast in Ha
    by (rewrite length_removelast_pred; lia).
  apply Ha. rewrite length_removelast_pred. lia.
Qed.

(** In a tree, the constructor's test before create_directories changes
    nothing: where it skips the call, the call would have had nothing to
    do. *)
Lemma prepare_dirs_create (p : path) (w w1 : World) :
  fs_tree w ->
  create_directories (parent_path p) w = Some w1 ->
  prepare_dirs p w = Some w1.
Proof.
  intros Htree H. unfold prepare_dirs.
  destruct (fs_exists w p) eqn:Ex; cbn [negb andb].
  - rewrite <- H. symmetry. unfold create_directories, parent_path.
    destruct p as [r fs]. cbn [fst snd]. destruct fs as [|f fs]; [reflexivity |].
    cbn [fst snd]. apply create_dirs_id. intros n Hn.
    rewrite length_removelast_pred in Hn.
    rewrite app_nil_l, take_removelast by (rewrite length_removelast_pred; lia).
    specialize (Htree _ Ex). rewrite Forall_ancestors in Htree.
    apply (Htree n). cbn [snd]. lia.
  - destruct (has_parent_path p) eqn:Hh; [exact H |].
    rewrite <- H. symmetry. unfold has_parent_path in Hh.
    apply negb_false_iff in Hh. unfold path_empty in Hh.
    apply andb_true_iff in Hh as [_ Hh]. apply bool_decide_eq_true in Hh.
    unfold create_directories. now rewrite Hh.
Qed.

Lemma open_append_fail (p : path) (w : World) :
  fst (open_append p w) = false -> snd (open_append p w) = w.
Proof.
  unfold open_append.
  destruct (path_empty p || is_directory w p || bool_decide (p ∈ denied w));
    [reflexivity |].
  destruct (files w !! p); [discriminate |].
  destruct (has_parent_path p && negb (is_directory w (parent_path p)));
    [reflexivity | discriminate].
Qed.

Lemma open_append_ok (p : path) (w : World) :
  fst (open_append p w) = true ->
  dirs (snd (open_append p w)) = dirs w /\
  file_text (snd (open_append p w)) p = file_text w p /\
  clock (snd (open_append p w)) = clock w /\
  ticks (snd (open_append p w)) = ticks w.
Proof.
  unfold open_append.
  destruct (path_empty p || is_directory w p || bool_decide (p ∈ denied w));
    [discriminate |].
  destruct (files w !! p) eqn:E; [auto |].
  destruct (has_parent_path p && negb (is_directory w (parent_path p)));
    [discriminate |].
  intros _. cbn [snd]. repeat split.
  unfold file_text. cbn [files with_files]. now rewrite lookup_insert_eq, E.
Qed.

End Filesystem.

Section ConstructorTheorems.

Lemma dirs_emit (wk : Worker) (a : string) (s : State) :
  dirs (world (emit wk a s)) = dirs (world s).
Proof. unfold emit. destruct (writable wk s), (console wk); reflexivity. Qed.

Lemma fs_tree_sample_world : fs_tree sample_world.
Proof.
  intros q Hq. apply Forall_ancestors. intros n Hn.
  unfold fs_exists, is_directory, is_regular_file in Hq. cbn [dirs files sample_world] in Hq.
  rewrite lookup_empty in Hq.
  rewrite (bool_decide_eq_false_2 (is_Some None)) in Hq by apply is_Some_None.
  rewrite orb_false_r in Hq.
  apply orb_true_iff in Hq as [Hq | Hq].
  - apply bool_decide_eq_true, elem_of_singleton in Hq. subst q. cbn in Hn. lia.
  - apply andb_true_iff in Hq as [_ Hq]. apply bool_decide_eq_true in Hq.
    rewrite Hq in Hn. cbn in Hn. lia.
Qed.

(** The constructor on a file that opens. *)
Lemma Worker_ctor_session (p : path) (level : Level) (s : State) (w1 : World) :
  path_empty p = false ->
  fs_tree (world s) ->
  create_directories (parent_path p) (world s) = Some w1 ->
  fst (open_append p w1) = true ->
  exists wk s',
    Worker_ctor p level s = Ret wk s' /\
    m_path wk = p /\ m_level wk = level /\ good wk (world s') = true /\
    Forall (fun d => is_directory (world s') d = true) (ancestors p) /\
    file_text (world s') p = file_text (world s) p +:+ separator (now s) /\
    m_workers s' = m_workers s.
Proof.
  intros Hp Htree Hdirs Hopen.
  rewrite Worker_ctor_file by exact Hp.
  rewrite (prepare_dirs_create _ _ _ Htree Hdirs). cbn zeta. rewrite Hopen.
  set (this := {| m_path := p; m_level := level;
                  m_stream := Some {| of_good := true |} |}).
  set (s2 := with_world s (snd (open_append p w1))).
  exists this, (emit this (separator (now s2)) (tick s2)).
  destruct (open_append_ok p w1 Hopen) as (Hd & Hf & Hc & Ht).
  unfold create_directories in Hdirs.
  pose proof (create_directories_ancestors p _ _ Hdirs) as Hanc.
  apply create_dirs_spec in Hdirs as (_ & _ & Hfiles & _ & _ & Hclock & Hticks).
  assert (Hnow : now s2 = now s).
  { unfold now, s2. cbn [world with_world]. now rewrite Hc, Ht, Hclock, Hticks. }
  assert (Hcons : console this = false) by exact Hp.
  assert (Hw : writable this (tick s2) = true)
    by (unfold writable; rewrite Hcons; reflexivity).
  repeat split.
  - unfold good, this. cbn [m_path m_stream of_good]. now rewrite Hp.
  - eapply Forall_impl; [exact Hanc |]. intros d Hdir.
    rewrite <- Hdir. apply is_directory_dirs. rewrite dirs_emit. exact Hd.
  - pose proof (sink_text_emit this (separator (now s2)) (tick s2) Hw) as E.
    unfold sink_text in E. rewrite Hcons in E. change (m_path this) with p in E.
    rewrite E, Hnow. f_equal.
    change (world (tick s2)) with (with_ticks (snd (open_append p w1))
                                     (S (ticks (snd (open_append p w1))))).
    unfold file_text in *. cbn [files with_ticks]. rewrite Hf. now rewrite Hfiles.
  - rewrite workers_emit. reflexivity.
Qed.

(** C7. For a file identity whose parent directories std::filesystem can
    create and whose file the stream can open, the constructor returns a good
    Worker; afterwards every directory above the path exists, and the file
    holds what it held before, then the session separator: an empty line, a
    rule of dashes, and a header line with the timestamp.  The Worker is not
    yet in the manager's vector, so no log line comes before the
    separator. *)
Theorem Worker_ctor_opens_session (p : path) (level : Level) (s : State) (w1 : World) :
  path_empty p = false ->
  fs_tree (world s) ->
  create_directories (parent_path p) (world s) = Some w1 ->
  fst (open_append p w1) = true ->
  exists wk s',
    Worker_ctor p level s = Ret wk s' /\
    m_path wk = p /\ m_level wk = level /\ good wk (world s') = true /\
    Forall (fun d => is_directory (world s') d = true) (ancestors p) /\
    file_text (world s') p = file_text (world s) p +:+ separator (now s) /\
    m_workers s' = m_workers s.
Proof. apply Worker_ctor_session. Qed.

Lemma Worker_ctor_opens_session_witness :
  exists wk s',
    Worker_ctor app_log INFO sample_state = Ret wk s' /\
    m_path wk = app_log /\ m_level wk = INFO /\ good wk (world s') = true /\
    Forall (fun d => is_directory (world s') d = true) (ancestors app_log) /\
    file_text (world s') app_log
    = file_text (world sample_state) app_log +:+ separator (now sample_state) /\
    m_workers s' = m_workers sample_state.
Proof.
  apply (Worker_ctor_opens_session app_log INFO sample_state
           (with_dirs sample_world ({[ var_log ]} ∪ dirs sample_world))).
  - reflexivity.
  - exact fs_tree_sample_world.
  - vm_compute. reflexivity.
  - vm_compute. reflexivity.
Defined.

End ConstructorTheorems.

(* ================================================================== *)
(** * The manager's vector *)

Section Frames.

Lemma frame_ret {A} (a : A) : frame (ret a).
Proof. intros s. reflexivity. Qed.

Lemma frame_bind {A B} (c : M A) (k : A -> M B) :
  frame c -> (forall a, frame (k a)) -> frame (bind c k).
Proof.
  intros Hc Hk s. unfold bind. specialize (Hc s).
  destruct (c s) as [a s1 | f s1]; cbn [state_of] in *; [| exact Hc].
  now rewrite Hk.
Qed.

Lemma frame_lock_guard {A} (body : M A) : frame body -> frame (lock_guard body).
Proof.
  intros Hb s. unfold lock_guard, lock. destruct (m_mutex s); [reflexivity |].
  specialize (Hb (with_mutex s true)).
  destruct (body (with_mutex s true)) as [a s2 | f s2]; cbn [state_of] in *;
    [exact Hb | destruct f; exact Hb].
Qed.

Lemma Worker_log_frame (wk : Worker) (line : Line) : frame (Worker_log wk line).
Proof.
  intros s. destruct (good wk (world s)) eqn:Hg;
    [| rewrite Worker_log_skip by (now left); reflexivity].
  destruct (Z.le_gt_cases (ord (line_level line)) (ord (m_level wk))).
  - rewrite Worker_log_text, state_of_finish by assumption. now rewrite workers_emit.
  - rewrite Worker_log_skip by (right; lia). reflexivity.
Qed.

Lemma for_each_frame (ws : list Worker) (f : Worker -> M unit) :
  (forall wk, frame (f wk)) -> frame (for_each ws f).
Proof.
  intros Hf. induction ws as [|wk ws IH]; [apply frame_ret |].
  cbn [for_each]. apply frame_bind; [apply Hf | intros _; exact IH].
Qed.

Lemma Manager_log_frame (line : Line) : frame (Manager_log line).
Proof.
  apply frame_lock_guard. intros s. unfold bind, get.
  apply for_each_frame. intros wk. apply Worker_log_frame.
Qed.

Lemma Worker_ctor_frame (p : path) (level : Level) : frame (Worker_ctor p level).
Proof.
  intros s. destruct (path_empty p) eqn:Hp.
  - now rewrite Worker_ctor_console.
  - rewrite Worker_ctor_file by exact Hp.
    destruct (prepare_dirs p (world s)) as [w1|]; [| reflexivity]. cbn zeta.
    destruct (fst (open_append p w1)).
    + cbn [state_of]. now rewrite workers_emit.
    + rewrite (frame_bind _ _ (Manager_log_frame _) (fun _ => frame_ret _)).
      reflexivity.
Qed.

(** The Worker the constructor returns: at the identity asked for, with the
    level asked for, and with no stream of its own when it is the console. *)
Lemma Worker_ctor_result (p : path) (level : Level) (s s' : State) (wk : Worker) :
  Worker_ctor p level s = Ret wk s' ->
  m_path wk = p /\ m_level wk = level /\ wf_worker wk.
Proof.
  destruct (path_empty p) eqn:Hp.
  - rewrite Worker_ctor_console by exact Hp. intros [= <- _]. repeat split.
  - rewrite Worker_ctor_file by exact Hp.
    destruct (prepare_dirs p (world s)) as [w1|]; [| discriminate]. cbn zeta.
    assert (Hwf : forall g, wf_worker {| m_path := p; m_level := level;
                                         m_stream := Some {| of_good := g |} |}).
    { intros g. unfold wf_worker, console. cbn [m_path]. rewrite Hp. discriminate. }
    destruct (fst (open_append p w1)).
    + intros [= <- _]. repeat split. apply Hwf.
    + unfold bind. destruct (Manager_log _ _); [| discriminate].
      intros [= <- _]. repeat split. apply Hwf.
Qed.

Lemma addWorker_update_None (ws : list Worker) (p : path) (level : Level) :
  p ∉ m_path <$> ws <-> addWorker_update ws p level = None.
Proof.
  induction ws as [|wk ws IH]; cbn [addWorker_update fmap list_fmap].
  - split; [reflexivity | intros _; apply not_elem_of_nil].
  - rewrite not_elem_of_cons. case_bool_decide as E.
    + split; [intros [H _]; congruence | discriminate].
    + rewrite IH. destruct (addWorker_update ws p level); cbn.
      * split; [intros [_ H]; discriminate | discriminate].
      * split; [reflexivity | intros _; split; [congruence | reflexivity]].
Qed.

Lemma addWorker_update_paths (ws ws' : list Worker) (p : path) (level : Level) :
  addWorker_update ws p level = Some ws' ->
  m_path <$> ws' = m_path <$> ws /\
  (Forall wf_worker ws -> Forall wf_worker ws').
Proof.
  revert ws'. induction ws as [|wk ws IH]; intros ws'; cbn [addWorker_update];
    [discriminate |].
  case_bool_decide as E.
  - intros [= <-]. split; [reflexivity |].
    intros [Hw Hws]%Forall_cons. constructor; assumption.
  - destruct (addWorker_update ws p level) as [ws1|]; [| discriminate].
    cbn. intros [= <-]. destruct (IH _ eq_refl) as [Hp Hw].
    cbn [fmap list_fmap]. split; [now f_equal |].
    intros [Hw1 Hws]%Forall_cons. constructor; auto.
Qed.

Lemma retarget_other (ws : list Worker) (p : path) (level : Level) :
  p ∉ m_path <$> ws -> retarget p level <$> ws = ws.
Proof.
  induction ws as [|wk ws IH]; [reflexivity |].
  cbn [fmap list_fmap]. rewrite not_elem_of_cons. intros [Hne Hnin].
  unfold retarget at 1. rewrite bool_decide_eq_false_2 by congruence.
  f_equal. now apply IH.
Qed.

(** With one Worker at most per identity, the loop's single update is the
    update of every Worker at the identity. *)
Lemma addWorker_update_retarget (ws : list Worker) (p : path) (level : Level) :
  NoDup (m_path <$> ws) -> p ∈ m_path <$> ws ->
  addWorker_update ws p level = Some (retarget p level <$> ws).
Proof.
  induction ws as [|wk ws IH]; cbn [fmap list_fmap addWorker_update].
  - intros _ H. now apply elem_of_nil in H.
  - intros [Hnin Hnd]%NoDup_cons Hin. unfold retarget at 1. case_bool_decide as E.
    + rewrite retarget_other by (now rewrite <- E). reflexivity.
    + apply elem_of_cons in Hin as [Hin | Hin]; [congruence |].
      now rewrite (IH Hnd Hin).
Qed.

Lemma erase_first_absent (ws : list Worker) (p : path) :
  p ∉ m_path <$> ws -> erase_first ws p = ws.
Proof.
  induction ws as [|wk ws IH]; [reflexivity |].
  cbn [fmap list_fmap erase_first]. rewrite not_elem_of_cons. intros [Hne Hnin].
  rewrite bool_decide_eq_false_2 by congruence. f_equal. now apply IH.
Qed.

Lemma erase_first_sublist (ws : list Worker) (p : path) :
  sublist (erase_first ws p) ws.
Proof.
  induction ws as [|wk ws IH]; [constructor |]. cbn [erase_first].
  case_bool_decide; [now apply sublist_cons | now apply sublist_skip].
Qed.

Lemma erase_first_gone (ws : list Worker) (p : path) :
  NoDup (m_path <$> ws) -> p ∉ m_path <$> erase_first ws p.
Proof.
  induction ws as [|wk ws IH]; cbn [fmap list_fmap erase_first].
  - intros _. apply not_elem_of_nil.
  - intros [Hnin Hnd]%NoDup_cons. case_bool_decide as E.
    + now rewrite <- E.
    + cbn [fmap list_fmap]. apply not_elem_of_cons. split; [congruence | now apply IH].
Qed.

End Frames.

(* ================================================================== *)
(** * Manager::addWorker and Manager::removeWorker *)

Section Registration.

Lemma unlock_with_workers (s : State) (ws : list Worker) :
  m_mutex s = false -> unlock (with_workers (with_mutex s true) ws) = with_workers s ws.
Proof. intros H. destruct s. cbn in *. subst. reflexivity. Qed.

Lemma with_workers_id (s : State) : with_workers s (m_workers s) = s.
Proof. now destruct s. Qed.

Lemma addWorker_locked (p : path) (level : Level) (s : State) :
  m_mutex s = true -> Manager_addWorker p level s = Abort Relock s.
Proof. intros H. unfold Manager_addWorker, bind. now rewrite lock_guard_relock. Qed.

(** The identity is registered: the level is set and the call returns. *)
Lemma addWorker_registered (p : path) (level : Level) (s : State) (ws' : list Worker) :
  m_mutex s = false ->
  addWorker_update (m_workers s) p level = Some ws' ->
  Manager_addWorker p level s = Ret tt (with_workers s ws').
Proof.
  intros Hm Hu. unfold Manager_addWorker. unfold bind at 1.
  erewrite lock_guard_ret; [| exact Hm |].
  2:{ unfold bind at 1, get. cbn [m_workers with_mutex]. rewrite Hu. reflexivity. }
  now rewrite unlock_with_workers.
Qed.

(** The identity is new and the constructor returns. *)
Lemma addWorker_constructed (p : path) (level : Level) (s s1 : State) (wk : Worker) :
  m_mutex s = false ->
  p ∉ paths s ->
  Worker_ctor p level (with_mutex s true) = Ret wk s1 ->
  Manager_addWorker p level s = Ret tt (dispatch (added_line p level) (after_block wk s1)).
Proof.
  intros Hm Hp Hc. unfold Manager_addWorker. unfold bind at 1.
  apply addWorker_update_None with (level := level) in Hp. unfold paths in Hp.
  unfold lock_guard, lock. rewrite Hm.
  unfold bind at 1, get. cbn [m_workers with_mutex]. rewrite Hp.
  unfold bind at 1. rewrite Hc.
  unfold bind, get, set_workers, when, ret. cbn [world with_workers m_workers].
  change (LOG DEBUG Logger_cpp 108 "addWorker"
            ["Added log worker at "; show_path (if path_empty p then console_path else p);
             " (level: "; levelStr level; ")"])
    with (Manager_log (added_line p level)).
  unfold after_block.
  destruct (good wk (world s1)); cbn [negb].
  - apply Manager_log_dispatch; [reflexivity | apply strips_added].
  - cbn [with_workers m_workers]. rewrite removelast_last.
    apply Manager_log_dispatch; [reflexivity | apply strips_added].
Qed.

(** The identity is new and the constructor does not return. *)
Lemma addWorker_aborted (p : path) (level : Level) (s s1 : State) (f : Fault) :
  m_mutex s = false ->
  p ∉ paths s ->
  Worker_ctor p level (with_mutex s true) = Abort f s1 ->
  Manager_addWorker p level s
  = Abort f (match f with FilesystemError => unlock s1 | _ => s1 end).
Proof.
  intros Hm Hp Hc. unfold Manager_addWorker. unfold bind at 1.
  apply addWorker_update_None with (level := level) in Hp.
  erewrite lock_guard_abort; [reflexivity | exact Hm |].
  unfold bind at 1, get. cbn [m_workers with_mutex]. unfold paths in Hp. rewrite Hp.
  unfold bind at 1. now rewrite Hc.
Qed.

Lemma removeWorker_run (p : path) (s : State) :
  m_mutex s = false ->
  Manager_removeWorker p s
  = Ret tt (with_workers (dispatch (removing_line p) s) (erase_first (m_workers s) p)).
Proof.
  intros Hm. unfold Manager_removeWorker.
  change (LOG DEBUG Logger_cpp 113 "removeWorker"
            ["Removing log worker at ";
             show_path (if path_empty p then console_path else p)])
    with (Manager_log (removing_line p)).
  unfold bind at 1. rewrite Manager_log_dispatch by (auto using strips_removing).
  destruct (workers_dispatch (removing_line p) s) as [Hw Hmd].
  erewrite lock_guard_ret; [| exact Hmd | reflexivity].
  cbn [m_workers with_mutex]. rewrite unlock_with_workers by exact Hmd.
  now rewrite Hw.
Qed.

(** C6. Removing an identity that no Worker has returns and leaves the vector
    of Workers as it was: the same Workers, with their identities, thresholds
    and streams, in the same order. *)
Theorem removeWorker_absent (p : path) (s : State) :
  m_mutex s = false ->
  p ∉ paths s ->
  Manager_removeWorker p s = Ret tt (dispatch (removing_line p) s) /\
  m_workers (dispatch (removing_line p) s) = m_workers s /\
  m_mutex (dispatch (removing_line p) s) = false.
Proof.
  intros Hm Hp. destruct (workers_dispatch (removing_line p) s) as [Hw Hmd].
  split; [| split; assumption].
  rewrite removeWorker_run by exact Hm.
  rewrite erase_first_absent by exact Hp.
  now rewrite <- Hw, with_workers_id.
Qed.

Lemma removeWorker_absent_witness :
  Manager_removeWorker app_log sample_state
  = Ret tt (dispatch (removing_line app_log) sample_state) /\
  m_workers (dispatch (removing_line app_log) sample_state) = m_workers sample_state /\
  m_mutex (dispatch (removing_line app_log) sample_state) = false.
Proof.
  apply (removeWorker_absent app_log sample_state).
  - reflexivity.
  - unfold paths. cbn. intros H. apply list_elem_of_singleton in H. discriminate H.
Defined.

(** C5. removeWorker dispatches the line that announces the removal while
    the Worker is still in the vector, and erases the Worker afterwards: a
    Worker that is good and admits DEBUG has the entry appended to its
    destination, and is gone when the call returns. *)
Theorem removeWorker_log_then_erase (wk : Worker) (s : State) :
  m_mutex s = false ->
  NoDup (paths s) ->
  wk ∈ m_workers s ->
  wf_worker wk ->
  good wk (world s) = true ->
  (ord DEBUG <= ord (m_level wk))%Z ->
  exists s' n,
    Manager_removeWorker (m_path wk) s = Ret tt s' /\
    sink_text wk s'
    = sink_text wk s
      +:+ fst (log_text (console wk) (stamp (clock (world s) n))
                 (removing_line (m_path wk))) /\
    (wk ∉ m_workers s') /\ (m_path wk ∉ paths s').
Proof.
  intros Hm Hnd Hin Hwf Hg Hle.
  assert (Ha : admits wk (removing_line (m_path wk)) = true)
    by (unfold admits; apply Z.leb_le; exact Hle).
  destruct (sink_text_dispatch_self (removing_line (m_path wk)) s wk Hin Hnd
              (good_writable _ _ Hwf Hg) Ha) as [n Hn].
  exists (with_workers (dispatch (removing_line (m_path wk)) s)
            (erase_first (m_workers s) (m_path wk))), n.
  split; [now apply removeWorker_run |]. split; [exact Hn |].
  assert (Hgone : m_path wk ∉ m_path <$> erase_first (m_workers s) (m_path wk))
    by (now apply erase_first_gone).
  split; [| exact Hgone].
  intros Hin'. apply Hgone. cbn [m_workers with_workers] in Hin'.
  now apply list_elem_of_fmap_2.
Qed.

Lemma removeWorker_log_then_erase_witness :
  exists s' n,
    Manager_removeWorker (m_path (console_worker TRACE)) sample_state = Ret tt s' /\
    sink_text (console_worker TRACE) s'
    = sink_text (console_worker TRACE) sample_state
      +:+ fst (log_text (console (console_worker TRACE))
                 (stamp (clock (world sample_state) n))
                 (removing_line (m_path (console_worker TRACE)))) /\
    (console_worker TRACE ∉ m_workers s') /\ (m_path (console_worker TRACE) ∉ paths s').
Proof.
  apply (removeWorker_log_then_erase (console_worker TRACE) sample_state).
  - reflexivity.
  - unfold paths. cbn. apply NoDup_singleton.
  - cbn. apply list_elem_of_singleton. reflexivity.
  - intros _. reflexivity.
  - reflexivity.
  - vm_compute. discriminate.
Defined.

(** C3, on the code: when the file of a new identity cannot be opened, the
    constructor logs its warning while addWorker holds the mutex, and
    [manager.log] locks that mutex again.  The call never returns; the mutex
    stays held, and no Worker has received the warning. *)
Theorem addWorker_failed_open_relocks (p : path) (level : Level) (s : State) (w1 : World) :
  m_mutex s = false ->
  path_empty p = false ->
  p ∉ paths s ->
  fs_tree (world s) ->
  create_directories (parent_path p) (world s) = Some w1 ->
  fst (open_append p w1) = false ->
  Manager_addWorker p level s = Abort Relock (with_mutex (with_world s w1) true).
Proof.
  intros Hm Hp Hnin Htree Hdirs Hopen.
  rewrite (addWorker_aborted p level s (with_mutex (with_world s w1) true) Relock Hm Hnin);
    [reflexivity |].
  rewrite Worker_ctor_file by exact Hp.
  change (world (with_mutex s true)) with (world s).
  rewrite (prepare_dirs_create _ _ _ Htree Hdirs). cbn zeta.
  rewrite Hopen, (open_append_fail _ _ Hopen).
  unfold bind. now rewrite Manager_log_relock.
Qed.

Lemma addWorker_failed_open_relocks_witness :
  Manager_addWorker (true, ["var"]) INFO sample_state
  = Abort Relock (with_mutex (with_world sample_state sample_world) true).
Proof.
  apply (addWorker_failed_open_relocks (true, ["var"]) INFO sample_state sample_world).
  - reflexivity.
  - reflexivity.
  - unfold paths. cbn. intros H. apply list_elem_of_singleton in H. discriminate H.
  - exact fs_tree_sample_world.
  - reflexivity.
  - vm_compute. reflexivity.
Defined.

(** The console that is not good is discarded without any warning: the
    constructor returns before it looks at the stream, and addWorker logs
    its one line, the announcement of the addition. *)
Lemma addConsole_unhealthy (level : Level) (s : State) :
  m_mutex s = false ->
  (false, []) ∉ paths s ->
  cout_good (world s) = false ->
  addConsole level s = Ret tt (dispatch (added_line (false, []) level) s).
Proof.
  intros Hm Hnin Hc. unfold addConsole.
  rewrite (addWorker_constructed _ _ s (with_mutex s true)
             {| m_path := (false, []); m_level := level; m_stream := None |} Hm Hnin)
    by (now apply Worker_ctor_console).
  unfold after_block, good. cbn [m_path m_stream world with_mutex]. rewrite Hc.
  cbn [path_empty fst snd negb andb orb]. rewrite andb_false_r. cbn [orb].
  change (m_workers (with_mutex s true)) with (m_workers s).
  rewrite unlock_with_workers by exact Hm. now rewrite with_workers_id.
Qed.

(** C10, as stated, fails: with the console registered, adding the console
    again does not end in the dispatch of the announcement. *)
Lemma addWorker_registered_not_announced :
  ~ announces (false, []) DEBUG sample_state.
Proof.
  intros [s2 H].
  rewrite (addWorker_registered _ _ _ [console_worker DEBUG]) in H by reflexivity.
  destruct (m_mutex s2) eqn:Hm; [rewrite Manager_log_relock in H by exact Hm; discriminate |].
  rewrite (Manager_log_dispatch _ _ Hm (strips_added _ _)) in H.
  apply (f_equal state_of) in H. cbn [state_of] in H.
  destruct (workers_dispatch (added_line (false, []) DEBUG) s2) as [Hf _].
  rewrite <- H in Hf. cbn [m_workers with_workers] in Hf.
  assert (Hw : writable (console_worker DEBUG) s2 = true).
  { destruct (same_frame_fold (added_line (false, []) DEBUG) (m_workers s2) (with_mutex s2 true))
      as (_ & _ & Hwr & _).
    change (writable (console_worker DEBUG) s2)
      with (writable (console_worker DEBUG) (with_mutex s2 true)).
    rewrite <- Hwr.
    change (writable (console_worker DEBUG)
              (fold_left (log_step (added_line (false, []) DEBUG)) (m_workers s2)
                 (with_mutex s2 true)))
      with (writable (console_worker DEBUG) (dispatch (added_line (false, []) DEBUG) s2)).
    now rewrite <- H. }
  destruct (sink_text_dispatch_self (added_line (false, []) DEBUG) s2 (console_worker DEBUG))
    as [n Hn]; try reflexivity.
  - rewrite <- Hf. apply list_elem_of_singleton. reflexivity.
  - unfold paths. rewrite <- Hf. apply NoDup_singleton.
  - exact Hw.
  - rewrite <- H in Hn. apply (f_equal size) in Hn. rewrite size_app in Hn.
    change (size (sink_text (console_worker DEBUG)
                    (with_workers sample_state [console_worker DEBUG]))) with 0 in Hn.
    apply (log_text_nonempty (console (console_worker DEBUG))
             (stamp (clock (world s2) n)) (added_line (false, []) DEBUG)).
    destruct (fst (log_text (console (console_worker DEBUG))
                     (stamp (clock (world s2) n)) (added_line (false, []) DEBUG)));
      [reflexivity | unfold size in Hn; cbn [String.length] in Hn; lia].
Qed.

(** C10, as the code has it.  With the identity registered, addWorker sets
    the level and returns: the world is as it was, nothing is dispatched.
    With a new identity and a constructor that returns, addWorker ends by
    dispatching the announcement, from a state in which the mutex is free
    and the new Worker is in the vector when it is good (and is not when it
    was discarded); a new Worker that is good and admits DEBUG has the entry
    appended to its destination. *)
Theorem addWorker_announces_new (p : path) (level : Level) (s : State) :
  m_mutex s = false ->
  NoDup (paths s) ->
  (p ∈ paths s ->
   Manager_addWorker p level s
   = Ret tt (with_workers s (retarget p level <$> m_workers s))) /\
  (p ∉ paths s -> forall wk s1,
   Worker_ctor p level (with_mutex s true) = Ret wk s1 ->
   Manager_addWorker p level s = Manager_log (added_line p level) (after_block wk s1) /\
   Manager_addWorker p level s = Ret tt (dispatch (added_line p level) (after_block wk s1)) /\
   m_mutex (after_block wk s1) = false /\
   m_workers (after_block wk s1)
   = (if good wk (world s1) then m_workers s ++ [wk] else m_workers s) /\
   (good wk (world s1) = true -> (ord DEBUG <= ord level)%Z ->
    exists n,
      sink_text wk (dispatch (added_line p level) (after_block wk s1))
      = sink_text wk s1
        +:+ fst (log_text (console wk) (stamp (clock (world s1) n)) (added_line p level)))).
Proof.
  intros Hm Hnd. split.
  - intros Hin. apply addWorker_registered; [exact Hm |].
    now apply addWorker_update_retarget.
  - intros Hnin wk s1 Hc.
    pose proof (addWorker_constructed p level s s1 wk Hm Hnin Hc) as Hrun.
    pose proof (Worker_ctor_frame p level (with_mutex s true)) as Hfr.
    rewrite Hc in Hfr. cbn [state_of m_workers with_mutex] in Hfr.
    destruct (Worker_ctor_result _ _ _ _ _ Hc) as (Hpath & Hlevel & Hwf).
    assert (Hfree : m_mutex (after_block wk s1) = false) by reflexivity.
    split; [| split; [exact Hrun | split; [exact Hfree | split]]].
    + rewrite Hrun. symmetry. apply Manager_log_dispatch; [exact Hfree | apply strips_added].
    + unfold after_block. cbn [m_workers unlock with_mutex with_workers].
      now rewrite Hfr.
    + intros Hg Hle.
      destruct (sink_text_dispatch_self (added_line p level) (after_block wk s1) wk)
        as [n Hn].
      * unfold after_block. cbn [m_workers unlock with_mutex with_workers].
        rewrite Hg. apply elem_of_app. right. now apply list_elem_of_singleton.
      * unfold paths, after_block. cbn [m_workers unlock with_mutex with_workers].
        rewrite Hg, Hfr, fmap_app. apply NoDup_app. split; [exact Hnd |].
        split; [| apply NoDup_singleton].
        intros q Hq Hq'. apply list_elem_of_singleton in Hq'.
        cbn [fmap list_fmap] in Hq'. subst q. rewrite Hpath in Hq. contradiction.
      * change (writable wk (after_block wk s1)) with (writable wk s1).
        now apply good_writable.
      * unfold admits. rewrite Hlevel. now apply Z.leb_le.
      * exists n. exact Hn.
Qed.

Lemma addWorker_announces_new_witness :
  exists wk s1 n,
    Manager_addWorker app_log DEBUG sample_state
    = Ret tt (dispatch (added_line app_log DEBUG) (after_block wk s1)) /\
    m_workers (after_block wk s1) = m_workers sample_state ++ [wk] /\
    sink_text wk (dispatch (added_line app_log DEBUG) (after_block wk s1))
    = sink_text wk s1
      +:+ fst (log_text (console wk) (stamp (clock (world s1) n))
                 (added_line app_log DEBUG)).
Proof.
  destruct (Worker_ctor_session app_log DEBUG (with_mutex sample_state true)
              (with_dirs sample_world ({[ var_log ]} ∪ dirs sample_world)))
    as (wk & s1 & Hc & _ & _ & Hg & _).
  { reflexivity. }
  { exact fs_tree_sample_world. }
  { vm_compute. reflexivity. }
  { vm_compute. reflexivity. }
  destruct (addWorker_announces_new app_log DEBUG sample_state) as [_ H].
  { reflexivity. }
  { unfold paths. cbn. apply NoDup_singleton. }
  destruct (H ltac:(unfold paths; cbn; intros E; apply list_elem_of_singleton in E;
                    discriminate E) wk s1 Hc)
    as (_ & Hrun & _ & Hws & Hrecv).
  destruct (Hrecv Hg ltac:(vm_compute; discriminate)) as [n Hn].
  exists wk, s1, n. rewrite Hg in Hws. auto.
Defined.

End Registration.

(* ================================================================== *)
(** * One Worker per identity *)

Section Invariant.

(** What addWorker can do to the vector, however the call ends: nothing, a
    change of level, or one new Worker at an identity that was not there. *)
Lemma addWorker_any (p : path) (level : Level) (s : State) :
  (m_path <$> m_workers (state_of (Manager_addWorker p level s)) = paths s /\
   (Forall wf_worker (m_workers s) ->
    Forall wf_worker (m_workers (state_of (Manager_addWorker p level s))))) \/
  ((p ∉ paths s) /\
   exists wk, m_path wk = p /\ wf_worker wk /\
     m_workers (state_of (Manager_addWorker p level s)) = m_workers s ++ [wk]).
Proof.
  destruct (m_mutex s) eqn:Hm.
  { left. rewrite addWorker_locked by exact Hm. split; [reflexivity | auto]. }
  destruct (addWorker_update (m_workers s) p level) as [ws'|] eqn:Hu.
  { left. rewrite (addWorker_registered _ _ _ _ Hm Hu).
    destruct (addWorker_update_paths _ _ _ _ Hu) as [Hp Hw]. split; assumption. }
  apply addWorker_update_None in Hu. fold (paths s) in Hu.
  pose proof (Worker_ctor_frame p level (with_mutex s true)) as Hfr.
  destruct (Worker_ctor p level (with_mutex s true)) as [wk s1 | f s1] eqn:Hc;
    cbn [state_of m_workers with_mutex] in Hfr.
  - rewrite (addWorker_constructed _ _ _ _ _ Hm Hu Hc). cbn [state_of].
    destruct (workers_dispatch (added_line p level) (after_block wk s1)) as [-> _].
    unfold after_block. cbn [m_workers unlock with_mutex with_workers]. rewrite Hfr.
    destruct (Worker_ctor_result _ _ _ _ _ Hc) as (Hpath & _ & Hwf).
    destruct (good wk (world s1)).
    + right. split; [exact Hu |]. exists wk. auto.
    + left. split; [reflexivity | auto].
  - left. rewrite (addWorker_aborted _ _ _ _ _ Hm Hu Hc). cbn [state_of].
    assert (E : m_workers (match f with FilesystemError => unlock s1 | _ => s1 end)
                = m_workers s) by (destruct f; exact Hfr).
    rewrite E. split; [reflexivity | auto].
Qed.

Lemma removeWorker_any (p : path) (s : State) :
  m_workers (state_of (Manager_removeWorker p s)) = m_workers s \/
  m_workers (state_of (Manager_removeWorker p s)) = erase_first (m_workers s) p.
Proof.
  destruct (m_mutex s) eqn:Hm.
  - left. unfold Manager_removeWorker, bind, LOG.
    now rewrite Manager_log_relock by exact Hm.
  - right. now rewrite removeWorker_run by exact Hm.
Qed.

Lemma wf_erase_first (ws : list Worker) (p : path) :
  Forall wf_worker ws -> Forall wf_worker (erase_first ws p).
Proof.
  induction 1 as [|wk ws Hw Hws IH]; cbn [erase_first]; [constructor |].
  case_bool_decide; [exact Hws | now constructor].
Qed.

Lemma call_NoDup (c : Call) (s : State) :
  NoDup (paths s) -> NoDup (paths (state_of (call c s))).
Proof.
  intros Hnd. unfold paths in *. destruct c as [p level | p | line]; cbn [call].
  - destruct (addWorker_any p level s) as [[-> _] | [Hnin (wk & Hp & _ & ->)]];
      [exact Hnd |].
    rewrite fmap_app. apply NoDup_app. split; [exact Hnd |].
    split; [| apply NoDup_singleton].
    intros q Hq Hq'. apply list_elem_of_singleton in Hq'. cbn [fmap list_fmap] in Hq'.
    subst q. rewrite Hp in Hq. contradiction.
  - destruct (removeWorker_any p s) as [-> | ->]; [exact Hnd |].
    eapply sublist_NoDup; [exact Hnd |]. apply fmap_sublist, erase_first_sublist.
  - now rewrite Manager_log_frame.
Qed.

Lemma call_wf (c : Call) (s : State) :
  Forall wf_worker (m_workers s) -> Forall wf_worker (m_workers (state_of (call c s))).
Proof.
  intros Hwf. destruct c as [p level | p | line]; cbn [call].
  - destruct (addWorker_any p level s) as [[_ H] | [_ (wk & _ & Hw & ->)]]; [auto |].
    apply Forall_app. split; [exact Hwf | now constructor].
  - destruct (removeWorker_any p s) as [-> | ->]; [exact Hwf |].
    now apply wf_erase_first.
  - now rewrite Manager_log_frame.
Qed.

Lemma run_invariant (J : State -> Prop) (cs : list Call) (s : State) :
  (forall c s0, J s0 -> J (state_of (call c s0))) ->
  J s -> J (state_of (run cs s)).
Proof.
  intros Hstep. revert s. induction cs as [|c cs IH]; intros s Hs; [exact Hs |].
  cbn [run]. specialize (Hstep c s Hs).
  destruct (call c s) as [[] s' | f s']; cbn [state_of] in Hstep; [now apply IH |].
  destruct f; try exact Hstep. now apply IH.
Qed.

(** Every Worker in the vector is one the constructor made, after any calls. *)
Lemma run_wf (cs : list Call) (s : State) :
  Forall wf_worker (m_workers s) -> Forall wf_worker (m_workers (state_of (run cs s))).
Proof.
  apply (run_invariant (fun s0 => Forall wf_worker (m_workers s0))). apply call_wf.
Qed.

Lemma filter_absent (ws : list Worker) (p : path) :
  p ∉ m_path <$> ws -> filter (fun wk => m_path wk = p) ws = [].
Proof.
  induction ws as [|wk ws IH]; [reflexivity |]. cbn [fmap list_fmap].
  rewrite not_elem_of_cons. intros [Hne Hnin].
  rewrite filter_cons_False by congruence. now apply IH.
Qed.

Lemma count_identity (ws : list Worker) (p : path) :
  NoDup (m_path <$> ws) -> p ∈ m_path <$> ws ->
  length (filter (fun wk => m_path wk = p) ws) = 1.
Proof.
  induction ws as [|wk ws IH]; cbn [fmap list_fmap].
  - intros _ H. now apply elem_of_nil in H.
  - intros [Hnin Hnd]%NoDup_cons Hin. destruct (decide (m_path wk = p)) as [E | E].
    + rewrite filter_cons_True by exact E. rewrite filter_absent by (now rewrite <- E).
      reflexivity.
    + rewrite filter_cons_False by exact E. apply IH; [exact Hnd |].
      apply elem_of_cons in Hin as [Hin | Hin]; [congruence | exact Hin].
Qed.

Lemma retarget_path (p : path) (level : Level) (wk : Worker) :
  m_path (retarget p level wk) = m_path wk /\
  m_stream (retarget p level wk) = m_stream wk.
Proof. unfold retarget. case_bool_decide; split; reflexivity. Qed.

Lemma retarget_paths (p : path) (level : Level) (ws : list Worker) :
  m_path <$> (retarget p level <$> ws) = m_path <$> ws /\
  m_stream <$> (retarget p level <$> ws) = m_stream <$> ws.
Proof.
  induction ws as [|wk ws [IH1 IH2]]; [split; reflexivity |].
  cbn [fmap list_fmap] in *. destruct (retarget_path p level wk) as [-> ->].
  split; f_equal; assumption.
Qed.

Lemma retarget_level (p : path) (level : Level) (ws : list Worker) (wk : Worker) :
  wk ∈ retarget p level <$> ws -> m_path wk = p -> m_level wk = level.
Proof.
  intros [wk0 [-> _]]%list_elem_of_fmap_1. unfold retarget.
  case_bool_decide as E; [reflexivity | intros E'; contradiction].
Qed.

(** C2. With one Worker at most per identity: addWorker on a registered
    identity returns with the world as it was (no file opened, no stream
    made) and the same Workers with the same streams, the one at the identity
    now at the level of the call; that identity still has one Worker.  And
    after any calls of addWorker, removeWorker and log, however the last one
    ends, no two Workers share an identity. *)
Theorem one_worker_per_identity (p : path) (level : Level) (s : State) (cs : list Call) :
  NoDup (paths s) ->
  (m_mutex s = false -> p ∈ paths s ->
   Manager_addWorker p level s
   = Ret tt (with_workers s (retarget p level <$> m_workers s)) /\
   world (with_workers s (retarget p level <$> m_workers s)) = world s /\
   m_path <$> (retarget p level <$> m_workers s) = m_path <$> m_workers s /\
   m_stream <$> (retarget p level <$> m_workers s) = m_stream <$> m_workers s /\
   length (filter (fun wk => m_path wk = p) (retarget p level <$> m_workers s)) = 1 /\
   (forall wk, wk ∈ retarget p level <$> m_workers s -> m_path wk = p ->
               m_level wk = level)) /\
  NoDup (paths (state_of (run cs s))).
Proof.
  intros Hnd. split.
  - intros Hm Hin. destruct (retarget_paths p level (m_workers s)) as [Hp Hs].
    split; [apply addWorker_registered; [exact Hm | now apply addWorker_update_retarget] |].
    split; [reflexivity |]. split; [exact Hp |]. split; [exact Hs |]. split.
    + apply count_identity; rewrite Hp; assumption.
    + apply retarget_level.
  - apply (run_invariant (fun s0 => NoDup (paths s0))); [apply call_NoDup | exact Hnd].
Qed.

Lemma one_worker_per_identity_witness :
  (Manager_addWorker (false, []) ERROR sample_state
   = Ret tt (with_workers sample_state [console_worker ERROR]) /\
   length (filter (fun wk => m_path wk = (false, []))
             (retarget (false, []) ERROR <$> m_workers sample_state)) = 1) /\
  NoDup (paths (state_of
    (run [AddWorker app_log INFO; AddWorker (false, []) ERROR;
          Log (sample_line WARNING "disk almost full"); AddWorker app_log DEBUG;
          RemoveWorker (false, []); RemoveWorker (false, [])]
       sample_state))).
Proof.
  destruct (one_worker_per_identity (false, []) ERROR sample_state
              [AddWorker app_log INFO; AddWorker (false, []) ERROR;
               Log (sample_line WARNING "disk almost full"); AddWorker app_log DEBUG;
               RemoveWorker (false, []); RemoveWorker (false, [])])
    as [H1 H2].
  { unfold paths. cbn. apply NoDup_singleton. }
  destruct H1 as (Ha & _ & _ & _ & Hc & _).
  { reflexivity. }
  { unfold paths. cbn. apply list_elem_of_singleton. reflexivity. }
  split; [split; [exact Ha | exact Hc] | exact H2].
Defined.

End Invariant.

(* ================================================================== *)
(** * The faults that can happen *)

Section Faults.

Lemma strip_text_faults (fuel : nat) (msg : string) (f : Fault) :
  strip_text fuel msg = inl f -> f = BackOfEmpty \/ f = OutOfFuel.
Proof.
  revert msg. induction fuel as [|fuel IH]; intros msg; cbn [strip_text];
    destruct (back msg) as [c|]; try (intros [= <-]; auto);
    destruct (Ascii.eqb c nl); try discriminate; try (intros [= <-]; auto).
  apply IH.
Qed.

(** The text of an entry is written to the end, or the stripping loop reads
    the back of the empty string; the model's loops never run out of the
    steps they are given. *)
Lemma log_text_faults (c : bool) (ts : string) (line : Line) :
  snd (log_text c ts line) = None \/ snd (log_text c ts line) = Some BackOfEmpty.
Proof.
  unfold log_text.
  destruct (strip_text (size (line_msg line)) (line_msg line)) as [f|msg] eqn:E.
  - right. cbn [snd]. destruct (strip_text_faults _ _ _ E) as [-> | ->]; [reflexivity |].
    exfalso. exact (strip_text_fuel _ _ (Nat.le_refl _) E).
  - left. now rewrite lines_text_fuel by lia.
Qed.

(** Worker::log returns, or reads the back of an empty message: it never
    writes through a null stream. *)
Lemma Worker_log_faults (wk : Worker) (line : Line) (s s' : State) (f : Fault) :
  Worker_log wk line s = Abort f s' -> f = BackOfEmpty.
Proof.
  destruct (good wk (world s)) eqn:Hg;
    [| rewrite Worker_log_skip by (now left); discriminate].
  destruct (Z.le_gt_cases (ord (line_level line)) (ord (m_level wk))).
  - rewrite Worker_log_text by assumption.
    destruct (log_text_faults (console wk) (now s) line) as [-> | ->]; cbn [finish];
      [discriminate | now intros [= <- _]].
  - rewrite Worker_log_skip by (right; lia). discriminate.
Qed.

(** From the manager as it is constructed, any calls lead to a vector with
    one Worker at most per identity, each as the constructor made it. *)
Lemma reachable_vector (w : World) (cs : list Call) :
  NoDup (paths (state_of (run cs (Manager_ctor w)))) /\
  Forall wf_worker (m_workers (state_of (run cs (Manager_ctor w)))).
Proof.
  split.
  - apply (run_invariant (fun s0 => NoDup (paths s0))); [apply call_NoDup |].
    apply NoDup_nil_2.
  - apply run_wf. constructor.
Qed.

End Faults.

(* ================================================================== *)
(** * The operations on the small world *)

Section Examples.

(** Two lines at INFO on a console Worker at INFO. *)
Example log_two_lines :
  cout (world (state_of
    (Manager_log (sample_line INFO ("line1" +:+ String nl "line2"))
       (with_workers sample_state [console_worker INFO]))))
  = "2024-01-02 03:04:05.007 | [    INFO] main.cpp:42 in main(): line1"
    +:+ String nl (fill 36 " " +:+ " -> line2" +:+ String esc "[0m"
    +:+ String nl EmptyString).
Proof. vm_compute. reflexivity. Qed.

(** The console goes from INFO to ERROR; a WARNING is then dropped, an ERROR
    is written. *)
Example threshold_change :
  cout (world (state_of
    (run [AddWorker (false, []) ERROR; Log (sample_line WARNING "slow");
          Log (sample_line ERROR "down")]
       (with_workers sample_state [console_worker INFO]))))
  = String esc "[31m2024-01-02 03:04:05.007 | [   ERROR] main.cpp:42 in main(): down"
    +:+ String esc "[0m" +:+ String nl EmptyString.
Proof. vm_compute. reflexivity. Qed.

(** A new file Worker at DEBUG: the directory is made, the file starts with
    the separator, and the announcement of the addition follows it. *)
Example add_file_worker :
  let s' := state_of (Manager_addWorker app_log DEBUG
                        (with_workers sample_state [])) in
  m_workers s' = [file_worker app_log DEBUG] /\
  is_directory (world s') var_log = true /\
  file_text (world s') app_log
  = separator "2024-01-02 03:04:05.007"
    +:+ "2024-01-02 03:04:05.007 | [   DEBUG] Logger.cpp:108 in addWorker(): "
    +:+ "Added log worker at " +:+ String dquote "/var/log/app.log"
    +:+ String dquote " (level: DEBUG)" +:+ String nl EmptyString.
Proof. vm_compute. repeat split. Qed.

End Examples.

(* ================================================================== *)
(** * Events and the texts of an entry *)

Section EventsAndTexts.

Lemma Line_shl_fold (texts : list string) (l : Line) :
  fold_left Line_shl texts l
  = {| line_level := line_level l; line_file := line_file l; line_line := line_line l;
       line_func := line_func l; line_msg := line_msg l +:+ sconcat texts |}.
Proof.
  revert l. induction texts as [|t ts IH]; intros l; cbn [fold_left sconcat].
  - rewrite sapp_nil_r. now destruct l.
  - rewrite IH. cbn [Line_shl line_level line_file line_line line_func line_msg].
    now rewrite sapp_assoc.
Qed.

(** X1. The event that [LOG(level) << t1 << ... << tn] hands to the manager
    carries the level, the line and the function given at its creation, the
    last component of the file path, and as message the streamed texts one
    after the other with nothing between them. *)
Theorem LOG_event (level : Level) (r : bool) (dir : list string) (f : string) (n : Z)
    (func : string) (texts : list string) :
  LOG level (r, dir ++ [f]) n func texts
  = Manager_log {| line_level := level; line_file := f; line_line := n;
                   line_func := func; line_msg := sconcat texts |}.
Proof.
  unfold LOG. rewrite Line_shl_fold. unfold Line_ctor, filename.
  cbn [line_level line_file line_line line_func line_msg snd].
  now rewrite last_last, sapp_nil_l.
Qed.

Lemma ms_ok_all : forallb ms_ok (seq 0 1000) = true.
Proof. vm_compute. reflexivity. Qed.

(** X2. With [tv_usec] in its range, [timeStr()] returns the seconds text, a
    dot and three characters that read back as the milliseconds, and takes
    one reading of the clock. *)
Theorem timeStr_milliseconds (s : State) :
  (0 <= tv_usec (clock (world s) (ticks (world s))) < 1000000)%Z ->
  exists ms,
    timeStr s = Ret (tm_text (clock (world s) (ticks (world s))) +:+ "." +:+ ms) (tick s) /\
    size ms = 3 /\
    Z.of_int <$> NilZero.int_of_string ms
    = Some (tv_usec (clock (world s) (ticks (world s))) / 1000)%Z.
Proof.
  intros Hr. set (tv := clock (world s) (ticks (world s))) in *.
  exists (setw 3 "0" (dec (Z.quot (tv_usec tv) 1000))).
  split; [reflexivity |].
  rewrite Z.quot_div_nonneg by lia.
  assert (Hn : (0 <= tv_usec tv / 1000 < 1000)%Z).
  { split; [apply Z.div_pos; lia | apply Z.div_lt_upper_bound; lia]. }
  pose proof ms_ok_all as Hall. rewrite forallb_forall in Hall.
  assert (Hin : In (Z.to_nat (tv_usec tv / 1000)) (seq 0 1000)) by (apply in_seq; lia).
  apply Hall in Hin. unfold ms_ok in Hin. rewrite Z2Nat.id in Hin by lia.
  apply andb_true_iff in Hin as [H1 H2].
  split; [now apply Nat.eqb_eq | now apply bool_decide_eq_true in H2].
Qed.

Lemma timeStr_milliseconds_witness :
  exists ms,
    timeStr sample_state
    = Ret (tm_text (clock (world sample_state) (ticks (world sample_state)))
           +:+ "." +:+ ms) (tick sample_state) /\
    size ms = 3 /\
    Z.of_int <$> NilZero.int_of_string ms
    = Some (tv_usec (clock (world sample_state) (ticks (world sample_state))) / 1000)%Z.
Proof. apply (timeStr_milliseconds sample_state). vm_compute. split; [discriminate | reflexivity]. Defined.

(** X3. For every level the tag between the brackets is the level's name
    behind spaces, LEVEL_FMT_WIDTH characters in all; and two levels with
    the same name are the same level. *)
Theorem level_tag_width (l l' : Level) :
  size (setw LEVEL_FMT_WIDTH " " (levelStr l)) = LEVEL_FMT_WIDTH /\
  setw LEVEL_FMT_WIDTH " " (levelStr l)
  = fill (LEVEL_FMT_WIDTH - size (levelStr l)) " " +:+ levelStr l /\
  size (levelStr l) <= LEVEL_FMT_WIDTH /\
  (levelStr l = levelStr l' <-> l = l').
Proof.
  split; [now destruct l |]. split; [reflexivity |].
  split; [destruct l; unfold size, LEVEL_FMT_WIDTH; cbn; lia |].
  split; [| now intros ->]. destruct l, l'; (reflexivity || discriminate).
Qed.

Lemma fill_app (j k : nat) (c : ascii) : fill (j + k) c = fill j c +:+ fill k c.
Proof.
  induction j as [|j IH]; [reflexivity |].
  cbn [Nat.add fill]. now rewrite IH, sapp_cons.
Qed.

Lemma header_shl (c : bool) (ts : string) (line : Line) (t : string) :
  header c ts (Line_shl line t) = header c ts line.
Proof. reflexivity. Qed.

Lemma strip_text_more (msg : string) (k : nat) :
  strip_text (size (msg +:+ fill k nl)) (msg +:+ fill k nl) = strip_text (size msg) msg.
Proof.
  destruct (trailing_newlines (size msg) msg (Nat.le_refl _))
    as [[j Hj] | [body [x [j [Hj [Hx Hne]]]]]].
  - rewrite Hj, <- fill_app.
    now rewrite !strip_text_newlines by (rewrite size_fill; lia).
  - rewrite Hj, sapp_assoc, <- fill_app.
    now rewrite !(strip_text_body body x) by (auto; rewrite size_app, size_fill; lia).
Qed.

Lemma log_text_shl_newlines (c : bool) (ts : string) (line : Line) (k : nat) :
  log_text c ts (Line_shl line (fill k nl)) = log_text c ts line.
Proof.
  unfold log_text. rewrite header_shl.
  cbn [Line_shl line_msg]. now rewrite strip_text_more.
Qed.

(** X4. Newlines streamed at the end of a message change nothing: the
    Worker does with the event what it does without them. *)
Theorem Worker_log_trailing_newlines (wk : Worker) (line : Line) (k : nat) (s : State) :
  Worker_log wk (Line_shl line (fill k nl)) s = Worker_log wk line s.
Proof.
  destruct (good wk (world s)) eqn:Hg;
    [| rewrite !Worker_log_skip by (now left); reflexivity].
  destruct (Z.le_gt_cases (ord (line_level line)) (ord (m_level wk))) as [Hle | Hgt].
  - rewrite !Worker_log_text by assumption. now rewrite log_text_shl_newlines.
  - rewrite !Worker_log_skip by (right; exact Hgt). reflexivity.
Qed.

Lemma log_text_fmt_coloured (fc ff : Format) (ts : string) (line : Line) :
  fmt_width fc = 0 ->
  same_format fc ff (line_line line) ->
  strips (line_msg line) ->
  exists body,
    log_text_fmt ff false ts line = (body +:+ String nl EmptyString, None) /\
    log_text_fmt fc true ts line
    = (colorStr (line_level line) +:+ body +:+ resetColor +:+ String nl EmptyString, None).
Proof.
  intros Hw0 Hfmt [msg Hs]. unfold log_text_fmt. rewrite Hs.
  rewrite lines_text_fuel by lia.
  exists (header_fmt ff false ts line +:+ fst (lines_text (size msg) msg 0)).
  rewrite (header_fmt_ext fc ff true ts line Hfmt).
  destruct Hfmt as (Hw & _). rewrite Hw0 in Hw.
  unfold header_fmt, trailer. rewrite <- Hw, !insert_text_0.
  split; now rewrite ?sapp_nil_l, ?sapp_assoc.
Qed.

(** X5. The console's entry is the file's entry in colour, when the two
    streams are in the same formatting state with no width pending: if the
    console Worker and a file Worker forward the same event at the same
    timestamp, and the message has a character other than newline, the file
    receives a text and a newline, and the console receives the level's
    colour, that same text, the reset sequence, and the newline. *)
Theorem console_entry_is_coloured (fc ff : Format) (wkc wkf : Worker) (line : Line)
    (sc sf : State) :
  console wkc = true -> console wkf = false ->
  wf_worker wkc -> wf_worker wkf ->
  forwards wkc line sc = true -> forwards wkf line sf = true ->
  now sc = now sf ->
  strips (line_msg line) ->
  fmt_width fc = 0 ->
  same_format fc ff (line_line line) ->
  exists body,
    sink_text wkf (state_of (Worker_log_fmt ff wkf line sf))
    = sink_text wkf sf +:+ body +:+ String nl EmptyString /\
    sink_text wkc (state_of (Worker_log_fmt fc wkc line sc))
    = sink_text wkc sc +:+ colorStr (line_level line) +:+ body +:+ resetColor
      +:+ String nl EmptyString.
Proof.
  intros Hc Hf Hwc Hwf Hfc Hff Hnow Hs Hw0 Hfmt.
  destruct (log_text_fmt_coloured fc ff (now sf) line Hw0 Hfmt Hs) as (body & Hfile & Hcons).
  exists body.
  unfold forwards, admits in Hfc, Hff.
  apply andb_true_iff in Hfc as [Hgc Hac], Hff as [Hgf Haf].
  apply Z.leb_le in Hac, Haf.
  rewrite !Worker_log_fmt_text, !state_of_finish by assumption.
  rewrite !sink_text_emit by (rewrite writable_tick; now apply good_writable).
  rewrite !sink_text_tick, Hc, Hf, Hnow, Hfile, Hcons. split; reflexivity.
Qed.

Lemma console_entry_is_coloured_witness :
  exists body,
    sink_text (file_worker app_log DEBUG)
      (state_of (Worker_log_fmt starred_format (file_worker app_log DEBUG)
                   (sample_line ERROR "down") other_state))
    = sink_text (file_worker app_log DEBUG) other_state +:+ body +:+ String nl EmptyString /\
    sink_text (console_worker INFO)
      (state_of (Worker_log_fmt starred_format (console_worker INFO)
                   (sample_line ERROR "down") sample_state))
    = sink_text (console_worker INFO) sample_state
      +:+ colorStr (line_level (sample_line ERROR "down")) +:+ body +:+ resetColor
      +:+ String nl EmptyString.
Proof.
  apply (console_entry_is_coloured starred_format starred_format
           (console_worker INFO) (file_worker app_log DEBUG)
           (sample_line ERROR "down") sample_state other_state);
    try reflexivity; try (intros _; reflexivity); try (intros H; discriminate H);
    try (repeat split; reflexivity).
  exists "down". reflexivity.
Defined.

End EventsAndTexts.

(* ================================================================== *)
(** * What a dispatch reaches *)

Section Delivery.

Lemma forwards_true (wk : Worker) (line : Line) (s : State) :
  forwards wk line s = true ->
  good wk (world s) = true /\ (ord (line_level line) <= ord (m_level wk))%Z.
Proof.
  unfold forwards, admits. intros [Hg Ha]%andb_true_iff.
  split; [exact Hg | now apply Z.leb_le].
Qed.

Lemma forwards_false (wk : Worker) (line : Line) (s : State) :
  forwards wk line s = false -> Worker_log wk line s = Ret tt s.
Proof.
  unfold forwards, admits. intros [Hg | Ha]%andb_false_iff;
    apply Worker_log_skip; [now left | right]. now apply Z.leb_gt.
Qed.

Lemma Worker_log_state (wk : Worker) (line : Line) (s : State) :
  state_of (Worker_log wk line s)
  = if forwards wk line s
    then emit wk (fst (log_text (console wk) (now s) line)) (tick s)
    else s.
Proof.
  destruct (forwards wk line s) eqn:Hf.
  - destruct (forwards_true _ _ _ Hf) as [Hg Hle].
    now rewrite Worker_log_text, state_of_finish by assumption.
  - now rewrite forwards_false.
Qed.

Lemma emit_elsewhere (wk : Worker) (a : string) (s : State) :
  dirs (world (emit wk a s)) = dirs (world s) /\
  denied (world (emit wk a s)) = denied (world s) /\
  cout_good (world (emit wk a s)) = cout_good (world s) /\
  (console wk = false -> cout (world (emit wk a s)) = cout (world s)) /\
  (forall q, console wk = true \/ q <> m_path wk ->
             files (world (emit wk a s)) !! q = files (world s) !! q).
Proof.
  unfold emit. destruct (writable wk s); [| repeat split].
  destruct (console wk) eqn:Hc; cbn [world with_world dirs denied cout_good cout files
                                       with_cout with_files]; repeat split.
  - discriminate.
  - intros q [H | H]; [discriminate |]. now rewrite lookup_insert_ne by congruence.
Qed.

(** X6. Worker::log writes to its own destination and nowhere else: the
    manager's vector and mutex, the directories, the health of std::cout and
    every other file are as before; a file Worker leaves std::cout as it
    was, and the console Worker leaves every file as it was. *)
Theorem Worker_log_own_sink_only (wk : Worker) (line : Line) (s : State) :
  m_workers (state_of (Worker_log wk line s)) = m_workers s /\
  m_mutex (state_of (Worker_log wk line s)) = m_mutex s /\
  dirs (world (state_of (Worker_log wk line s))) = dirs (world s) /\
  cout_good (world (state_of (Worker_log wk line s))) = cout_good (world s) /\
  (console wk = false ->
   cout (world (state_of (Worker_log wk line s))) = cout (world s)) /\
  (forall q, console wk = true \/ q <> m_path wk ->
     files (world (state_of (Worker_log wk line s))) !! q = files (world s) !! q).
Proof.
  rewrite Worker_log_state. destruct (forwards wk line s); [| repeat split].
  destruct (emit_elsewhere wk (fst (log_text (console wk) (now s) line)) (tick s))
    as (Hd & _ & Hg & Hc & Hf).
  split; [now rewrite workers_emit |]. split; [now rewrite mutex_emit |].
  split; [exact Hd |]. split; [exact Hg |]. split; [exact Hc | exact Hf].
Qed.

Lemma good_log_step (line : Line) (s : State) (wk wk' : Worker) :
  good wk (world (log_step line s wk')) = good wk (world s).
Proof.
  unfold log_step. destruct (good wk' (world s) && admits wk' line); [| reflexivity].
  now rewrite good_emit, good_tick.
Qed.

Lemma sink_text_fold_skip (line : Line) (ws : list Worker) (s : State) (wk : Worker) :
  wk ∈ ws -> NoDup (m_path <$> ws) -> forwards wk line s = false ->
  sink_text wk (fold_left (log_step line) ws s) = sink_text wk s.
Proof.
  revert s. induction ws as [|wk' ws IH]; intros s Hin Hnd Hf.
  - now apply elem_of_nil in Hin.
  - cbn [fmap list_fmap] in Hnd. apply NoDup_cons in Hnd as [Hnin Hnd].
    cbn [fold_left]. apply elem_of_cons in Hin as [<- | Hin].
    + rewrite sink_text_fold_other by exact Hnin.
      unfold log_step. unfold forwards in Hf. now rewrite Hf.
    + assert (Hne : m_path wk <> m_path wk').
      { intros E. apply Hnin. rewrite <- E. now apply list_elem_of_fmap_2. }
      rewrite IH; [now apply sink_text_log_step_other | exact Hin | exact Hnd |].
      unfold forwards in *. now rewrite good_log_step.
Qed.

(** X7. With the mutex free, one Worker at most per identity and a message
    that has a character other than newline, [manager.log] returns with the
    vector as it was and the mutex free again; each registered Worker that
    is good and admits the level has the entry appended to its destination,
    once, and every other registered Worker's destination is as before. *)
Theorem Manager_log_delivers (line : Line) (s : State) :
  m_mutex s = false ->
  NoDup (paths s) ->
  strips (line_msg line) ->
  Manager_log line s = Ret tt (dispatch line s) /\
  m_workers (dispatch line s) = m_workers s /\
  m_mutex (dispatch line s) = false /\
  forall wk, wk ∈ m_workers s -> wf_worker wk ->
    if forwards wk line s
    then exists n, sink_text wk (dispatch line s)
                   = sink_text wk s
                     +:+ fst (log_text (console wk) (stamp (clock (world s) n)) line)
    else sink_text wk (dispatch line s) = sink_text wk s.
Proof.
  intros Hm Hnd Hs. split; [now apply Manager_log_dispatch |].
  destruct (workers_dispatch line s) as [Hw Hmd]. split; [exact Hw |].
  split; [exact Hmd |]. intros wk Hin Hwf.
  destruct (forwards wk line s) eqn:Hf.
  - destruct (forwards_true _ _ _ Hf) as [Hg Hle].
    apply sink_text_dispatch_self; try assumption.
    + now apply good_writable.
    + unfold admits. now apply Z.leb_le.
  - unfold dispatch. change (sink_text wk (unlock ?x)) with (sink_text wk x).
    exact (sink_text_fold_skip line (m_workers s) (with_mutex s true) wk Hin Hnd Hf).
Qed.

Lemma Manager_log_delivers_witness :
  Manager_log (sample_line INFO "ready") other_state
  = Ret tt (dispatch (sample_line INFO "ready") other_state) /\
  m_workers (dispatch (sample_line INFO "ready") other_state) = m_workers other_state /\
  m_mutex (dispatch (sample_line INFO "ready") other_state) = false /\
  forall wk, wk ∈ m_workers other_state -> wf_worker wk ->
    if forwards wk (sample_line INFO "ready") other_state
    then exists n, sink_text wk (dispatch (sample_line INFO "ready") other_state)
                   = sink_text wk other_state
                     +:+ fst (log_text (console wk)
                                (stamp (clock (world other_state) n))
                                (sample_line INFO "ready"))
    else sink_text wk (dispatch (sample_line INFO "ready") other_state)
         = sink_text wk other_state.
Proof.
  apply (Manager_log_delivers (sample_line INFO "ready") other_state).
  - reflexivity.
  - unfold paths. cbn. apply NoDup_singleton.
  - exists "ready". reflexivity.
Defined.

Lemma unlock_locked (s : State) : m_mutex s = false -> unlock (with_mutex s true) = s.
Proof. intros H. destruct s. cbn in *. now subst. Qed.

Lemma for_each_newlines (line : Line) (k : nat) (ws : list Worker) (s : State) :
  line_msg line = fill k nl ->
  (Forall (fun wk => forwards wk line s = false) ws ->
   for_each ws (fun wk => Worker_log wk line) s = Ret tt s) /\
  (Exists (fun wk => forwards wk line s = true) ws ->
   exists s', for_each ws (fun wk => Worker_log wk line) s = Abort BackOfEmpty s' /\
              m_mutex s' = m_mutex s /\ m_workers s' = m_workers s).
Proof.
  intros Hmsg. induction ws as [|wk ws [IH1 IH2]].
  - split; [reflexivity | intros H; inversion H].
  - cbn [for_each]. unfold bind. split.
    + intros [Hf Hrest]%Forall_cons. rewrite forwards_false by exact Hf. now apply IH1.
    + intros Hex. destruct (forwards wk line s) eqn:Hf.
      * destruct (forwards_true _ _ _ Hf) as [Hg Hle].
        rewrite Worker_log_text by assumption.
        rewrite (log_text_fault _ _ _ k Hmsg). cbn [fst snd finish].
        eexists. split; [reflexivity |]. now rewrite mutex_emit, workers_emit.
      * rewrite forwards_false by exact Hf. apply IH2.
        apply Exists_cons in Hex as [Hex | Hex]; [congruence | exact Hex].
Qed.

(** X8. An event whose message is empty, or newlines alone, is harmless
    exactly when no registered Worker forwards it: then [manager.log] returns
    and nothing has changed; with one Worker that forwards it, the dispatch
    ends in the read of the back of an empty string, the mutex still held. *)
Theorem Manager_log_newlines_only (line : Line) (k : nat) (s : State) :
  m_mutex s = false ->
  line_msg line = fill k nl ->
  (Forall (fun wk => forwards wk line s = false) (m_workers s) ->
   Manager_log line s = Ret tt s) /\
  (Exists (fun wk => forwards wk line s = true) (m_workers s) ->
   exists s', Manager_log line s = Abort BackOfEmpty s' /\
              m_mutex s' = true /\ m_workers s' = m_workers s).
Proof.
  intros Hm Hmsg.
  destruct (for_each_newlines line k (m_workers s) (with_mutex s true) Hmsg) as [H1 H2].
  split.
  - intros Hall. unfold Manager_log.
    erewrite lock_guard_ret; [| exact Hm | unfold bind, get; now apply H1].
    now rewrite unlock_locked.
  - intros Hex. destruct (H2 Hex) as (s' & Hrun & Hmx & Hws).
    exists s'. split; [| split; assumption].
    unfold Manager_log.
    rewrite (lock_guard_abort _ s s' BackOfEmpty Hm); [reflexivity |].
    unfold bind, get. exact Hrun.
Qed.

Lemma Manager_log_newlines_only_witness :
  exists s', Manager_log (sample_line INFO EmptyString) sample_state
             = Abort BackOfEmpty s' /\
             m_mutex s' = true /\ m_workers s' = m_workers sample_state.
Proof.
  destruct (Manager_log_newlines_only (sample_line INFO EmptyString) 0 sample_state)
    as [_ H]; [reflexivity | reflexivity |].
  apply H. apply Exists_cons_hd. reflexivity.
Defined.

End Delivery.

(* ================================================================== *)
(** * Registration, call after call *)

Section RegistrationCalls.

Lemma filter_other_absent (ws : list Worker) (p : path) :
  p ∉ m_path <$> ws -> filter (fun wk => m_path wk <> p) ws = ws.
Proof.
  induction ws as [|wk ws IH]; [reflexivity |]. cbn [fmap list_fmap].
  rewrite not_elem_of_cons. intros [Hne Hnin].
  rewrite filter_cons_True by congruence. f_equal. now apply IH.
Qed.

Lemma erase_first_filter (ws : list Worker) (p : path) :
  NoDup (m_path <$> ws) -> erase_first ws p = filter (fun wk => m_path wk <> p) ws.
Proof.
  induction ws as [|wk ws IH]; [reflexivity |]. cbn [fmap list_fmap erase_first].
  intros [Hnin Hnd]%NoDup_cons. case_bool_decide as E.
  - rewrite filter_cons_False by (intros H; now apply H).
    symmetry. apply filter_other_absent. now rewrite <- E.
  - rewrite filter_cons_True by exact E. f_equal. now apply IH.
Qed.

(** X9. With one Worker at most per identity, removeWorker returns with
    exactly the Workers at other identities, in their order, and the mutex
    free; removing the same identity once more changes the vector no
    further. *)
Theorem removeWorker_exactly (p : path) (s : State) :
  m_mutex s = false ->
  NoDup (paths s) ->
  exists s',
    Manager_removeWorker p s = Ret tt s' /\
    m_workers s' = filter (fun wk => m_path wk <> p) (m_workers s) /\
    m_mutex s' = false /\
    m_workers (state_of (Manager_removeWorker p s')) = m_workers s'.
Proof.
  intros Hm Hnd.
  destruct (workers_dispatch (removing_line p) s) as [Hw Hmd].
  exists (with_workers (dispatch (removing_line p) s) (erase_first (m_workers s) p)).
  split; [now apply removeWorker_run |].
  split; [now apply erase_first_filter |]. split; [exact Hmd |].
  rewrite removeWorker_run by exact Hmd. cbn [state_of m_workers with_workers].
  apply erase_first_absent. now apply erase_first_gone.
Qed.

Lemma removeWorker_exactly_witness :
  exists s',
    Manager_removeWorker (false, []) sample_state = Ret tt s' /\
    m_workers s' = filter (fun wk => m_path wk <> (false, [])) (m_workers sample_state) /\
    m_mutex s' = false /\
    m_workers (state_of (Manager_removeWorker (false, []) s')) = m_workers s'.
Proof.
  apply (removeWorker_exactly (false, []) sample_state).
  - reflexivity.
  - unfold paths. cbn. apply NoDup_singleton.
Defined.

Lemma run_single (c : Call) (s : State) : state_of (run [c] s) = state_of (call c s).
Proof. cbn [run]. destruct (call c s) as [[] s' | [] s']; reflexivity. Qed.

Lemma erase_first_last (ws : list Worker) (wk : Worker) :
  m_path wk ∉ m_path <$> ws -> erase_first (ws ++ [wk]) (m_path wk) = ws.
Proof.
  induction ws as [|wk' ws IH]; cbn [fmap list_fmap app erase_first].
  - intros _. now rewrite bool_decide_eq_true_2.
  - rewrite not_elem_of_cons. intros [Hne Hnin].
    rewrite bool_decide_eq_false_2 by congruence. f_equal. now apply IH.
Qed.

(** How addWorker on a new identity can end. *)
Lemma addWorker_new_cases (p : path) (level : Level) (s : State) :
  p ∉ paths s ->
  (exists f s', Manager_addWorker p level s = Abort f s' /\
                m_workers s' = m_workers s /\
                (f = FilesystemError -> m_mutex s' = false)) \/
  (exists s', Manager_addWorker p level s = Ret tt s' /\ m_mutex s' = false /\
              (m_workers s' = m_workers s \/
               exists wk, m_path wk = p /\ m_workers s' = m_workers s ++ [wk])).
Proof.
  intros Hnin. destruct (m_mutex s) eqn:Hm.
  { left. exists Relock, s. rewrite addWorker_locked by exact Hm.
    split; [reflexivity |]. split; [reflexivity | discriminate]. }
  pose proof (Worker_ctor_frame p level (with_mutex s true)) as Hfr.
  destruct (Worker_ctor p level (with_mutex s true)) as [wk s1 | f s1] eqn:Hc;
    cbn [state_of m_workers with_mutex] in Hfr.
  - right. exists (dispatch (added_line p level) (after_block wk s1)).
    split; [now apply addWorker_constructed |].
    destruct (workers_dispatch (added_line p level) (after_block wk s1)) as [-> Hmd].
    split; [exact Hmd |].
    unfold after_block. cbn [m_workers unlock with_mutex with_workers]. rewrite Hfr.
    destruct (Worker_ctor_result _ _ _ _ _ Hc) as (Hpath & _).
    destruct (good wk (world s1)); [right; exists wk; auto | now left].
  - left. exists f, (match f with FilesystemError => unlock s1 | _ => s1 end).
    split; [now apply addWorker_aborted |].
    split; [destruct f; exact Hfr |]. now intros ->.
Qed.

(** X10. Adding a new identity and removing it again leaves the vector of
    Workers as it was before the two calls, however the calls end: whether
    the Worker was kept or discarded, and whether addWorker returned, threw,
    or never returned. *)
Theorem add_then_remove (p : path) (level : Level) (s : State) :
  p ∉ paths s ->
  m_workers (state_of (run [AddWorker p level; RemoveWorker p] s)) = m_workers s.
Proof.
  intros Hnin.
  assert (Hrm : forall s', m_mutex s' = false ->
            (m_workers s' = m_workers s \/
             exists wk, m_path wk = p /\ m_workers s' = m_workers s ++ [wk]) ->
            m_workers (state_of (run [RemoveWorker p] s')) = m_workers s).
  { intros s' Hm' Hws. rewrite run_single. cbn [call].
    rewrite removeWorker_run by exact Hm'. cbn [state_of m_workers with_workers].
    destruct Hws as [-> | (wk & Hp & ->)].
    - now apply erase_first_absent.
    - rewrite <- Hp. apply erase_first_last. now rewrite Hp. }
  cbn [run call].
  destruct (addWorker_new_cases p level s Hnin)
    as [(f & s' & -> & Hws & Hfs) | (s' & -> & Hm' & Hws)].
  - destruct f; try exact Hws.
    change (m_workers (state_of (run [RemoveWorker p] s')) = m_workers s).
    apply Hrm; [now apply Hfs | now left].
  - change (m_workers (state_of (run [RemoveWorker p] s')) = m_workers s).
    now apply Hrm.
Qed.

Lemma add_then_remove_witness :
  m_workers (state_of (run [AddWorker app_log INFO; RemoveWorker app_log] sample_state))
  = m_workers sample_state.
Proof.
  apply (add_then_remove app_log INFO sample_state).
  unfold paths. cbn. intros H. apply list_elem_of_singleton in H. discriminate H.
Defined.

(** X11. Setting the threshold of a registered Worker and then logging: the
    Worker's destination receives the event exactly when the event's ordinal
    is at most the new threshold's, whatever the threshold was before. *)
Theorem set_threshold_then_log (wk : Worker) (level : Level) (line : Line) (s : State) :
  m_mutex s = false ->
  NoDup (paths s) ->
  wk ∈ m_workers s ->
  wf_worker wk ->
  good wk (world s) = true ->
  strips (line_msg line) ->
  (sink_text wk (state_of (run [AddWorker (m_path wk) level; Log line] s))
   <> sink_text wk s
   <-> (ord (line_level line) <= ord level)%Z).
Proof.
  intros Hm Hnd Hin Hwf Hg Hs.
  set (ws' := retarget (m_path wk) level <$> m_workers s).
  assert (Hadd : Manager_addWorker (m_path wk) level s = Ret tt (with_workers s ws')).
  { apply addWorker_registered; [exact Hm |].
    apply addWorker_update_retarget; [exact Hnd |]. now apply list_elem_of_fmap_2. }
  cbn [run call]. rewrite Hadd.
  rewrite Manager_log_dispatch by (auto using Hm). cbn [state_of].
  set (wk' := setLevel wk level).
  assert (Hin' : wk' ∈ ws').
  { unfold ws'. replace wk' with (retarget (m_path wk) level wk)
      by (unfold retarget; now rewrite bool_decide_eq_true_2).
    now apply list_elem_of_fmap_2. }
  assert (Hnd' : NoDup (m_path <$> ws')).
  { unfold ws'. destruct (retarget_paths (m_path wk) level (m_workers s)) as [-> _].
    exact Hnd. }
  change (sink_text wk (dispatch line (with_workers s ws')))
    with (sink_text wk' (fold_left (log_step line) ws' (with_mutex (with_workers s ws') true))).
  change (sink_text wk s) with (sink_text wk' (with_mutex (with_workers s ws') true)).
  destruct (Z.le_gt_cases (ord (line_level line)) (ord level)) as [Hle | Hgt].
  - split; [intros _; exact Hle | intros _ E].
    destruct (sink_text_fold_self line ws' (with_mutex (with_workers s ws') true) wk'
                Hin' Hnd') as [n Hn].
    + now apply good_writable.
    + unfold admits. now apply Z.leb_le.
    + rewrite Hn in E. apply sapp_eq_self in E. exact (log_text_nonempty _ _ _ E).
  - split; [| lia]. intros Hne. exfalso. apply Hne.
    apply sink_text_fold_skip; [exact Hin' | exact Hnd' |].
    unfold forwards, admits. apply andb_false_iff. right. now apply Z.leb_gt.
Qed.

Lemma set_threshold_then_log_witness :
  sink_text (console_worker TRACE)
    (state_of (run [AddWorker (m_path (console_worker TRACE)) ERROR;
                    Log (sample_line WARNING "slow")] sample_state))
  <> sink_text (console_worker TRACE) sample_state
  <-> (ord (line_level (sample_line WARNING "slow")) <= ord ERROR)%Z.
Proof.
  apply (set_threshold_then_log (console_worker TRACE) ERROR
           (sample_line WARNING "slow") sample_state).
  - reflexivity.
  - unfold paths. cbn. apply NoDup_singleton.
  - cbn. apply list_elem_of_singleton. reflexivity.
  - intros _. reflexivity.
  - reflexivity.
  - exists "slow". reflexivity.
Defined.

(** X12. When the directories above a new file identity cannot be created,
    addWorker leaves with the filesystem_error: the mutex is released, no
    Worker is added, and nothing is written to std::cout or to a file. *)
Theorem addWorker_directories_fail (p : path) (level : Level) (s : State) :
  m_mutex s = false ->
  p ∉ paths s ->
  path_empty p = false ->
  fs_exists (world s) p = false ->
  has_parent_path p = true ->
  create_directories (parent_path p) (world s) = None ->
  exists s',
    Manager_addWorker p level s = Abort FilesystemError s' /\
    m_mutex s' = false /\ m_workers s' = m_workers s /\
    cout (world s') = cout (world s) /\ files (world s') = files (world s).
Proof.
  intros Hm Hnin Hp Hex Hpar Hdirs. exists (unlock (with_mutex s true)).
  split; [| repeat split].
  apply (addWorker_aborted p level s (with_mutex s true) FilesystemError Hm Hnin).
  rewrite Worker_ctor_file by exact Hp. unfold prepare_dirs.
  change (world (with_mutex s true)) with (world s).
  now rewrite Hex, Hpar, Hdirs.
Qed.

Lemma addWorker_directories_fail_witness :
  exists s',
    Manager_addWorker app_log INFO blocked_state = Abort FilesystemError s' /\
    m_mutex s' = false /\ m_workers s' = m_workers blocked_state /\
    cout (world s') = cout (world blocked_state) /\
    files (world s') = files (world blocked_state).
Proof.
  apply (addWorker_directories_fail app_log INFO blocked_state).
  - reflexivity.
  - unfold paths. cbn. intros H. apply list_elem_of_singleton in H. discriminate H.
  - reflexivity.
  - vm_compute. reflexivity.
  - reflexivity.
  - vm_compute. reflexivity.
Defined.

End RegistrationCalls.

(* ================================================================== *)
(** * New destinations *)

Section NewDestinations.

Lemma open_after_create (p : path) (s : State) (w1 : World) :
  create_directories (parent_path p) (world s) = Some w1 ->
  fst (open_append p w1) = true ->
  file_text (snd (open_append p w1)) p = file_text (world s) p /\
  clock (snd (open_append p w1)) = clock (world s) /\
  ticks (snd (open_append p w1)) = ticks (world s).
Proof.
  intros Hdirs Hopen. destruct (open_append_ok p w1 Hopen) as (_ & Hf & Hc & Ht).
  unfold create_directories in Hdirs.
  apply create_dirs_spec in Hdirs as (_ & _ & Hfiles & _ & _ & Hclock & Hticks).
  rewrite Hf, Hc, Ht. unfold file_text. now rewrite Hfiles, Hclock, Hticks.
Qed.

(** The constructor on a file that opens: the Worker and the state. *)
Lemma Worker_ctor_file_ok (p : path) (level : Level) (s : State) (w1 : World) :
  path_empty p = false ->
  fs_tree (world s) ->
  create_directories (parent_path p) (world s) = Some w1 ->
  fst (open_append p w1) = true ->
  Worker_ctor p level s
  = Ret (file_worker p level)
        (emit (file_worker p level) (separator (now s))
           (tick (with_world s (snd (open_append p w1))))).
Proof.
  intros Hp Htree Hdirs Hopen.
  rewrite Worker_ctor_file by exact Hp.
  rewrite (prepare_dirs_create _ _ _ Htree Hdirs). cbn zeta. rewrite Hopen.
  destruct (open_after_create p s w1 Hdirs Hopen) as (_ & Hc & Ht).
  replace (now (with_world s (snd (open_append p w1)))) with (now s); [reflexivity |].
  unfold now. cbn [world with_world]. now rewrite Hc, Ht.
Qed.

(** X13. Adding a file identity that is new, whose directories can be
    created and whose file opens: addWorker returns with the new Worker last
    in the vector, and the file holds what it held before, then the session
    separator, then, when the threshold admits DEBUG, the entry that
    announces the addition, and nothing else. *)
Theorem addFile_fresh (p : path) (level : Level) (s : State) (w1 : World) :
  m_mutex s = false ->
  NoDup (paths s) ->
  p ∉ paths s ->
  path_empty p = false ->
  fs_tree (world s) ->
  create_directories (parent_path p) (world s) = Some w1 ->
  fst (open_append p w1) = true ->
  exists s',
    addFile p level s = Ret tt s' /\
    m_workers s' = m_workers s ++ [file_worker p level] /\
    m_mutex s' = false /\
    if (ord DEBUG <=? ord level)%Z
    then exists n,
           file_text (world s') p
           = file_text (world s) p +:+ separator (now s)
             +:+ fst (log_text false (stamp (clock (world s) n)) (added_line p level))
    else file_text (world s') p = file_text (world s) p +:+ separator (now s).
Proof.
  intros Hm Hnd Hnin Hp Htree Hdirs Hopen. unfold addFile.
  set (wk := file_worker p level).
  set (s1 := emit wk (separator (now s))
               (tick (with_world (with_mutex s true) (snd (open_append p w1))))).
  assert (Hc : Worker_ctor p level (with_mutex s true) = Ret wk s1)
    by (now apply (Worker_ctor_file_ok p level (with_mutex s true) w1)).
  assert (Hcons : console wk = false) by exact Hp.
  assert (Hg : forall x, good wk (world x) = true).
  { intros x. unfold good, wk. cbn [m_path m_stream file_worker of_good].
    now rewrite Hp. }
  assert (Hw : forall x, writable wk x = true)
    by (intros x; unfold writable; now rewrite Hcons).
  assert (Hsink : forall x, sink_text wk x = file_text (world x) p)
    by (intros x; unfold sink_text; now rewrite Hcons).
  destruct (open_after_create p s w1 Hdirs Hopen) as (Hf & Hclock & _).
  assert (Hws1 : m_workers s1 = m_workers s) by (unfold s1; now rewrite workers_emit).
  assert (Hfile1 : file_text (world s1) p = file_text (world s) p +:+ separator (now s)).
  { rewrite <- Hsink. unfold s1. rewrite sink_text_emit by apply Hw.
    rewrite Hsink. f_equal. exact Hf. }
  assert (Hclock1 : clock (world s1) = clock (world s)).
  { unfold s1. destruct (same_frame_emit wk (separator (now s))
      (tick (with_world (with_mutex s true) (snd (open_append p w1))))) as (_ & _ & _ & ->).
    exact Hclock. }
  set (s2 := after_block wk s1).
  assert (Hws2 : m_workers s2 = m_workers s ++ [wk]).
  { unfold s2, after_block. rewrite Hg. cbn [m_workers unlock with_mutex with_workers].
    now rewrite Hws1. }
  exists (dispatch (added_line p level) s2).
  split; [now apply addWorker_constructed |].
  destruct (workers_dispatch (added_line p level) s2) as [Hwd Hmd].
  split; [now rewrite Hwd |]. split; [exact Hmd |].
  assert (Hin : wk ∈ m_workers s2)
    by (rewrite Hws2; apply elem_of_app; right; now apply list_elem_of_singleton).
  assert (Hnd2 : NoDup (paths s2)).
  { unfold paths. rewrite Hws2, fmap_app. apply NoDup_app. split; [exact Hnd |].
    split; [| apply NoDup_singleton].
    intros q Hq Hq'. apply list_elem_of_singleton in Hq'. cbn in Hq'. now subst q. }
  destruct (ord DEBUG <=? ord level)%Z eqn:Ha.
  - destruct (sink_text_dispatch_self (added_line p level) s2 wk Hin Hnd2 (Hw s2) Ha)
      as [n Hn].
    exists n. rewrite <- Hsink, Hn, Hsink, Hcons.
    change (world s2) with (world s1). now rewrite Hfile1, Hclock1, sapp_assoc.
  - rewrite <- Hsink. unfold dispatch.
    change (sink_text wk (unlock ?x)) with (sink_text wk x).
    rewrite (sink_text_fold_skip (added_line p level) (m_workers s2) (with_mutex s2 true) wk
               Hin Hnd2).
    + rewrite Hsink. exact Hfile1.
    + unfold forwards, admits. apply andb_false_iff. right. exact Ha.
Qed.

Lemma addFile_fresh_witness :
  exists s',
    addFile app_log DEBUG sample_state = Ret tt s' /\
    m_workers s' = m_workers sample_state ++ [file_worker app_log DEBUG] /\
    m_mutex s' = false /\
    if (ord DEBUG <=? ord DEBUG)%Z
    then exists n,
           file_text (world s') app_log
           = file_text (world sample_state) app_log +:+ separator (now sample_state)
             +:+ fst (log_text false (stamp (clock (world sample_state) n))
                        (added_line app_log DEBUG))
    else file_text (world s') app_log
         = file_text (world sample_state) app_log +:+ separator (now sample_state).
Proof.
  apply (addFile_fresh app_log DEBUG sample_state
           (with_dirs sample_world ({[ var_log ]} ∪ dirs sample_world))).
  - reflexivity.
  - unfold paths. cbn. apply NoDup_singleton.
  - unfold paths. cbn. intros H. apply list_elem_of_singleton in H. discriminate H.
  - reflexivity.
  - exact fs_tree_sample_world.
  - vm_compute. reflexivity.
  - vm_compute. reflexivity.
Defined.

Lemma cout_fold_bad (line : Line) (ws : list Worker) (s : State) :
  cout_good (world s) = false ->
  cout (world (fold_left (log_step line) ws s)) = cout (world s).
Proof.
  revert s. induction ws as [|wk ws IH]; intros s Hbad; [reflexivity |].
  cbn [fold_left].
  assert (Hstep : cout (world (log_step line s wk)) = cout (world s) /\
                  cout_good (world (log_step line s wk)) = false).
  { unfold log_step. destruct (good wk (world s) && admits wk line); [| auto].
    destruct (emit_elsewhere wk (fst (log_text (console wk) (now s) line)) (tick s))
      as (_ & _ & Hg & Hc & _).
    split; [| now rewrite Hg].
    destruct (console wk) eqn:Ec; [| now rewrite Hc].
    unfold emit, writable. rewrite Ec. cbn [world tick with_world cout_good with_ticks].
    now rewrite Hbad. }
  destruct Hstep as [Hc Hg]. rewrite IH by exact Hg. exact Hc.
Qed.

(** X14. Adding the console while std::cout is not good: addConsole returns,
    the console Worker has been discarded, nothing has reached std::cout,
    and the one line dispatched to the registered Workers is the DEBUG line
    that announces the addition; no WARNING is logged. *)
Theorem addConsole_bad_cout (level : Level) (s : State) :
  m_mutex s = false ->
  (false, []) ∉ paths s ->
  cout_good (world s) = false ->
  addConsole level s = Manager_log (added_line (false, []) level) s /\
  addConsole level s = Ret tt (dispatch (added_line (false, []) level) s) /\
  m_workers (dispatch (added_line (false, []) level) s) = m_workers s /\
  cout (world (dispatch (added_line (false, []) level) s)) = cout (world s).
Proof.
  intros Hm Hnin Hbad.
  rewrite (addConsole_unhealthy level s Hm Hnin Hbad).
  split; [symmetry; apply Manager_log_dispatch; [exact Hm | apply strips_added] |].
  split; [reflexivity |].
  split; [apply workers_dispatch |].
  unfold dispatch. change (world (unlock ?x)) with (world x).
  now rewrite cout_fold_bad.
Qed.

Lemma addConsole_bad_cout_witness :
  addConsole INFO other_state = Manager_log (added_line (false, []) INFO) other_state /\
  addConsole INFO other_state
  = Ret tt (dispatch (added_line (false, []) INFO) other_state) /\
  m_workers (dispatch (added_line (false, []) INFO) other_state) = m_workers other_state /\
  cout (world (dispatch (added_line (false, []) INFO) other_state))
  = cout (world other_state).
Proof.
  apply (addConsole_bad_cout INFO other_state).
  - reflexivity.
  - unfold paths. cbn. intros H. apply list_elem_of_singleton in H. discriminate H.
  - reflexivity.
Defined.

End NewDestinations.

(* ================================================================== *)
(** * Destinations that are not registered *)

Section Unregistered.

Lemma Worker_log_other_sink (wk wk' : Worker) (line : Line) (s : State) :
  m_path wk <> m_path wk' ->
  sink_text wk (state_of (Worker_log wk' line s)) = sink_text wk s.
Proof.
  intros Hne. rewrite Worker_log_state. destruct (forwards wk' line s); [| reflexivity].
  now rewrite sink_text_emit_other, sink_text_tick.
Qed.

Lemma for_each_other_sink (wk : Worker) (line : Line) (ws : list Worker) (s : State) :
  m_path wk ∉ m_path <$> ws ->
  sink_text wk (state_of (for_each ws (fun wk' => Worker_log wk' line) s))
  = sink_text wk s.
Proof.
  revert s. induction ws as [|wk' ws IH]; intros s Hnin; [reflexivity |].
  cbn [fmap list_fmap] in Hnin. apply not_elem_of_cons in Hnin as [Hne Hnin].
  cbn [for_each]. unfold bind.
  pose proof (Worker_log_other_sink wk wk' line s Hne) as Hstep.
  destruct (Worker_log wk' line s) as [[] s1 | f s1]; cbn [state_of] in *;
    [| exact Hstep].
  rewrite IH by exact Hnin. exact Hstep.
Qed.

Lemma Manager_log_other_sink (wk : Worker) (line : Line) (s : State) :
  m_path wk ∉ paths s ->
  sink_text wk (state_of (Manager_log line s)) = sink_text wk s.
Proof.
  intros Hnin. unfold Manager_log, lock_guard, lock.
  destruct (m_mutex s); [reflexivity |]. unfold bind at 1, get.
  pose proof (for_each_other_sink wk line (m_workers s) (with_mutex s true) Hnin) as H.
  change (m_workers (with_mutex s true)) with (m_workers s).
  destruct (for_each (m_workers s) _ (with_mutex s true)) as [[] s2 | f s2];
    cbn [state_of] in *; [exact H | destruct f; exact H].
Qed.

Lemma run_cons_ret (c : Call) (cs : list Call) (s s' : State) :
  call c s = Ret tt s' -> run (c :: cs) s = run cs s'.
Proof. intros H. cbn [run]. now rewrite H. Qed.

(** X16. [manager.log] writes to the destinations of the registered Workers
    only: a destination whose identity no registered Worker has is as
    before, for every event and however the dispatch ends.  So once
    removeWorker has returned, later events no longer reach the removed
    Worker's destination. *)
Theorem removed_worker_silent (wk : Worker) (line : Line) (s : State) :
  (m_path wk ∉ paths s ->
   sink_text wk (state_of (Manager_log line s)) = sink_text wk s) /\
  (m_mutex s = false -> NoDup (paths s) ->
   sink_text wk (state_of (run [RemoveWorker (m_path wk); Log line] s))
   = sink_text wk (state_of (run [RemoveWorker (m_path wk)] s))).
Proof.
  split; [apply Manager_log_other_sink |].
  intros Hm Hnd.
  rewrite !(run_cons_ret (RemoveWorker (m_path wk)) _ s _ (removeWorker_run (m_path wk) s Hm)).
  rewrite run_single. cbn [call run state_of]. apply Manager_log_other_sink.
  unfold paths. cbn [m_workers with_workers]. now apply erase_first_gone.
Qed.

Lemma removed_worker_silent_witness :
  sink_text (console_worker TRACE)
    (state_of (run [RemoveWorker (m_path (console_worker TRACE));
                    Log (sample_line ERROR "down")] sample_state))
  = sink_text (console_worker TRACE)
      (state_of (run [RemoveWorker (m_path (console_worker TRACE))] sample_state)).
Proof.
  destruct (removed_worker_silent (console_worker TRACE) (sample_line ERROR "down")
              sample_state) as [_ H].
  apply H.
  - reflexivity.
  - unfold paths. cbn. apply NoDup_singleton.
Defined.

End Unregistered.

Section NewConsole.

(** X17. Adding the console when it is not registered and std::cout is good:
    addConsole returns with the console Worker last in the vector, no
    separator is written, and std::cout receives the entry that announces
    the addition when the threshold admits DEBUG, and nothing otherwise. *)
Theorem addConsole_fresh (level : Level) (s : State) :
  m_mutex s = false ->
  NoDup (paths s) ->
  (false, []) ∉ paths s ->
  cout_good (world s) = true ->
  exists s',
    addConsole level s = Ret tt s' /\
    m_workers s' = m_workers s ++ [console_worker level] /\
    m_mutex s' = false /\
    if (ord DEBUG <=? ord level)%Z
    then exists n,
           cout (world s')
           = cout (world s)
             +:+ fst (log_text true (stamp (clock (world s) n))
                        (added_line (false, []) level))
    else cout (world s') = cout (world s).
Proof.
  intros Hm Hnd Hnin Hgood. unfold addConsole.
  set (wk := console_worker level).
  set (s2 := after_block wk (with_mutex s true)).
  assert (Hws2 : m_workers s2 = m_workers s ++ [wk]).
  { unfold s2, after_block, good, wk. cbn [m_path console_worker world with_mutex].
    rewrite Hgood. reflexivity. }
  exists (dispatch (added_line (false, []) level) s2).
  split.
  { apply (addWorker_constructed (false, []) level s (with_mutex s true) wk Hm Hnin).
    now apply Worker_ctor_console. }
  destruct (workers_dispatch (added_line (false, []) level) s2) as [Hwd Hmd].
  split; [now rewrite Hwd |]. split; [exact Hmd |].
  assert (Hin : wk ∈ m_workers s2)
    by (rewrite Hws2; apply elem_of_app; right; now apply list_elem_of_singleton).
  assert (Hnd2 : NoDup (paths s2)).
  { unfold paths. rewrite Hws2, fmap_app. apply NoDup_app. split; [exact Hnd |].
    split; [| apply NoDup_singleton].
    intros q Hq Hq'. apply list_elem_of_singleton in Hq'. cbn in Hq'. now subst q. }
  change (cout (world (dispatch (added_line (false, []) level) s2)))
    with (sink_text wk (dispatch (added_line (false, []) level) s2)).
  change (cout (world s)) with (sink_text wk s2).
  destruct (ord DEBUG <=? ord level)%Z eqn:Ha.
  - destruct (sink_text_dispatch_self (added_line (false, []) level) s2 wk Hin Hnd2)
      as [n Hn]; [exact Hgood | exact Ha |].
    exists n. exact Hn.
  - unfold dispatch. change (sink_text wk (unlock ?x)) with (sink_text wk x).
    apply (sink_text_fold_skip (added_line (false, []) level) (m_workers s2)
             (with_mutex s2 true) wk Hin Hnd2).
    unfold forwards, admits. apply andb_false_iff. right. exact Ha.
Qed.

Lemma addConsole_fresh_witness :
  exists s',
    addConsole INFO (with_workers sample_state []) = Ret tt s' /\
    m_workers s' = m_workers (with_workers sample_state []) ++ [console_worker INFO] /\
    m_mutex s' = false /\
    if (ord DEBUG <=? ord INFO)%Z
    then exists n,
           cout (world s')
           = cout (world (with_workers sample_state []))
             +:+ fst (log_text true (stamp (clock (world (with_workers sample_state [])) n))
                        (added_line (false, []) INFO))
    else cout (world s') = cout (world (with_workers sample_state [])).
Proof.
  apply (addConsole_fresh INFO (with_workers sample_state [])).
  - reflexivity.
  - unfold paths. cbn. apply NoDup_nil_2.
  - unfold paths. cbn. apply not_elem_of_nil.
  - reflexivity.
Defined.

End NewConsole.
